(** * The API of the profile and post service, embedded in Rocq

    The route handlers of [routes/api/posts.js], [routes/api/profile.js],
    [routes/api/users.js] and [routes/api/auth.js] are written as functions
    from the request and the database to the response and the database.
    JavaScript arrays are lists, with [indexOf] and [splice] following
    ECMAScript (an absent element has index -1, a negative start counts from
    the end of the array); a Mongoose collection is the list of its
    documents. *)

From Stdlib Require Import List String Ascii ZArith Lia Bool Arith.
Import ListNotations.
Open Scope string_scope.
Open Scope list_scope.

Set Warnings "-register-all".

(* ================================================================== *)
(** ** JavaScript values the handlers compute with *)

Module Js.

(** [if (s)]: a field of the request body is truthy when it is present
    and not the empty string. *)
Definition truthy (v : option string) : bool :=
  match v with
  | Some s => negb (s =? "")
  | None => false
  end.

(** [Array.prototype.indexOf] on an array of strings (strict equality):
    the index of the first occurrence, -1 when there is none. *)
Fixpoint indexOf_from (i : Z) (l : list string) (x : string) : Z :=
  match l with
  | [] => (-1)%Z
  | y :: l' => if y =? x then i else indexOf_from (i + 1)%Z l' x
  end.

Definition indexOf (l : list string) (x : string) : Z := indexOf_from 0%Z l x.

Section Arrays.
Context {A : Type}.

(** [Array.prototype.unshift]: insertion at the head. *)
Definition unshift (x : A) (l : list A) : list A := x :: l.

(** The actual start of [splice(start, _)] on an array of length [len]:
    a negative [start] counts from the end, and the result is clamped to
    [0 .. len]. *)
Definition splice_start (len start : Z) : Z :=
  if (start <? 0)%Z then Z.max (len + start) 0 else Z.min start len.

(** [Array.prototype.splice(start, deleteCount)] with no inserted items:
    the array as it is left after the call. *)
Definition splice (start deleteCount : Z) (l : list A) : list A :=
  let len := Z.of_nat (List.length l) in
  let s := splice_start len start in
  let d := Z.min (Z.max deleteCount 0) (len - s) in
  firstn (Z.to_nat s) l ++ skipn (Z.to_nat (s + d)) l.

End Arrays.

(** A Rocq string holds the bytes of the UTF-8 encoding of the JavaScript
    string.  A character is one byte that is not a continuation byte
    (10xxxxxx), followed by its continuation bytes. *)
Definition is_continuation (c : ascii) : bool :=
  ((128 <=? nat_of_ascii c) && (nat_of_ascii c <? 192))%nat.

(** The number of characters of the string. *)
Fixpoint codePoints (s : string) : nat :=
  match s with
  | EmptyString => 0
  | String c s' => (if is_continuation c then 0 else 1) + codePoints s'
  end.

(** The string of the given bytes. *)
Definition bytes (l : list nat) : string :=
  string_of_list_ascii (map ascii_of_nat l).

(** The characters [String.prototype.trim] removes, each in UTF-8: the
    white space (TAB, VT, FF, SP, NBSP U+00A0, ZWNBSP U+FEFF and the space
    separators U+1680, U+2000 to U+200A, U+202F, U+205F, U+3000) and the
    line terminators (LF, CR, U+2028, U+2029). *)
Definition whiteSpace : list string :=
  map bytes
    [[9]; [10]; [11]; [12]; [13]; [32];
     [194; 160];
     [225; 154; 128];
     [226; 128; 128]; [226; 128; 129]; [226; 128; 130]; [226; 128; 131];
     [226; 128; 132]; [226; 128; 133]; [226; 128; 134]; [226; 128; 135];
     [226; 128; 136]; [226; 128; 137]; [226; 128; 138];
     [226; 128; 168]; [226; 128; 169];
     [226; 128; 175];
     [226; 129; 159];
     [227; 128; 128];
     [239; 187; 191]].

Fixpoint rev_string (acc s : string) : string :=
  match s with
  | String c s' => rev_string (String c acc) s'
  | EmptyString => acc
  end.

(** The string is one of the table. *)
Definition listed (table : list string) (w : string) : bool :=
  existsb (String.eqb w) table.

(** The string without the characters of the table it starts with; a
    character of the table has one, two or three bytes. *)
Fixpoint strip (table : list string) (s : string) : string :=
  match s with
  | EmptyString => EmptyString
  | String c1 s1 =>
      if listed table (String c1 "") then strip table s1
      else
        match s1 with
        | EmptyString => s
        | String c2 s2 =>
            if listed table (String c1 (String c2 "")) then strip table s2
            else
              match s2 with
              | EmptyString => s
              | String c3 s3 =>
                  if listed table (String c1 (String c2 (String c3 "")))
                  then strip table s3
                  else s
              end
        end
  end.

Definition trim_start (s : string) : string := strip whiteSpace s.

(** [String.prototype.trim]: the end of the string is the start of the
    string read backwards, where the bytes of a character come in
    reverse order. *)
Definition trim (s : string) : string :=
  rev_string ""
    (strip (map (rev_string "") whiteSpace) (rev_string "" (trim_start s))).

(** [ObjectId.toString()] of the ObjectId a string is cast to: the
    hexadecimal digits in lower case for a string of 24 hexadecimal
    digits, two hexadecimal digits for every byte for a string of 12
    bytes. *)
Definition lowerHexDigit (c : ascii) : ascii :=
  if ((65 <=? nat_of_ascii c) && (nat_of_ascii c <=? 70))%nat
  then ascii_of_nat (nat_of_ascii c + 32)
  else c.

Fixpoint lowerHex (s : string) : string :=
  match s with
  | EmptyString => EmptyString
  | String c s' => String (lowerHexDigit c) (lowerHex s')
  end.

Definition hexDigit (n : nat) : ascii :=
  ascii_of_nat (if (n <? 10)%nat then 48 + n else 87 + n).

Fixpoint hexOfBytes (s : string) : string :=
  match s with
  | EmptyString => EmptyString
  | String c s' =>
      String (hexDigit (nat_of_ascii c / 16))
             (String (hexDigit (nat_of_ascii c mod 16)) (hexOfBytes s'))
  end.

Definition objectIdString (s : string) : string :=
  if (String.length s =? 12)%nat then hexOfBytes s else lowerHex s.

(** [s.split(',')]: the pieces between commas, at least one piece. *)
Fixpoint split_comma_acc (cur : string) (s : string) : list string :=
  match s with
  | EmptyString => [rev_string "" cur]
  | String c s' =>
      if Ascii.eqb c ","%char
      then rev_string "" cur :: split_comma_acc "" s'
      else split_comma_acc (String c cur) s'
  end.

Definition split_comma (s : string) : list string := split_comma_acc "" s.

End Js.

(* ================================================================== *)
(** ** Documents *)

(** A user id, a post id and the like are the 24-digit hexadecimal strings
    of Mongo's ObjectId, as [toString()] and the [id] getter return them. *)
Definition id := string.

Record User := mkUser {
  user_id : id;
  user_name : string;
  user_email : string;
  user_avatar : string;
  user_password : string        (* the bcrypt hash *)
}.

(** An element of [post.likes]: [{ user }], with the [_id] Mongoose gives
    every embedded document. *)
Record Like := mkLike {
  like_id : id;
  like_user : id
}.

(** An element of [post.comments]. *)
Record Comment := mkComment {
  comment_id : id;
  comment_text : string;
  comment_name : string;
  comment_avatar : string;
  comment_user : id
}.

Record Post := mkPost {
  post_id : id;
  post_user : id;
  post_text : string;
  post_name : string;
  post_avatar : string;
  likes : list Like;
  comments : list Comment
}.

Definition set_likes (l : list Like) (p : Post) : Post :=
  mkPost (post_id p) (post_user p) (post_text p) (post_name p)
         (post_avatar p) l (comments p).

Definition set_comments (c : list Comment) (p : Post) : Post :=
  mkPost (post_id p) (post_user p) (post_text p) (post_name p)
         (post_avatar p) (likes p) c.

(** An element of [profile.experiences]. *)
Record Experience := mkExperience {
  exp_id : id;
  exp_title : string;
  exp_company : string;
  exp_location : option string;
  exp_from : string;
  exp_to : option string;
  exp_current : bool;
  exp_description : option string
}.

(** An element of [profile.education]. *)
Record Education := mkEducation {
  edu_id : id;
  edu_school : string;
  edu_degree : string;
  edu_fieldofstudy : string;
  edu_from : string;
  edu_to : option string;
  edu_current : bool;
  edu_description : option string
}.

(** [profile.social]: every link is optional. *)
Record Social := mkSocial {
  youtube : option string;
  facebook : option string;
  twitter : option string;
  instagram : option string;
  linkedin : option string
}.

Record Profile := mkProfile {
  profile_id : id;
  profile_user : id;
  company : option string;
  website : option string;
  location : option string;
  status : option string;
  skills : list string;
  bio : option string;
  githubusername : option string;
  social : Social;
  experiences : list Experience;
  education : list Education
}.

Definition set_experiences (e : list Experience) (p : Profile) : Profile :=
  mkProfile (profile_id p) (profile_user p) (company p) (website p)
            (location p) (status p) (skills p) (bio p) (githubusername p)
            (social p) e (education p).

Definition set_education (e : list Education) (p : Profile) : Profile :=
  mkProfile (profile_id p) (profile_user p) (company p) (website p)
            (location p) (status p) (skills p) (bio p) (githubusername p)
            (social p) (experiences p) e.

(* ================================================================== *)
(** ** Collections *)

(** What a Mongoose model needs of its documents: the [_id], and the
    string under which a query compares an [_id].  Mongoose casts the
    value of a query on [_id] to an ObjectId, and two ids are the same
    when they are written the same way by [toString()]. *)
Class Document (A : Type) := {
  doc_id : A -> id;
  query_id : string -> id
}.

(** Accounts and profiles are fetched by [_id] with ids the server wrote
    itself (the identity of the caller, the [_id] of a fetched document):
    these are compared as they are written. *)
#[export] Instance User_Document : Document User :=
  {| doc_id := user_id; query_id := fun i => i |}.
#[export] Instance Profile_Document : Document Profile :=
  {| doc_id := profile_id; query_id := fun i => i |}.

(** Posts are fetched by the parameter of the route, which may be
    written in another way than the id it is cast to. *)
#[export] Instance Post_Document : Document Post :=
  {| doc_id := post_id; query_id := Js.objectIdString |}.

Module Db.

Section Collection.
Context {A : Type} `{Document A}.

(** [Model.findOne(query)]: the first document the query selects. *)
Definition findOne (q : A -> bool) (c : list A) : option A := find q c.

(** [Model.findById(i)]: the first document whose [_id] is the ObjectId
    [i] is cast to. *)
Definition lookup (i : id) (c : list A) : option A :=
  findOne (fun d => query_id (doc_id d) =? query_id i) c.

(** [new Model(fields).save()]: a new document joins the collection. *)
Definition insert (d : A) (c : list A) : list A := c ++ [d].

(** [doc.save()] on a fetched document: the stored document with the
    same [_id] is replaced. *)
Fixpoint save (d : A) (c : list A) : list A :=
  match c with
  | [] => [d]
  | x :: c' =>
      if query_id (doc_id x) =? query_id (doc_id d)
      then d :: c'
      else x :: save d c'
  end.

(** [doc.remove()]: the document with that [_id] leaves the collection. *)
Definition remove (d : A) (c : list A) : list A :=
  filter (fun x => negb (query_id (doc_id x) =? query_id (doc_id d))) c.

(** [Model.findOneAndUpdate(query, update, { new: true })]: the first
    selected document is updated in place; the call returns it as updated
    ([None] for JavaScript's [null], when the query selects nothing). *)
Fixpoint findOneAndUpdate (q : A -> bool) (f : A -> A) (c : list A)
  : option A * list A :=
  match c with
  | [] => (None, [])
  | x :: c' =>
      if q x then (Some (f x), f x :: c')
      else let (r, c'') := findOneAndUpdate q f c' in (r, x :: c'')
  end.

(** [Model.findOneAndRemove(query)]. *)
Fixpoint findOneAndRemove (q : A -> bool) (c : list A) : list A :=
  match c with
  | [] => []
  | x :: c' => if q x then c' else x :: findOneAndRemove q c'
  end.

End Collection.

End Db.

Record DB := mkDB {
  users : list User;
  profiles : list Profile;
  posts : list Post
}.

Definition set_users (u : list User) (db : DB) : DB :=
  mkDB u (profiles db) (posts db).
Definition set_profiles (p : list Profile) (db : DB) : DB :=
  mkDB (users db) p (posts db).
Definition set_posts (p : list Post) (db : DB) : DB :=
  mkDB (users db) (profiles db) p.

(* ================================================================== *)
(** ** Responses *)

(** The object literals the handlers send. *)
Inductive json :=
| JNull
| JStr (s : string)
| JArr (items : list json)
| JObj (fields : list (string * json)).

(** [{ msg: m }] *)
Definition msg_obj (m : string) : json := JObj [("msg", JStr m)].

(** An element of [errors.array()] of express-validator. *)
Record FieldError := mkFieldError {
  fe_param : string;
  fe_msg : string;
  fe_value : option string
}.

Inductive Body :=
| Literal (j : json)                       (* res.json({ ... }) *)
| Text (s : string)                        (* res.send('...') *)
| ValidationErrors (es : list FieldError)  (* { errors: errors.array() } *)
| TokenBody (token : string)               (* { token } *)
| PostBody (p : Post)
| LikesBody (l : list Like)
| CommentsBody (c : list Comment)
| ProfileBody (p : Profile).

Record Response := mkResponse {
  res_status : nat;
  res_body : Body
}.

Definition ok (b : Body) : Response := mkResponse 200 b.
Definition server_error : Response := mkResponse 500 (Text "Server Error").

(* ================================================================== *)
(** ** What the handlers call outside this repository *)

(** The library functions the handlers rely on.  Their results are all the
    handlers see of them. *)
Record Externals := mkExternals {
  (** Mongoose can cast the string to an ObjectId; when it cannot, the
      query throws a CastError whose [kind] is ['ObjectId']. *)
  isObjectId : string -> bool;
  (** validator.js [isEmail]. *)
  isEmail : string -> bool;
  (** [gravatar.url(email, { s: 200, r: 'pg', d: 'mm' })]. *)
  gravatar_url : string -> string;
  (** [bcrypt.hash(password, salt)]. *)
  bcrypt_hash : string -> string -> string;
  (** [bcrypt.compare(password, hash)]. *)
  bcrypt_compare : string -> string -> bool;
  (** [jwt.sign({ user: { id } }, secret, { expiresIn })]. *)
  jwt_sign : id -> string
}.

(** The outcome of [Model.findById(param)]. *)
Inductive Fetched (A : Type) :=
| Resolved (doc : option A)
| CastError.
Arguments Resolved {A} doc.
Arguments CastError {A}.

Definition findById {A : Type} `{Document A} (ext : Externals)
    (param : string) (c : list A) : Fetched A :=
  if isObjectId ext param then Resolved (Db.lookup param c) else CastError.

(** express-validator's [.not().isEmpty()]: the field, read as a string
    (an absent field reads as the empty string), is not empty. *)
Definition field_string (v : option string) : string :=
  match v with
  | Some s => s
  | None => ""
  end.

Definition notEmpty (v : option string) : bool :=
  negb (field_string v =? "").

(** One [check(param, msg)] of a validation chain: its error when the
    test fails. *)
Definition check (param msg : string) (v : option string) (passes : bool)
  : list FieldError :=
  if passes then [] else [mkFieldError param msg v].

Definition isEmpty {A : Type} (l : list A) : bool :=
  match l with
  | [] => true
  | _ :: _ => false
  end.

(* ================================================================== *)
(** ** routes/api/posts.js *)

(** Every handler takes the identity the access gate resolved
    ([req.user.id]), the parameters of the route and the database, and
    returns the response it sends with the database it leaves. *)

Module PostsApi.
Section Handlers.
Context (ext : Externals).

Definition not_found : Response :=
  mkResponse 404 (Literal (msg_obj "Post Not Found")).

(** GET api/posts/:id *)
Definition getById (postId : string) (db : DB) : Response * DB :=
  match findById ext postId (posts db) with
  | Resolved None => (not_found, db)
  | Resolved (Some post) => (ok (PostBody post), db)
  | CastError => (not_found, db)           (* err.kind === 'ObjectId' *)
  end.

(** DELETE api/posts/:id *)
Definition delete (caller : id) (postId : string) (db : DB) : Response * DB :=
  match findById ext postId (posts db) with
  | Resolved None => (not_found, db)
  | Resolved (Some post) =>
      if negb (post_user post =? caller)
      then (mkResponse 401 (Literal (msg_obj "User not authorised")), db)
      else (ok (Literal (msg_obj "Post Removed")),
            set_posts (Db.remove post (posts db)) db)
  | CastError => (not_found, db)
  end.

(** The likes of the post that are the caller's:
    [post.likes.filter((like) => like.user.toString() === req.user.id)]. *)
Definition alreadyLiked (caller : id) (post : Post) : list Like :=
  filter (fun like => like_user like =? caller) (likes post).

(** PUT api/posts/like/:id; [likeId] is the [_id] the new like receives. *)
Definition like (caller : id) (postId : string) (likeId : id) (db : DB)
  : Response * DB :=
  match findById ext postId (posts db) with
  | Resolved None => (not_found, db)
  | Resolved (Some post) =>
      if (0 <? List.length (alreadyLiked caller post))%nat
      then (mkResponse 400 (Literal (msg_obj "Post already liked")), db)
      else
        let post' :=
          set_likes (Js.unshift (mkLike likeId caller) (likes post)) post in
        (ok (LikesBody (likes post')),
         set_posts (Db.save post' (posts db)) db)
  | CastError => (not_found, db)
  end.

(** [post.likes.map((like) => like.user.toString()).indexOf(req.user.id)] *)
Definition likeRemoveIndex (caller : id) (post : Post) : Z :=
  Js.indexOf (map like_user (likes post)) caller.

(** PUT api/posts/unlike/:id *)
Definition unlike (caller : id) (postId : string) (db : DB)
  : Response * DB :=
  match findById ext postId (posts db) with
  | Resolved None => (not_found, db)
  | Resolved (Some post) =>
      if (List.length (alreadyLiked caller post) =? 0)%nat
      then
        (mkResponse 400 (Literal (msg_obj "Post has not yet been liked")), db)
      else
        let removeIndex := likeRemoveIndex caller post in
        let post' := set_likes (Js.splice removeIndex 1 (likes post)) post in
        (ok (LikesBody (likes post')),
         set_posts (Db.save post' (posts db)) db)
  | CastError => (not_found, db)
  end.

(** POST api/posts/comment/:id; [commentId] is the [_id] the new comment
    receives.  The catch clause of this route answers every exception with
    500. *)
Definition addComment (caller : id) (postId : string) (text : option string)
    (commentId : id) (db : DB) : Response * DB :=
  let errors := check "text" "Post Content is Required." text (notEmpty text) in
  if negb (isEmpty errors)
  then (mkResponse 400 (ValidationErrors errors), db)
  else
    let user := Db.lookup caller (users db) in
    match findById ext postId (posts db) with
    | Resolved None => (not_found, db)
    | Resolved (Some post) =>
        match user with
        | None => (server_error, db)       (* user.name of null throws *)
        | Some user =>
            let newComment :=
              mkComment commentId (field_string text) (user_name user)
                        (user_avatar user) caller in
            let post' :=
              set_comments (Js.unshift newComment (comments post)) post in
            (ok (CommentsBody (comments post')),
             set_posts (Db.save post' (posts db)) db)
        end
    | CastError => (server_error, db)
    end.

(** [post.comments.map((comment) => comment.user.toString())
         .indexOf(req.user.id)] *)
Definition commentRemoveIndex (caller : id) (post : Post) : Z :=
  Js.indexOf (map comment_user (comments post)) caller.

(** DELETE api/posts/comment/:id/:comment_id.  The user fetched first is
    not used. *)
Definition removeComment (caller : id) (postId commentId : string) (db : DB)
  : Response * DB :=
  match findById ext postId (posts db) with
  | Resolved None => (not_found, db)
  | Resolved (Some post) =>
      let curComment :=
        find (fun comment => comment_id comment =? commentId) (comments post) in
      match curComment with
      | None =>
          (mkResponse 404 (Literal (msg_obj "Comment doesn't exists")), db)
      | Some curComment =>
          if negb (comment_user curComment =? caller)
          then (mkResponse 401 (Literal (msg_obj "User not authorized")), db)
          else
            let removeIndex := commentRemoveIndex caller post in
            let post' :=
              set_comments (Js.splice removeIndex 1 (comments post)) post in
            (ok (CommentsBody (comments post')),
             set_posts (Db.save post' (posts db)) db)
      end
  | CastError => (server_error, db)
  end.

(** POST api/posts; [postId] is the [_id] the new post receives.  The
    post carries the name and the avatar the author has at that time. *)
Definition create (caller : id) (text : option string) (postId : id)
    (db : DB) : Response * DB :=
  let errors := check "text" "Post Content is Required." text (notEmpty text) in
  if negb (isEmpty errors)
  then (mkResponse 400 (ValidationErrors errors), db)
  else
    match Db.lookup caller (users db) with
    | None => (server_error, db)           (* user.name of null throws *)
    | Some user =>
        let newPost :=
          mkPost postId caller (field_string text) (user_name user)
                 (user_avatar user) [] [] in
        (ok (PostBody newPost), set_posts (Db.insert newPost (posts db)) db)
    end.

End Handlers.
End PostsApi.

(* ================================================================== *)
(** ** routes/api/profile.js *)

Module ProfileApi.

(** The fields of the request body POST api/profile reads. *)
Record ReqBody := mkReqBody {
  b_company : option string;
  b_website : option string;
  b_location : option string;
  b_status : option string;
  b_skills : option string;
  b_bio : option string;
  b_githubusername : option string;
  b_youtube : option string;
  b_twitter : option string;
  b_linkedin : option string;
  b_instagram : option string;
  b_facebook : option string
}.

(** The object [profileFields]: a field is [None] when the object has no
    such key; [user] and [social] are always there. *)
Record ProfileFields := mkProfileFields {
  pf_user : id;
  pf_company : option string;
  pf_website : option string;
  pf_location : option string;
  pf_status : option string;
  pf_bio : option string;
  pf_githubusername : option string;
  pf_skills : option (list string);
  pf_social : Social
}.

(** [if (v) fields.key = v]: the key is written for a truthy value only. *)
Definition supplied (v : option string) : option string :=
  if Js.truthy v then v else None.

(** Build Profile Object, then Build Social Object. *)
Definition buildProfileFields (caller : id) (b : ReqBody) : ProfileFields :=
  mkProfileFields
    caller
    (supplied (b_company b))
    (supplied (b_website b))
    (supplied (b_location b))
    (supplied (b_status b))
    (supplied (b_bio b))
    (supplied (b_githubusername b))
    (if Js.truthy (b_skills b)
     then Some (map Js.trim (Js.split_comma (field_string (b_skills b))))
     else None)
    (mkSocial (supplied (b_youtube b)) (supplied (b_facebook b))
              (supplied (b_twitter b)) (supplied (b_instagram b))
              (supplied (b_linkedin b))).

(** The value of a field after [$set]: the new value when the update has
    the key, the stored one otherwise. *)
Definition assign {V : Type} (new : option V) (old : V) : V :=
  match new with
  | Some v => v
  | None => old
  end.

Definition assign_opt (new old : option string) : option string :=
  match new with
  | Some v => Some v
  | None => old
  end.

(** [{ $set: profileFields }] on a stored profile.  MongoDB's [$set]
    replaces the value of every field named by a key of the update; the
    key [social] names the whole embedded object, which is therefore
    replaced by the object the handler built.  Fields without a key in the
    update keep their stored value. *)
Definition set_fields (f : ProfileFields) (p : Profile) : Profile :=
  mkProfile (profile_id p)
            (pf_user f)
            (assign_opt (pf_company f) (company p))
            (assign_opt (pf_website f) (website p))
            (assign_opt (pf_location f) (location p))
            (assign_opt (pf_status f) (status p))
            (assign (pf_skills f) (skills p))
            (assign_opt (pf_bio f) (bio p))
            (assign_opt (pf_githubusername f) (githubusername p))
            (pf_social f)
            (experiences p)
            (education p).

(** [new Profile(profileFields)]; [profileId] is the [_id] the document
    receives. *)
Definition newProfile (profileId : id) (f : ProfileFields) : Profile :=
  mkProfile profileId
            (pf_user f)
            (pf_company f) (pf_website f) (pf_location f) (pf_status f)
            (assign (pf_skills f) [])
            (pf_bio f) (pf_githubusername f)
            (pf_social f)
            [] [].

(** The query [{ user: req.user.id }]. *)
Definition ofUser (caller : id) (p : Profile) : bool :=
  profile_user p =? caller.

(** POST api/profile *)
Definition upsert (caller : id) (b : ReqBody) (profileId : id) (db : DB)
  : Response * DB :=
  let errors :=
    check "status" "Status is Required" (b_status b) (notEmpty (b_status b))
    ++ check "skills" "Skills is Required" (b_skills b)
             (notEmpty (b_skills b)) in
  if negb (isEmpty errors)
  then (mkResponse 400 (ValidationErrors errors), db)
  else
    let profileFields := buildProfileFields caller b in
    match Db.findOne (ofUser caller) (profiles db) with
    | Some _ =>
        (* Update *)
        let (profile, profiles') :=
          Db.findOneAndUpdate (ofUser caller) (set_fields profileFields)
                              (profiles db) in
        (ok (match profile with
             | Some profile => ProfileBody profile
             | None => Literal JNull
             end),
         set_profiles profiles' db)
    | None =>
        (* Create *)
        let profile := newProfile profileId profileFields in
        (ok (ProfileBody profile),
         set_profiles (Db.insert profile (profiles db)) db)
    end.

(** DELETE api/profile *)
Definition deleteOwn (caller : id) (db : DB) : Response * DB :=
  let db1 := set_profiles (Db.findOneAndRemove (ofUser caller) (profiles db)) db in
  let db2 :=
    set_users (Db.findOneAndRemove (fun u => user_id u =? caller) (users db1))
              db1 in
  (ok (Literal (msg_obj "User Deleted")), db2).

(** DELETE api/profile/experience/:experience_id.  Without a profile,
    reading [profile.experiences] throws and the catch clause answers 500. *)
Definition removeExperience (caller : id) (experience_id : string) (db : DB)
  : Response * DB :=
  match Db.findOne (ofUser caller) (profiles db) with
  | None => (server_error, db)
  | Some profile =>
      let removeIndex :=
        Js.indexOf (map exp_id (experiences profile)) experience_id in
      let profile' :=
        set_experiences (Js.splice removeIndex 1 (experiences profile))
                        profile in
      (ok (ProfileBody profile'),
       set_profiles (Db.save profile' (profiles db)) db)
  end.

(** DELETE api/profile/education/:education_id *)
Definition removeEducation (caller : id) (education_id : string) (db : DB)
  : Response * DB :=
  match Db.findOne (ofUser caller) (profiles db) with
  | None => (server_error, db)
  | Some profile =>
      let removeIndex :=
        Js.indexOf (map edu_id (education profile)) education_id in
      let profile' :=
        set_education (Js.splice removeIndex 1 (education profile)) profile in
      (ok (ProfileBody profile'),
       set_profiles (Db.save profile' (profiles db)) db)
  end.

(** The fields of the request body PUT api/profile/experience stores. *)
Record ExperienceForm := mkExperienceForm {
  f_title : option string;
  f_company : option string;
  f_location : option string;
  f_from : option string;
  f_to : option string;
  f_current : bool;
  f_description : option string
}.

(** PUT api/profile/experience; [entryId] is the [_id] the new entry
    receives.  Without a profile, reading [profile.experiences] throws and
    the catch clause answers 500. *)
Definition addExperience (caller : id) (f : ExperienceForm) (entryId : id)
    (db : DB) : Response * DB :=
  let errors :=
    check "title" "Title is required!" (f_title f) (notEmpty (f_title f))
    ++ check "company" "Company is required!" (f_company f)
             (notEmpty (f_company f))
    ++ check "from" "From Date is required!" (f_from f)
             (notEmpty (f_from f)) in
  if negb (isEmpty errors)
  then (mkResponse 400 (ValidationErrors errors), db)
  else
    match Db.findOne (ofUser caller) (profiles db) with
    | None => (server_error, db)
    | Some profile =>
        let entry :=
          mkExperience entryId (field_string (f_title f))
                       (field_string (f_company f)) (f_location f)
                       (field_string (f_from f)) (f_to f) (f_current f)
                       (f_description f) in
        let profile' :=
          set_experiences (Js.unshift entry (experiences profile)) profile in
        (ok (ProfileBody profile'),
         set_profiles (Db.save profile' (profiles db)) db)
    end.

(** The fields of the request body PUT api/profile/education stores. *)
Record EducationForm := mkEducationForm {
  g_school : option string;
  g_degree : option string;
  g_fieldofstudy : option string;
  g_from : option string;
  g_to : option string;
  g_current : bool;
  g_description : option string
}.

(** PUT api/profile/education *)
Definition addEducation (caller : id) (g : EducationForm) (entryId : id)
    (db : DB) : Response * DB :=
  let errors :=
    check "school" "School field is required!" (g_school g)
          (notEmpty (g_school g))
    ++ check "degree" "Degree field is required!" (g_degree g)
             (notEmpty (g_degree g))
    ++ check "fieldofstudy" "fieldofstudy field is required!"
             (g_fieldofstudy g) (notEmpty (g_fieldofstudy g))
    ++ check "from" "from Date is required!" (g_from g)
             (notEmpty (g_from g)) in
  if negb (isEmpty errors)
  then (mkResponse 400 (ValidationErrors errors), db)
  else
    match Db.findOne (ofUser caller) (profiles db) with
    | None => (server_error, db)
    | Some profile =>
        let entry :=
          mkEducation entryId (field_string (g_school g))
                      (field_string (g_degree g))
                      (field_string (g_fieldofstudy g))
                      (field_string (g_from g)) (g_to g) (g_current g)
                      (g_description g) in
        let profile' :=
          set_education (Js.unshift entry (education profile)) profile in
        (ok (ProfileBody profile'),
         set_profiles (Db.save profile' (profiles db)) db)
    end.

(** A profile as [populate('user', ['name', 'avatar'])] shows it: with the
    name and the avatar of the account its [user] refers to, [None] when
    no account has that id. *)
Record Populated := mkPopulated {
  pop_profile : Profile;
  pop_user : option (string * string)
}.

Definition populate (accounts : list User) (p : Profile) : Populated :=
  mkPopulated p
    (match Db.lookup (profile_user p) accounts with
     | Some u => Some (user_name u, user_avatar u)
     | None => None
     end).

(** What the routes that read profiles answer. *)
Inductive ReadBody :=
| Shown (p : Populated)
| ShownAll (l : list Populated)
| Refused (j : json).

(** GET api/profile/me *)
Definition getOwn (caller : id) (db : DB) : nat * ReadBody :=
  match Db.findOne (ofUser caller) (profiles db) with
  | None => (400, Refused (msg_obj "There is no profile for this user"))
  | Some profile => (200, Shown (populate (users db) profile))
  end.

(** GET api/profile *)
Definition getAll (db : DB) : nat * ReadBody :=
  (200, ShownAll (map (populate (users db)) (profiles db))).

(** The query [{ user: user_id }] with the parameter of the route, which
    Mongoose casts to an ObjectId: the profile whose [user] is written
    like the parameter, or else like the ObjectId the parameter is cast
    to. *)
Definition ofUserParam (user_id : string) (c : list Profile)
  : option Profile :=
  match Db.findOne (ofUser user_id) c with
  | Some profile => Some profile
  | None => Db.findOne (ofUser (Js.objectIdString user_id)) c
  end.

(** GET api/profile/user/:user_id; a [user_id] that is not an ObjectId
    makes the query throw a CastError, answered like a missing profile. *)
Definition getByUser (ext : Externals) (user_id : string) (db : DB)
  : nat * ReadBody :=
  if isObjectId ext user_id
  then
    match ofUserParam user_id (profiles db) with
    | None => (400, Refused (msg_obj "Profile Not Found"))
    | Some profile => (200, Shown (populate (users db) profile))
    end
  else (400, Refused (msg_obj "Profile Not Found")).

End ProfileApi.

(* ================================================================== *)
(** ** routes/api/users.js and routes/api/auth.js *)

(** The calls a handler makes to the hashing, avatar and token libraries,
    in the order it makes them. *)
Inductive Call :=
| GravatarUrl (email : string)
| GenSalt (rounds : nat)
| Hash (password salt : string)
| Compare (password hash : string)
| Sign (user : id).

Record Outcome := mkOutcome {
  out_response : Response;
  out_db : DB;
  out_calls : list Call
}.

(** [{ errors: [{ msg: m }] }] *)
Definition errors_obj (m : string) : json :=
  JObj [("errors", JArr [msg_obj m])].

(** [{ error: [{ msg: m }] }] *)
Definition error_obj (m : string) : json :=
  JObj [("error", JArr [msg_obj m])].

(** The query [{ email }]. *)
Definition withEmail (email : string) (u : User) : bool :=
  user_email u =? email.

Module UsersApi.

Record ReqBody := mkReqBody {
  name : option string;
  email : option string;
  password : option string
}.

(** validator.js [isLength({ min })]: the string has [min] characters at
    least (a surrogate pair counts for one). *)
Definition isLength (min : nat) (v : option string) : bool :=
  (min <=? Js.codePoints (field_string v))%nat.

Section Handlers.
Context (ext : Externals).

Definition validate (b : ReqBody) : list FieldError :=
  check "name" "Name is required" (name b) (notEmpty (name b))
  ++ check "email" "Please include email" (email b)
           (isEmail ext (field_string (email b)))
  ++ check "password" "Please enter a password with 6 or more characters"
           (password b) (isLength 6 (password b)).

(** POST api/users; [newId] is the [_id] of the new user and [salt] the
    salt [bcrypt.genSalt(10)] draws.  Once validation has passed, the
    three fields are read from the body as strings. *)
Definition register (b : ReqBody) (newId : id) (salt : string) (db : DB)
  : Outcome :=
  let errors := validate b in
  if negb (isEmpty errors)
  then mkOutcome (mkResponse 400 (ValidationErrors errors)) db []
  else
    let name := field_string (name b) in
    let email := field_string (email b) in
    let password := field_string (password b) in
    (* Check If User Exists *)
    match Db.findOne (withEmail email) (users db) with
    | Some _ =>
        mkOutcome
          (mkResponse 400 (Literal (errors_obj "User Already Exists"))) db []
    | None =>
        let avatar := gravatar_url ext email in
        let hashed := bcrypt_hash ext password salt in
        let user := mkUser newId name email avatar hashed in
        mkOutcome
          (ok (TokenBody (jwt_sign ext (user_id user))))
          (set_users (Db.insert user (users db)) db)
          [GravatarUrl email; GenSalt 10; Hash password salt;
           Sign (user_id user)]
    end.

End Handlers.
End UsersApi.

Module AuthApi.

Record ReqBody := mkReqBody {
  email : option string;
  password : option string
}.

(** express-validator's [.exists()]: the field is not [undefined]. *)
Definition exists_ (v : option string) : bool :=
  match v with
  | Some _ => true
  | None => false
  end.

Section Handlers.
Context (ext : Externals).

Definition validate (b : ReqBody) : list FieldError :=
  check "email" "Please include email" (email b)
        (isEmail ext (field_string (email b)))
  ++ check "password" "Password is required" (password b)
           (exists_ (password b)).

(** POST api/auth *)
Definition authenticate (b : ReqBody) (db : DB) : Outcome :=
  let errors := validate b in
  if negb (isEmpty errors)
  then mkOutcome (mkResponse 400 (ValidationErrors errors)) db []
  else
    let email := field_string (email b) in
    let password := field_string (password b) in
    (* Check If User Exists *)
    match Db.findOne (withEmail email) (users db) with
    | None =>
        mkOutcome
          (mkResponse 400 (Literal (errors_obj "Invalid Credentials"))) db []
    | Some foundUser =>
        (* Compare The Password *)
        let isMatch := bcrypt_compare ext password (user_password foundUser) in
        if negb isMatch
        then
          mkOutcome
            (mkResponse 400 (Literal (error_obj "Invalid Credentials"))) db
            [Compare password (user_password foundUser)]
        else
          mkOutcome
            (ok (TokenBody (jwt_sign ext (user_id foundUser)))) db
            [Compare password (user_password foundUser);
             Sign (user_id foundUser)]
    end.

(** An account as [select('-password')] shows it. *)
Record Account := mkAccount {
  acc_id : id;
  acc_name : string;
  acc_email : string;
  acc_avatar : string
}.

Definition withoutPassword (u : User) : Account :=
  mkAccount (user_id u) (user_name u) (user_email u) (user_avatar u).

(** GET api/auth: the account of the caller, [None] for JavaScript's
    [null] when no account has the caller's id. *)
Definition getUser (caller : id) (db : DB) : nat * option Account :=
  (200, option_map withoutPassword (Db.lookup caller (users db))).

End Handlers.
End AuthApi.

(** What the client's [login] and [register] actions read of a failed
    response: [err.response.data.errors], the list of alerts to show
    ([None] when the body has no such key). *)
Definition client_errors (b : Body) : option (list string) :=
  match b with
  | Literal (JObj fields) =>
      match find (fun kv => fst kv =? "errors") fields with
      | Some (_, JArr items) =>
          Some (flat_map (fun item =>
                  match item with
                  | JObj entry =>
                      match find (fun kv => fst kv =? "msg") entry with
                      | Some (_, JStr m) => [m]
                      | _ => []
                      end
                  | _ => []
                  end) items)
      | _ => None
      end
  | ValidationErrors es => Some (map fe_msg es)
  | _ => None
  end.

(* ================================================================== *)
(** ** Sequences of requests *)

(** The number of likes of user [u] on the post [postId]. *)
Definition likeCount (u : id) (postId : id) (db : DB) : nat :=
  match Db.lookup postId (posts db) with
  | Some post => List.length (PostsApi.alreadyLiked u post)
  | None => 0
  end.

(** A like request: the caller, the post and the [_id] of the new like. *)
Definition LikeRequest : Type := id * string * id.

(** The database after a sequence of like requests, served in order. *)
Fixpoint serveLikes (ext : Externals) (reqs : list LikeRequest) (db : DB)
  : DB :=
  match reqs with
  | [] => db
  | (caller, postId, likeId) :: reqs' =>
      serveLikes ext reqs' (snd (PostsApi.like ext caller postId likeId db))
  end.

(* ================================================================== *)
(** ** A database to evaluate the handlers on *)

(** Stand-ins for the libraries: an ObjectId is a string of 24 characters,
    an email address has an [@], a hash is the password followed by the
    salt. *)
Definition has_at (s : string) : bool :=
  existsb (fun c => Ascii.eqb c "@"%char) (list_ascii_of_string s).

Definition sampleExternals : Externals :=
  mkExternals
    (fun s => (String.length s =? 24)%nat)
    has_at
    (fun email => "//www.gravatar.com/avatar/" ++ email ++ "?s=200&r=pg&d=mm")%string
    (fun password salt => password ++ "$" ++ salt)%string
    (fun password hash => String.prefix (password ++ "$") hash)
    (fun user => "jwt." ++ user)%string.

Definition alice : id := "5f00000000000000000000a1".
Definition bob : id := "5f00000000000000000000b2".

Definition alicePostId : id := "5f00000000000000000000c1".

(** A post of alice's that nobody liked or commented. *)
Definition alicePost : Post :=
  mkPost alicePostId alice "hello world" "Alice" "//www.gravatar.com/avatar/a"
         [] [].

Definition sampleUsers : list User :=
  [mkUser alice "Alice" "a@x.com" "//www.gravatar.com/avatar/a" "pw123456$s1";
   mkUser bob "Bob" "b@x.com" "//www.gravatar.com/avatar/b" "hunter22$s2"].

Definition sampleDb : DB := mkDB sampleUsers [] [alicePost].

Definition firstCommentId : id := "5f00000000000000000000e1".
Definition secondCommentId : id := "5f00000000000000000000e2".

(** [sampleDb] after alice commented her post twice. *)
Definition twoCommentsDb : DB :=
  snd (PostsApi.addComment sampleExternals alice alicePostId (Some "second")
         secondCommentId
         (snd (PostsApi.addComment sampleExternals alice alicePostId
                 (Some "first") firstCommentId sampleDb))).

(** The comments of the first post of the database. *)
Definition comments_of_first_post (db : DB) : list Comment :=
  match posts db with
  | post :: _ => comments post
  | [] => []
  end.

Definition job1 : Experience :=
  mkExperience "5f00000000000000000000f1" "Engineer" "Acme" None "2019-01-01"
               None true None.
Definition job2 : Experience :=
  mkExperience "5f00000000000000000000f2" "Intern" "Initech" None "2018-01-01"
               (Some "2018-12-31") false None.

Definition school1 : Education :=
  mkEducation "5f0000000000000000000a01" "MIT" "MSc" "CS" "2016-09-01"
              (Some "2018-06-30") false None.
Definition school2 : Education :=
  mkEducation "5f0000000000000000000a02" "MIT" "BSc" "CS" "2012-09-01"
              (Some "2016-06-30") false None.

(** A profile of alice's with a twitter link, two jobs and two schools. *)
Definition aliceProfile : Profile :=
  mkProfile "5f0000000000000000000b01" alice
            (Some "Acme") None None (Some "Developer") ["go"; "rust"] None None
            (mkSocial None None (Some "https://twitter.com/alice") None None)
            [job1; job2] [school1; school2].

Definition profileDb : DB := mkDB sampleUsers [aliceProfile] [alicePost].

(** A profile form that gives the status, the skills and a youtube link,
    and nothing else. *)
Definition youtubeOnly : ProfileApi.ReqBody :=
  ProfileApi.mkReqBody None None None (Some "Developer") (Some "go, rust, c++")
                       None None (Some "https://youtube.com/alice")
                       None None None None.

(** Registration forms. *)
Definition carolForm : UsersApi.ReqBody :=
  UsersApi.mkReqBody (Some "Carol") (Some "c@x.com") (Some "s3cretpw").
Definition daveForm : UsersApi.ReqBody :=
  UsersApi.mkReqBody (Some "Dave") (Some "d@x.com") (Some "davepass").
Definition carolAgainForm : UsersApi.ReqBody :=
  UsersApi.mkReqBody (Some "Caroline") (Some "c@x.com") (Some "another1").
Definition shortPasswordForm : UsersApi.ReqBody :=
  UsersApi.mkReqBody (Some "Erin") (Some "e@x.com") (Some "12345").

Definition carolId : id := "5f00000000000000000000a3".
Definition daveId : id := "5f00000000000000000000a4".

(** A database without accounts. *)
Definition emptyDb : DB := mkDB [] [] [].

(** A sign-in form with alice's email and a password that is not hers. *)
Definition wrongPasswordForm : AuthApi.ReqBody :=
  AuthApi.mkReqBody (Some "a@x.com") (Some "not-her-password").

(** A request to one of the routes of posts.js that change the database. *)
Inductive PostRequest :=
| Create (caller : id) (text : option string) (postId : id)
| Delete (caller : id) (postId : string)
| LikePost (caller : id) (postId : string) (likeId : id)
| UnlikePost (caller : id) (postId : string)
| AddComment (caller : id) (postId : string) (text : option string)
             (commentId : id)
| RemoveComment (caller : id) (postId commentId : string).

Definition servePost (ext : Externals) (r : PostRequest) (db : DB)
  : Response * DB :=
  match r with
  | Create caller text postId => PostsApi.create caller text postId db
  | Delete caller postId => PostsApi.delete ext caller postId db
  | LikePost caller postId likeId => PostsApi.like ext caller postId likeId db
  | UnlikePost caller postId => PostsApi.unlike ext caller postId db
  | AddComment caller postId text commentId =>
      PostsApi.addComment ext caller postId text commentId db
  | RemoveComment caller postId commentId =>
      PostsApi.removeComment ext caller postId commentId db
  end.

(** The database after a sequence of such requests, served in order. *)
Fixpoint servePosts (ext : Externals) (reqs : list PostRequest) (db : DB)
  : DB :=
  match reqs with
  | [] => db
  | r :: reqs' => servePosts ext reqs' (snd (servePost ext r db))
  end.

(** No user has more than one like on any stored post. *)
Definition likedAtMostOnce (db : DB) : Prop :=
  forall post u, In post (posts db) ->
    List.length (PostsApi.alreadyLiked u post) <= 1.

(** The post a request names. *)
Definition postTarget (r : PostRequest) : string :=
  match r with
  | Create _ _ postId => postId
  | Delete _ postId => postId
  | LikePost _ postId _ => postId
  | UnlikePost _ postId => postId
  | AddComment _ postId _ _ => postId
  | RemoveComment _ postId _ => postId
  end.

(** Forms for a new job and a new school. *)
Definition newJobForm : ProfileApi.ExperienceForm :=
  ProfileApi.mkExperienceForm (Some "Lead") (Some "Globex") None
                              (Some "2021-01-01") None true None.

Definition newSchoolForm : ProfileApi.EducationForm :=
  ProfileApi.mkEducationForm (Some "ETH") (Some "PhD") (Some "CS")
                             (Some "2018-09-01") None true None.

(** A profile of bob's with no job and no school. *)
Definition bobProfile : Profile :=
  mkProfile "5f0000000000000000000b03" bob None None None (Some "Student")
            ["c"] None None (mkSocial None None None None None) [] [].

Definition twoProfilesDb : DB :=
  mkDB sampleUsers [aliceProfile; bobProfile] [alicePost].

(** No user has more than one profile. *)
Definition oneProfilePerUser (db : DB) : Prop :=
  forall u, List.length (filter (ProfileApi.ofUser u) (profiles db)) <= 1.

(* ================================================================== *)
(** ** client/src/reducers/auth.js and client/src/actions/auth.js *)

Module Client.

(** The state the reducer keeps; [isAuthenticated] is [None] for
    JavaScript's [null]. *)
Record AuthState := mkAuthState {
  token : option string;
  isAuthenticated : option bool;
  isLoading : bool;
  user : option AuthApi.Account
}.

(** The actions, by type.  The payload of the two successes is the body
    [{ token }] of the server's answer; the payload of [USER_LOADED] is
    the body of GET api/auth. *)
Inductive Action :=
| USER_LOADED (payload : option AuthApi.Account)
| REGISTER_SUCCESS (payload_token : string)
| LOGIN_SUCCESS (payload_token : string)
| REGISTER_FAIL
| AUTH_ERROR
| LOGIN_FAIL
| LOGOUT
| OTHER.                        (* an action of another reducer *)

(** [initialState], with the item ['token'] of the local storage. *)
Definition initialState (storage : option string) : AuthState :=
  mkAuthState storage None true None.

(** [authReducer]: the new state, and the item ['token'] of the local
    storage as [setItem] and [removeItem] leave it. *)
Definition authReducer (state : AuthState) (action : Action)
    (storage : option string) : AuthState * option string :=
  match action with
  | USER_LOADED payload =>
      (mkAuthState (token state) (Some true) false payload, storage)
  | REGISTER_SUCCESS t | LOGIN_SUCCESS t =>
      (mkAuthState (Some t) (Some true) false (user state), Some t)
  | LOGOUT | AUTH_ERROR | LOGIN_FAIL | REGISTER_FAIL =>
      (mkAuthState None (Some false) false None, None)
  | OTHER => (state, storage)
  end.

(** The store after a sequence of actions. *)
Fixpoint reduce (actions : list Action) (state : AuthState)
    (storage : option string) : AuthState * option string :=
  match actions with
  | [] => (state, storage)
  | a :: actions' =>
      let (state', storage') := authReducer state a storage in
      reduce actions' state' storage'
  end.

(** What an action creator dispatches: an action of the reducer, an alert
    ([setAlert(msg, 'danger')]), or the [loadUser] thunk. *)
Inductive Dispatch :=
| Act (a : Action)
| SetAlert (msg alertType : string)
| LoadUser.

(** axios resolves the request for a status from 200 to 299, and rejects
    it otherwise. *)
Definition resolves (r : Response) : bool :=
  ((200 <=? res_status r) && (res_status r <? 300))%nat.

(** The catch clause of [login] and [register]: an alert for every error
    under the key [errors] of the body, then the failure. *)
Definition failure (r : Response) (fail : Action) : list Dispatch :=
  match client_errors (res_body r) with
  | Some errors => map (fun m => SetAlert m "danger") errors
  | None => []
  end ++ [Act fail].

(** [login(formData)], given the answer of POST api/auth.  The server
    answers 200 with a token only; any other answer is handled as a
    rejection. *)
Definition login (r : Response) : list Dispatch :=
  match resolves r, res_body r with
  | true, TokenBody t => [Act (LOGIN_SUCCESS t); LoadUser]
  | _, _ => failure r LOGIN_FAIL
  end.

(** [register(formData)], given the answer of POST api/users. *)
Definition register (r : Response) : list Dispatch :=
  match resolves r, res_body r with
  | true, TokenBody t => [Act (REGISTER_SUCCESS t); LoadUser]
  | _, _ => failure r REGISTER_FAIL
  end.

(** [loadUser()], given the answer of GET api/auth: [None] when the access
    gate rejects the request, the status and the body otherwise. *)
Definition loadUser (answer : option (nat * option AuthApi.Account))
  : list Dispatch :=
  match answer with
  | Some (status, payload) =>
      if ((200 <=? status) && (status <? 300))%nat
      then [Act (USER_LOADED payload)]
      else [Act AUTH_ERROR]
  | None => [Act AUTH_ERROR]
  end.

(** [logout()] *)
Definition logout : list Dispatch := [Act LOGOUT].

(** The actions of the auth reducer among what was dispatched. *)
Definition authActions (ds : list Dispatch) : list Action :=
  flat_map (fun d => match d with Act a => [a] | _ => [] end) ds.

(** The alerts among what was dispatched. *)
Definition alerts (ds : list Dispatch) : list string :=
  flat_map (fun d => match d with SetAlert m _ => [m] | _ => [] end) ds.

(** The token in the state is the one in the local storage, and a state
    that says "not authenticated" holds no token and no user. *)
Definition consistent (state : AuthState) (storage : option string) : Prop :=
  token state = storage
  /\ (isAuthenticated state = Some false ->
      token state = None /\ user state = None).

End Client.

(* ================================================================== *)
(** ** Words to describe strings *)

(** [Array.prototype.join(',')]: the pieces with a comma between them. *)
Fixpoint joinRest (l : list string) : string :=
  match l with
  | [] => ""
  | s :: l' => ("," ++ s ++ joinRest l')%string
  end.

Definition joinComma (l : list string) : string :=
  match l with
  | [] => ""
  | s :: l' => (s ++ joinRest l')%string
  end.

(** The character occurs in the string. *)
Fixpoint occurs (c : ascii) (s : string) : bool :=
  match s with
  | EmptyString => false
  | String c' s' => Ascii.eqb c' c || occurs c s'
  end.

(** The number of occurrences of the character in the string. *)
Fixpoint occurrences (c : ascii) (s : string) : nat :=
  match s with
  | EmptyString => 0
  | String c' s' => (if Ascii.eqb c' c then 1 else 0) + occurrences c s'
  end.

(** The string is a sequence of characters of the table. *)
Inductive Chunks (table : list string) : string -> Prop :=
| chunks_nil : Chunks table ""
| chunks_cons (w s : string) :
    In w table -> Chunks table s -> Chunks table (w ++ s)%string.

(** The string starts, or ends, with a character of the table. *)
Definition StartsWith (table : list string) (s : string) : Prop :=
  exists w rest, In w table /\ s = (w ++ rest)%string.

Definition EndsWith (table : list string) (s : string) : Prop :=
  exists w init, In w table /\ s = (init ++ w)%string.

(** Every character of the table has one, two or three bytes. *)
Definition ShortChunks (table : list string) : Prop :=
  forall w, In w table -> 1 <= String.length w <= 3.

(** [skill] is [piece] without the white space around it: [piece] is
    [skill] between two runs of white space, and [skill] neither starts
    nor ends with white space. *)
Definition TrimmedOf (piece skill : string) : Prop :=
  exists lead trail,
    piece = (lead ++ skill ++ trail)%string
    /\ Chunks Js.whiteSpace lead
    /\ Chunks Js.whiteSpace trail
    /\ ~ StartsWith Js.whiteSpace skill
    /\ ~ EndsWith Js.whiteSpace skill.

(** ** Requests to the whole API

    The requests that can write to the database, each with the values its
    handler draws (a new [_id], a salt).  The GET routes return an answer
    and no database. *)
Inductive Request :=
| Register (b : UsersApi.ReqBody) (newId : id) (salt : string)
| Authenticate (b : AuthApi.ReqBody)
| Upsert (caller : id) (b : ProfileApi.ReqBody) (profileId : id)
| DeleteOwn (caller : id)
| AddExperience (caller : id) (f : ProfileApi.ExperienceForm) (entryId : id)
| RemoveExperience (caller : id) (experience_id : string)
| AddEducation (caller : id) (g : ProfileApi.EducationForm) (entryId : id)
| RemoveEducation (caller : id) (education_id : string)
| OnPost (r : PostRequest).

(** The database after one request. *)
Definition serve (ext : Externals) (r : Request) (db : DB) : DB :=
  match r with
  | Register b newId salt => out_db (UsersApi.register ext b newId salt db)
  | Authenticate b => out_db (AuthApi.authenticate ext b db)
  | Upsert caller b profileId => snd (ProfileApi.upsert caller b profileId db)
  | DeleteOwn caller => snd (ProfileApi.deleteOwn caller db)
  | AddExperience caller f entryId =>
      snd (ProfileApi.addExperience caller f entryId db)
  | RemoveExperience caller experience_id =>
      snd (ProfileApi.removeExperience caller experience_id db)
  | AddEducation caller g entryId =>
      snd (ProfileApi.addEducation caller g entryId db)
  | RemoveEducation caller education_id =>
      snd (ProfileApi.removeEducation caller education_id db)
  | OnPost r => snd (servePost ext r db)
  end.

(** The database after a sequence of requests, served in order. *)
Fixpoint serveAll (ext : Externals) (reqs : list Request) (db : DB) : DB :=
  match reqs with
  | [] => db
  | r :: reqs' => serveAll ext reqs' (serve ext r db)
  end.

(** [r] is a DELETE api/profile by the holder of [account]. *)
Definition closesAccount (account : id) (r : Request) : bool :=
  match r with
  | DeleteOwn caller => caller =? account
  | _ => false
  end.

(* ================================================================== *)
(** * Properties *)

(** ** Arrays *)

Section ArrayFacts.
Context {A : Type}.

Lemma indexOf_from_absent (f : A -> string) (x : string) :
  forall (l : list A) (i : Z),
    (forall a, In a l -> f a <> x) ->
    Js.indexOf_from i (map f l) x = (-1)%Z.
Proof.
  induction l as [|a l IH]; intros i Hno; simpl.
  - reflexivity.
  - destruct (String.eqb_spec (f a) x) as [E|_].
    + exfalso. apply (Hno a); [now left | exact E].
    + apply IH. intros b Hb. apply Hno. now right.
Qed.

Lemma indexOf_from_present (f : A -> string) (x : string) :
  forall (l : list A) (i : Z),
    (exists a, In a l /\ f a = x) ->
    exists l1 a l2,
      l = l1 ++ a :: l2 /\ f a = x /\
      (forall b, In b l1 -> f b <> x) /\
      Js.indexOf_from i (map f l) x = (i + Z.of_nat (List.length l1))%Z.
Proof.
  induction l as [|a l IH]; intros i [a0 [Hin Ha0]].
  - destruct Hin.
  - simpl. destruct (String.eqb_spec (f a) x) as [E|N].
    + exists [], a, l. simpl. split; [reflexivity|]. split; [exact E|].
      split; [intros b []|lia].
    + destruct Hin as [->|Hin]; [contradiction|].
      destruct (IH (i + 1)%Z) as (l1 & b & l2 & Hl & Hb & Hpre & Hidx).
      { exists a0. split; assumption. }
      exists (a :: l1), b, l2. subst l. simpl.
      split; [reflexivity|]. split; [exact Hb|]. split.
      * intros c [<-|Hc]; [exact N | now apply Hpre].
      * rewrite Hidx. lia.
Qed.

Lemma indexOf_present (f : A -> string) (x : string) (l : list A) :
  (exists a, In a l /\ f a = x) ->
  exists l1 a l2,
    l = l1 ++ a :: l2 /\ f a = x /\
    (forall b, In b l1 -> f b <> x) /\
    Js.indexOf (map f l) x = Z.of_nat (List.length l1).
Proof.
  intros H. destruct (indexOf_from_present f x l 0%Z H)
    as (l1 & a & l2 & Hl & Ha & Hpre & Hidx).
  exists l1, a, l2. unfold Js.indexOf. rewrite Hidx. repeat split; auto.
Qed.

Lemma indexOf_absent (f : A -> string) (x : string) (l : list A) :
  (forall a, In a l -> f a <> x) ->
  Js.indexOf (map f l) x = (-1)%Z.
Proof. apply indexOf_from_absent. Qed.

Lemma firstn_length_app (l1 l2 : list A) :
  firstn (List.length l1) (l1 ++ l2) = l1.
Proof. induction l1 as [|a l1 IH]; simpl; [now destruct l2 | now rewrite IH]. Qed.

Lemma skipn_length_app (l1 l2 : list A) :
  skipn (List.length l1) (l1 ++ l2) = l2.
Proof. induction l1 as [|a l1 IH]; simpl; [reflexivity | exact IH]. Qed.

(** [splice(i, 1)] at a valid index removes the element at that index. *)
Lemma splice_middle (l1 : list A) (a : A) (l2 : list A) :
  Js.splice (Z.of_nat (List.length l1)) 1 (l1 ++ a :: l2) = l1 ++ l2.
Proof.
  unfold Js.splice, Js.splice_start.
  rewrite length_app. cbn [List.length].
  set (n := List.length l1). set (m := List.length l2).
  destruct (Z.ltb_spec (Z.of_nat n) 0) as [Hneg|_]; [lia|].
  replace (Z.min (Z.of_nat n) (Z.of_nat (n + S m))) with (Z.of_nat n) by lia.
  replace (Z.min (Z.max 1 0) (Z.of_nat (n + S m) - Z.of_nat n)) with 1%Z by lia.
  replace (Z.to_nat (Z.of_nat n + 1)) with (List.length (l1 ++ [a]))
    by (rewrite length_app; cbn [List.length]; lia).
  rewrite Nat2Z.id. subst n.
  rewrite firstn_length_app. f_equal.
  replace (l1 ++ a :: l2) with ((l1 ++ [a]) ++ l2)
    by (rewrite <- app_assoc; reflexivity).
  apply skipn_length_app.
Qed.

(** [splice(-1, 1)] removes the last element of a non-empty array. *)
Lemma splice_minus_one (l : list A) (a : A) :
  Js.splice (-1) 1 (l ++ [a]) = l.
Proof.
  unfold Js.splice, Js.splice_start.
  rewrite length_app. cbn [List.length].
  set (n := List.length l).
  change (-1 <? 0)%Z with true. cbv iota.
  replace (Z.max (Z.of_nat (n + 1) + -1) 0) with (Z.of_nat n) by lia.
  replace (Z.min (Z.max 1 0) (Z.of_nat (n + 1) - Z.of_nat n)) with 1%Z by lia.
  replace (Z.to_nat (Z.of_nat n + 1)) with (List.length (l ++ [a]))
    by (rewrite length_app; cbn [List.length]; lia).
  rewrite Nat2Z.id. subst n.
  rewrite firstn_length_app.
  rewrite <- (app_nil_r (l ++ [a])) at 2.
  rewrite skipn_length_app. apply app_nil_r.
Qed.

Lemma filter_nil_iff (q : A -> bool) (l : list A) :
  filter q l = [] <-> forall a, In a l -> q a = false.
Proof.
  induction l as [|a l IH]; simpl.
  - split; [intros _ b [] | reflexivity].
  - destruct (q a) eqn:E.
    + split; [discriminate|]. intros Hall.
      specialize (Hall a (or_introl eq_refl)). congruence.
    + rewrite IH. split.
      * intros Hall b [<-|Hb]; auto.
      * intros Hall b Hb. apply Hall. now right.
Qed.

End ArrayFacts.

(** ** Collections *)

Section CollectionFacts.
Context {A : Type} `{Document A}.

(** A document is found under an id written like its own. *)
Lemma lookup_id (i : id) (c : list A) (d : A) :
  Db.lookup i c = Some d -> query_id (doc_id d) = query_id i.
Proof.
  unfold Db.lookup, Db.findOne. intros Hf.
  apply find_some in Hf. destruct Hf as [_ E]. now apply String.eqb_eq.
Qed.

(** The lookup reads of an id the way it is written by [toString()]. *)
Lemma lookup_query (i j : id) (c : list A) :
  query_id i = query_id j -> Db.lookup i c = Db.lookup j c.
Proof. unfold Db.lookup. now intros ->. Qed.

Lemma lookup_save_hit (i : id) (d : A) (c : list A) :
  query_id (doc_id d) = query_id i ->
  Db.lookup i (Db.save d c) = Some d.
Proof.
  unfold Db.lookup, Db.findOne. intros <-.
  induction c as [|x c IH]; simpl.
  - now rewrite String.eqb_refl.
  - destruct (String.eqb_spec (query_id (doc_id x)) (query_id (doc_id d)))
      as [E|N]; simpl.
    + now rewrite String.eqb_refl.
    + apply String.eqb_neq in N. now rewrite N.
Qed.

Lemma lookup_save_same (d : A) (c : list A) :
  Db.lookup (doc_id d) (Db.save d c) = Some d.
Proof. now apply lookup_save_hit. Qed.

(** A fetched document, saved after a change that keeps its [_id], is
    fetched again under the same id. *)
Lemma lookup_save_fetched (i : id) (c : list A) (p d : A) :
  Db.lookup i c = Some p ->
  doc_id d = doc_id p ->
  Db.lookup i (Db.save d c) = Some d.
Proof.
  intros Hl E. apply lookup_save_hit. rewrite E. exact (lookup_id _ _ _ Hl).
Qed.

Lemma lookup_save_other (i : id) (d : A) (c : list A) :
  query_id (doc_id d) <> query_id i ->
  Db.lookup i (Db.save d c) = Db.lookup i c.
Proof.
  unfold Db.lookup, Db.findOne. intros N.
  induction c as [|x c IH]; simpl.
  - apply String.eqb_neq in N. now rewrite N.
  - destruct (String.eqb_spec (query_id (doc_id x)) (query_id (doc_id d)))
      as [E|N']; simpl.
    + rewrite E. apply String.eqb_neq in N. now rewrite N.
    + now rewrite IH.
Qed.

(** Saving a document as it was fetched changes nothing. *)
Lemma save_fetched (i : id) (c : list A) (d : A) :
  Db.lookup i c = Some d -> Db.save d c = c.
Proof.
  unfold Db.lookup, Db.findOne.
  induction c as [|x c IH]; simpl; [discriminate|].
  destruct (String.eqb_spec (query_id (doc_id x)) (query_id i)) as [E|N].
  - intros [= ->]. now rewrite String.eqb_refl.
  - intros Hf. pose proof (lookup_id i c d Hf) as Hd.
    rewrite Hd. apply String.eqb_neq in N. rewrite N. now rewrite IH.
Qed.

(** Of two saves of the same document, the second one stays. *)
Lemma save_save (d d' : A) (c : list A) :
  doc_id d = doc_id d' -> Db.save d (Db.save d' c) = Db.save d c.
Proof.
  intros E. induction c as [|x c IH]; simpl.
  - now rewrite E, String.eqb_refl.
  - rewrite E.
    destruct (String.eqb_spec (query_id (doc_id x)) (query_id (doc_id d')))
      as [E'|N]; simpl.
    + now rewrite E, String.eqb_refl.
    + apply String.eqb_neq in N. rewrite E, N. now rewrite IH.
Qed.

Lemma lookup_remove_hit (i : id) (d : A) (c : list A) :
  query_id (doc_id d) = query_id i ->
  Db.lookup i (Db.remove d c) = None.
Proof.
  unfold Db.lookup, Db.findOne, Db.remove. intros <-.
  induction c as [|x c IH]; simpl; [reflexivity|].
  destruct (String.eqb_spec (query_id (doc_id x)) (query_id (doc_id d)))
    as [E|N]; simpl.
  - exact IH.
  - apply String.eqb_neq in N. now rewrite N.
Qed.

Lemma lookup_remove (d : A) (c : list A) :
  Db.lookup (doc_id d) (Db.remove d c) = None.
Proof. now apply lookup_remove_hit. Qed.

Lemma findOne_insert_some (q : A -> bool) (c : list A) (d d' : A) :
  Db.findOne q c = Some d -> Db.findOne q (Db.insert d' c) = Some d.
Proof.
  unfold Db.findOne, Db.insert.
  induction c as [|x c IH]; simpl; [discriminate|].
  destruct (q x); [trivial | exact IH].
Qed.

Lemma findOne_insert_none (q : A -> bool) (c : list A) (d : A) :
  Db.findOne q c = None -> q d = true ->
  Db.findOne q (Db.insert d c) = Some d.
Proof.
  unfold Db.findOne, Db.insert.
  induction c as [|x c IH]; simpl; intros Hn Hq.
  - now rewrite Hq.
  - destruct (q x); [discriminate | now apply IH].
Qed.

End CollectionFacts.

(** ** Posts: likes *)

Section PostFacts.
Context (ext : Externals).

Lemma findById_resolved {A : Type} `{Document A} (i : string) (c : list A)
    (d : option A) :
  findById ext i c = Resolved d <->
  isObjectId ext i = true /\ Db.lookup i c = d.
Proof.
  unfold findById. destruct (isObjectId ext i); split.
  - intros [= <-]. now split.
  - intros [_ ->]. reflexivity.
  - discriminate.
  - intros [[=] _].
Qed.

Lemma alreadyLiked_none (caller : id) (post : Post) :
  (forall l, In l (likes post) -> like_user l <> caller) ->
  PostsApi.alreadyLiked caller post = [].
Proof.
  intros Hno. apply filter_nil_iff. intros l Hl.
  apply String.eqb_neq. now apply Hno.
Qed.

Lemma alreadyLiked_some (caller : id) (post : Post) :
  (exists l, In l (likes post) /\ like_user l = caller) ->
  exists l rest, PostsApi.alreadyLiked caller post = l :: rest.
Proof.
  intros (l & Hin & Hl).
  destruct (PostsApi.alreadyLiked caller post) as [|x rest] eqn:E.
  - apply filter_nil_iff with (a := l) in E; [|exact Hin].
    apply String.eqb_neq in E. contradiction.
  - now exists x, rest.
Qed.

Lemma set_likes_likes (post : Post) (l : list Like) :
  set_likes (likes post) (set_likes l post) = post.
Proof. now destruct post. Qed.

Lemma set_posts_posts (db : DB) : set_posts (posts db) db = db.
Proof. now destruct db. Qed.

Lemma set_posts_twice (p q : list Post) (db : DB) :
  set_posts p (set_posts q db) = set_posts p db.
Proof. reflexivity. Qed.

(** One like request keeps a user's likes on a post at one at most. *)
Lemma like_keeps_count (u : id) (postId : id) (caller : id)
    (target : string) (likeId : id) (db : DB) :
  likeCount u postId db <= 1 ->
  likeCount u postId (snd (PostsApi.like ext caller target likeId db)) <= 1.
Proof.
  intros Hinv. unfold PostsApi.like.
  destruct (findById ext target (posts db)) as [[post|]|] eqn:Hf;
    [|exact Hinv|exact Hinv].
  apply findById_resolved in Hf. destruct Hf as [_ Hl].
  destruct (0 <? List.length (PostsApi.alreadyLiked caller post))%nat eqn:Hg;
    [exact Hinv|].
  apply Nat.ltb_ge in Hg.
  pose proof (lookup_id _ _ _ Hl) as Hid.
  cbn [snd]. unfold likeCount. cbn [posts set_posts].
  set (post' := set_likes _ post).
  destruct (String.eqb_spec (query_id (A := Post) target)
              (query_id (A := Post) postId)) as [E|Hneq].
  - rewrite (lookup_save_hit postId post')
      by (change (query_id (doc_id post) = query_id (A := Post) postId);
          congruence).
    unfold likeCount in Hinv.
    rewrite (lookup_query postId target) in Hinv by (symmetry; exact E).
    rewrite Hl in Hinv.
    unfold PostsApi.alreadyLiked, post', Js.unshift.
    cbn [likes set_likes filter like_user].
    unfold PostsApi.alreadyLiked in Hinv, Hg.
    destruct (String.eqb_spec caller u) as [->|_].
    + cbn [List.length]. lia.
    + exact Hinv.
  - rewrite lookup_save_other.
    + exact Hinv.
    + change (query_id (doc_id post) <> query_id (A := Post) postId).
      congruence.
Qed.

End PostFacts.

(** C3. On every post and for every user, a sequence of like requests (by
    any callers, on any posts) that starts with at most one like of that
    user on the post ends with at most one; and a like request of a user
    who already has a like on the post is answered 400 "Post already
    liked" and leaves the database, so the list of likes and its length,
    as it was. *)
Theorem like_at_most_once (ext : Externals) (u : id) (postId : id) :
  (forall (reqs : list LikeRequest) (db : DB),
      likeCount u postId db <= 1 ->
      likeCount u postId (serveLikes ext reqs db) <= 1) /\
  (forall (db : DB) (post : Post) (likeId : id),
      findById ext postId (posts db) = Resolved (Some post) ->
      (exists l, In l (likes post) /\ like_user l = u) ->
      PostsApi.like ext u postId likeId db =
        (mkResponse 400 (Literal (msg_obj "Post already liked")), db)).
Proof.
  split.
  - induction reqs as [|[[caller target] likeId] reqs IH]; intros db Hinv.
    + exact Hinv.
    + cbn [serveLikes]. apply IH. now apply like_keeps_count.
  - intros db post likeId Hf Hliked. unfold PostsApi.like. rewrite Hf.
    destruct (alreadyLiked_some u post Hliked) as (l & rest & ->).
    reflexivity.
Qed.

Lemma like_at_most_once_witness :
  likeCount bob alicePostId
    (serveLikes sampleExternals
       [(bob, alicePostId, "5f00000000000000000000d1");
        (alice, alicePostId, "5f00000000000000000000d2");
        (bob, alicePostId, "5f00000000000000000000d3")] sampleDb) <= 1
  /\ PostsApi.like sampleExternals bob alicePostId "5f00000000000000000000d3"
       (serveLikes sampleExternals
          [(bob, alicePostId, "5f00000000000000000000d1")] sampleDb)
     = (mkResponse 400 (Literal (msg_obj "Post already liked")),
        serveLikes sampleExternals
          [(bob, alicePostId, "5f00000000000000000000d1")] sampleDb).
Proof.
  split.
  - apply (proj1 (like_at_most_once sampleExternals bob alicePostId)).
    vm_compute. lia.
  - apply (proj2 (like_at_most_once sampleExternals bob alicePostId))
      with (post := set_likes [mkLike "5f00000000000000000000d1" bob] alicePost).
    + reflexivity.
    + exists (mkLike "5f00000000000000000000d1" bob).
      split; [now left | reflexivity].
Defined.

(** C4. When the caller has no like on the post, unlike is answered 400
    "Post has not yet been liked" and leaves the database as it was; and
    like followed by unlike answers the list of likes the post had before,
    the database being the one before the two requests. *)
Theorem unlike_conflict_and_round_trip (ext : Externals) (caller : id)
    (postId : string) (post : Post) (db : DB) :
  findById ext postId (posts db) = Resolved (Some post) ->
  (forall l, In l (likes post) -> like_user l <> caller) ->
  PostsApi.unlike ext caller postId db =
    (mkResponse 400 (Literal (msg_obj "Post has not yet been liked")), db)
  /\ forall likeId : id,
      PostsApi.unlike ext caller postId
        (snd (PostsApi.like ext caller postId likeId db))
      = (ok (LikesBody (likes post)), db).
Proof.
  intros Hf Hno.
  pose proof (alreadyLiked_none caller post Hno) as Hnone.
  split.
  - unfold PostsApi.unlike. rewrite Hf, Hnone. reflexivity.
  - intros likeId.
    apply findById_resolved in Hf. destruct Hf as [Hoid Hl].
    unfold PostsApi.like, findById. rewrite Hoid, Hl, Hnone.
    cbn [List.length Nat.ltb Nat.leb snd].
    set (post' := set_likes (Js.unshift (mkLike likeId caller) (likes post)) post).
    unfold PostsApi.unlike, findById. cbn [posts set_posts]. rewrite Hoid.
    assert (Hl' : Db.lookup postId (Db.save post' (posts db)) = Some post')
      by (apply (lookup_save_fetched _ _ post); [exact Hl | reflexivity]).
    rewrite Hl'.
    assert (Hal : PostsApi.alreadyLiked caller post'
                  = mkLike likeId caller :: PostsApi.alreadyLiked caller post).
    { unfold PostsApi.alreadyLiked, post', Js.unshift.
      cbn [likes set_likes filter like_user]. now rewrite String.eqb_refl. }
    rewrite Hal. cbn [List.length Nat.eqb].
    assert (Hidx : PostsApi.likeRemoveIndex caller post' = 0%Z).
    { unfold PostsApi.likeRemoveIndex, post', Js.unshift, Js.indexOf.
      cbn [likes set_likes map like_user Js.indexOf_from].
      now rewrite String.eqb_refl. }
    rewrite Hidx.
    assert (Hsp : Js.splice 0 1 (likes post') = likes post).
    { unfold post', Js.unshift. cbn [likes set_likes].
      exact (splice_middle [] (mkLike likeId caller) (likes post)). }
    rewrite Hsp. unfold post'. rewrite set_likes_likes.
    rewrite save_save by reflexivity.
    rewrite (save_fetched postId _ _ Hl).
    rewrite set_posts_twice, set_posts_posts. reflexivity.
Qed.

Lemma unlike_conflict_and_round_trip_witness :
  PostsApi.unlike sampleExternals bob alicePostId sampleDb =
    (mkResponse 400 (Literal (msg_obj "Post has not yet been liked")),
     sampleDb)
  /\ forall likeId : id,
      PostsApi.unlike sampleExternals bob alicePostId
        (snd (PostsApi.like sampleExternals bob alicePostId likeId sampleDb))
      = (ok (LikesBody []), sampleDb).
Proof.
  apply (unlike_conflict_and_round_trip sampleExternals bob alicePostId
           alicePost sampleDb).
  - reflexivity.
  - intros l [].
Defined.

(** C9. In unlike, when the post has a like of the caller (the guard on
    [alreadyLiked] lets the request through), the removal index is not
    negative: it is the position of the first like of the caller, and the
    splice removes that like and no other element. *)
Theorem unlike_removes_own_like (ext : Externals) (caller : id)
    (postId : string) (post : Post) (db : DB) :
  findById ext postId (posts db) = Resolved (Some post) ->
  (exists l, In l (likes post) /\ like_user l = caller) ->
  exists before mine after,
    likes post = before ++ mine :: after /\
    like_user mine = caller /\
    (forall l, In l before -> like_user l <> caller) /\
    (0 <= PostsApi.likeRemoveIndex caller post)%Z /\
    PostsApi.likeRemoveIndex caller post = Z.of_nat (List.length before) /\
    PostsApi.unlike ext caller postId db =
      (ok (LikesBody (before ++ after)),
       set_posts (Db.save (set_likes (before ++ after) post) (posts db)) db).
Proof.
  intros Hf Hliked.
  destruct (indexOf_present like_user caller (likes post) Hliked)
    as (before & mine & after & Hsplit & Hmine & Hbefore & Hidx).
  exists before, mine, after.
  assert (Hri : PostsApi.likeRemoveIndex caller post
                = Z.of_nat (List.length before)) by exact Hidx.
  split; [exact Hsplit|]. split; [exact Hmine|]. split; [exact Hbefore|].
  split; [rewrite Hri; lia|]. split; [exact Hri|].
  unfold PostsApi.unlike. rewrite Hf.
  destruct (alreadyLiked_some caller post Hliked) as (l & rest & ->).
  cbn [List.length Nat.eqb]. rewrite Hri.
  rewrite Hsplit at 1 2. rewrite splice_middle. reflexivity.
Qed.

Lemma unlike_removes_own_like_witness :
  exists before mine after,
    [mkLike "5f00000000000000000000d2" alice;
     mkLike "5f00000000000000000000d1" bob] = before ++ mine :: after /\
    like_user mine = bob /\
    (forall l, In l before -> like_user l <> bob) /\
    (0 <= PostsApi.likeRemoveIndex bob
            (set_likes [mkLike "5f00000000000000000000d2" alice;
                        mkLike "5f00000000000000000000d1" bob] alicePost))%Z /\
    PostsApi.likeRemoveIndex bob
      (set_likes [mkLike "5f00000000000000000000d2" alice;
                  mkLike "5f00000000000000000000d1" bob] alicePost)
      = Z.of_nat (List.length before) /\
    PostsApi.unlike sampleExternals bob alicePostId
      (serveLikes sampleExternals
         [(bob, alicePostId, "5f00000000000000000000d1");
          (alice, alicePostId, "5f00000000000000000000d2")] sampleDb)
    = (ok (LikesBody (before ++ after)),
       set_posts
         (Db.save (set_likes (before ++ after)
                     (set_likes [mkLike "5f00000000000000000000d2" alice;
                                 mkLike "5f00000000000000000000d1" bob]
                                alicePost))
                  (posts (serveLikes sampleExternals
                            [(bob, alicePostId, "5f00000000000000000000d1");
                             (alice, alicePostId, "5f00000000000000000000d2")]
                            sampleDb)))
         (serveLikes sampleExternals
            [(bob, alicePostId, "5f00000000000000000000d1");
             (alice, alicePostId, "5f00000000000000000000d2")] sampleDb)).
Proof.
  apply (unlike_removes_own_like sampleExternals bob alicePostId
           (set_likes [mkLike "5f00000000000000000000d2" alice;
                       mkLike "5f00000000000000000000d1" bob] alicePost)).
  - reflexivity.
  - exists (mkLike "5f00000000000000000000d1" bob).
    split; [right; now left | reflexivity].
Defined.

(** ** Posts: deletion *)

(** C8. On an existing post, delete by a caller who is not the author is
    answered 401 "User not authorised" and leaves the database as it was,
    the post still being answered by getById; delete by the author is
    answered "Post Removed", and getById on the database it leaves is
    answered 404 "Post Not Found". *)
Theorem delete_checks_author (ext : Externals) (caller : id)
    (postId : string) (post : Post) (db : DB) :
  findById ext postId (posts db) = Resolved (Some post) ->
  (post_user post <> caller ->
     PostsApi.delete ext caller postId db =
       (mkResponse 401 (Literal (msg_obj "User not authorised")), db)
     /\ PostsApi.getById ext postId
          (snd (PostsApi.delete ext caller postId db))
        = (ok (PostBody post), db))
  /\ (post_user post = caller ->
        fst (PostsApi.delete ext caller postId db)
          = ok (Literal (msg_obj "Post Removed"))
        /\ fst (PostsApi.getById ext postId
                  (snd (PostsApi.delete ext caller postId db)))
           = mkResponse 404 (Literal (msg_obj "Post Not Found"))).
Proof.
  intros Hf. split.
  - intros Hother. apply String.eqb_neq in Hother.
    assert (Hdel : PostsApi.delete ext caller postId db =
              (mkResponse 401 (Literal (msg_obj "User not authorised")), db)).
    { unfold PostsApi.delete. rewrite Hf, Hother. reflexivity. }
    split; [exact Hdel|].
    rewrite Hdel. cbn [snd]. unfold PostsApi.getById. now rewrite Hf.
  - intros Hauthor. apply String.eqb_eq in Hauthor.
    unfold PostsApi.delete. rewrite Hf, Hauthor. cbn [negb fst snd].
    split; [reflexivity|].
    apply findById_resolved in Hf. destruct Hf as [Hoid Hl].
    pose proof (lookup_id _ _ _ Hl) as Hid.
    unfold PostsApi.getById, findById. cbn [posts set_posts]. rewrite Hoid.
    rewrite (lookup_remove_hit postId post _ Hid). reflexivity.
Qed.

Lemma delete_checks_author_witness :
  (PostsApi.delete sampleExternals bob alicePostId sampleDb =
     (mkResponse 401 (Literal (msg_obj "User not authorised")), sampleDb)
   /\ PostsApi.getById sampleExternals alicePostId
        (snd (PostsApi.delete sampleExternals bob alicePostId sampleDb))
      = (ok (PostBody alicePost), sampleDb)) /\
  (fst (PostsApi.delete sampleExternals alice alicePostId sampleDb)
     = ok (Literal (msg_obj "Post Removed"))
   /\ fst (PostsApi.getById sampleExternals alicePostId
             (snd (PostsApi.delete sampleExternals alice alicePostId sampleDb)))
      = mkResponse 404 (Literal (msg_obj "Post Not Found"))).
Proof.
  split.
  - apply (proj1 (delete_checks_author sampleExternals bob alicePostId
                    alicePost sampleDb eq_refl)).
    discriminate.
  - apply (proj2 (delete_checks_author sampleExternals alice alicePostId
                    alicePost sampleDb eq_refl)).
    reflexivity.
Defined.

(** ** Posts: removal of a comment *)

(** The comment the handler removes is the first comment of the caller in
    the post, whichever comment the request names. *)
Lemma removeComment_removes_first_of_caller (ext : Externals) (caller : id)
    (postId commentId : string) (post : Post) (cur : Comment) (db : DB) :
  findById ext postId (posts db) = Resolved (Some post) ->
  find (fun c => comment_id c =? commentId) (comments post) = Some cur ->
  comment_user cur = caller ->
  exists before first after,
    comments post = before ++ first :: after /\
    comment_user first = caller /\
    (forall c, In c before -> comment_user c <> caller) /\
    fst (PostsApi.removeComment ext caller postId commentId db)
      = ok (CommentsBody (before ++ after)).
Proof.
  intros Hf Hcur Hown.
  assert (Hex : exists c, In c (comments post) /\ comment_user c = caller).
  { exists cur. split; [|exact Hown]. now apply find_some in Hcur. }
  destruct (indexOf_present comment_user caller (comments post) Hex)
    as (before & first & after & Hsplit & Hfirst & Hbefore & Hidx).
  exists before, first, after.
  split; [exact Hsplit|]. split; [exact Hfirst|]. split; [exact Hbefore|].
  unfold PostsApi.removeComment. rewrite Hf, Hcur.
  apply String.eqb_eq in Hown. rewrite Hown. cbn [negb fst].
  assert (Hri : PostsApi.commentRemoveIndex caller post
                = Z.of_nat (List.length before)) by exact Hidx.
  rewrite Hri. cbn [comments set_comments].
  rewrite Hsplit. rewrite splice_middle. reflexivity.
Qed.

(** A comment id no comment of the post has is answered 404, and the
    comment of another user 401; the database stays as it was. *)
Lemma removeComment_refusals (ext : Externals) (caller : id)
    (postId commentId : string) (post : Post) (db : DB) :
  findById ext postId (posts db) = Resolved (Some post) ->
  (find (fun c => comment_id c =? commentId) (comments post) = None ->
     PostsApi.removeComment ext caller postId commentId db =
       (mkResponse 404 (Literal (msg_obj "Comment doesn't exists")), db))
  /\ (forall cur,
        find (fun c => comment_id c =? commentId) (comments post) = Some cur ->
        comment_user cur <> caller ->
        PostsApi.removeComment ext caller postId commentId db =
          (mkResponse 401 (Literal (msg_obj "User not authorized")), db)).
Proof.
  intros Hf. unfold PostsApi.removeComment. rewrite Hf. split.
  - intros ->. reflexivity.
  - intros cur -> Hother. apply String.eqb_neq in Hother.
    now rewrite Hother.
Qed.

(** C1 (the handler departs from the claim). Alice wrote two comments on
    her post; she asks to remove the first she wrote, which is the second
    of the list.  The handler answers the list where that comment is still
    present and the other one, the head of the list, is gone. *)
Theorem removeComment_removes_another_comment :
  comments_of_first_post twoCommentsDb =
    [mkComment secondCommentId "second" "Alice" "//www.gravatar.com/avatar/a"
               alice;
     mkComment firstCommentId "first" "Alice" "//www.gravatar.com/avatar/a"
               alice]
  /\ PostsApi.removeComment sampleExternals alice alicePostId firstCommentId
       twoCommentsDb
     = (ok (CommentsBody
              [mkComment firstCommentId "first" "Alice"
                         "//www.gravatar.com/avatar/a" alice]),
        set_posts
          [set_comments
             [mkComment firstCommentId "first" "Alice"
                        "//www.gravatar.com/avatar/a" alice] alicePost]
          sampleDb).
Proof. split; reflexivity. Qed.

(** ** Profiles: removal of an experience or education entry *)

(** When an entry of the list has the id of the request, the first such
    entry is removed and the others stay, in their order. *)
Lemma removeExperience_present (caller : id) (experience_id : string)
    (profile : Profile) (db : DB) :
  Db.findOne (ProfileApi.ofUser caller) (profiles db) = Some profile ->
  (exists e, In e (experiences profile) /\ exp_id e = experience_id) ->
  exists before entry after,
    experiences profile = before ++ entry :: after /\
    exp_id entry = experience_id /\
    (forall e, In e before -> exp_id e <> experience_id) /\
    fst (ProfileApi.removeExperience caller experience_id db)
      = ok (ProfileBody (set_experiences (before ++ after) profile)).
Proof.
  intros Hp Hex.
  destruct (indexOf_present exp_id experience_id (experiences profile) Hex)
    as (before & entry & after & Hsplit & Hentry & Hbefore & Hidx).
  exists before, entry, after.
  split; [exact Hsplit|]. split; [exact Hentry|]. split; [exact Hbefore|].
  unfold ProfileApi.removeExperience. rewrite Hp. cbn [fst].
  change (Js.indexOf (map exp_id (experiences profile)) experience_id)
    with (Js.indexOf (map (B := string) exp_id (experiences profile))
            experience_id).
  rewrite Hidx. rewrite Hsplit at 1. now rewrite splice_middle.
Qed.

Lemma removeEducation_present (caller : id) (education_id : string)
    (profile : Profile) (db : DB) :
  Db.findOne (ProfileApi.ofUser caller) (profiles db) = Some profile ->
  (exists e, In e (education profile) /\ edu_id e = education_id) ->
  exists before entry after,
    education profile = before ++ entry :: after /\
    edu_id entry = education_id /\
    (forall e, In e before -> edu_id e <> education_id) /\
    fst (ProfileApi.removeEducation caller education_id db)
      = ok (ProfileBody (set_education (before ++ after) profile)).
Proof.
  intros Hp Hex.
  destruct (indexOf_present edu_id education_id (education profile) Hex)
    as (before & entry & after & Hsplit & Hentry & Hbefore & Hidx).
  exists before, entry, after.
  split; [exact Hsplit|]. split; [exact Hentry|]. split; [exact Hbefore|].
  unfold ProfileApi.removeEducation. rewrite Hp. cbn [fst].
  change (Js.indexOf (map edu_id (education profile)) education_id)
    with (Js.indexOf (map (B := string) edu_id (education profile))
            education_id).
  rewrite Hidx. rewrite Hsplit at 1. now rewrite splice_middle.
Qed.

(** When no entry of a non-empty list has the id of the request, the index
    is -1 and the splice removes the last entry of the list. *)
Lemma removeExperience_absent (caller : id) (experience_id : string)
    (profile : Profile) (init : list Experience) (last : Experience)
    (db : DB) :
  Db.findOne (ProfileApi.ofUser caller) (profiles db) = Some profile ->
  experiences profile = init ++ [last] ->
  (forall e, In e (experiences profile) -> exp_id e <> experience_id) ->
  fst (ProfileApi.removeExperience caller experience_id db)
    = ok (ProfileBody (set_experiences init profile)).
Proof.
  intros Hp Hsplit Hno.
  unfold ProfileApi.removeExperience. rewrite Hp. cbn [fst].
  change (Js.indexOf (map exp_id (experiences profile)) experience_id)
    with (Js.indexOf (map (B := string) exp_id (experiences profile))
            experience_id).
  rewrite (indexOf_absent exp_id experience_id _ Hno).
  rewrite Hsplit. now rewrite splice_minus_one.
Qed.

Lemma removeEducation_absent (caller : id) (education_id : string)
    (profile : Profile) (init : list Education) (last : Education)
    (db : DB) :
  Db.findOne (ProfileApi.ofUser caller) (profiles db) = Some profile ->
  education profile = init ++ [last] ->
  (forall e, In e (education profile) -> edu_id e <> education_id) ->
  fst (ProfileApi.removeEducation caller education_id db)
    = ok (ProfileBody (set_education init profile)).
Proof.
  intros Hp Hsplit Hno.
  unfold ProfileApi.removeEducation. rewrite Hp. cbn [fst].
  change (Js.indexOf (map edu_id (education profile)) education_id)
    with (Js.indexOf (map (B := string) edu_id (education profile))
            education_id).
  rewrite (indexOf_absent edu_id education_id _ Hno).
  rewrite Hsplit. now rewrite splice_minus_one.
Qed.

(** C2 (the handlers depart from the claim). Alice's profile has two jobs
    and two schools, and the request names an id that no entry has.  The
    handlers answer, and store, the profile without its last job, and
    without its last school. *)
Theorem remove_entry_of_unknown_id_removes_last :
  experiences aliceProfile = [job1; job2]
  /\ education aliceProfile = [school1; school2]
  /\ ProfileApi.removeExperience alice "5f00000000000000000000ff" profileDb
     = (ok (ProfileBody (set_experiences [job1] aliceProfile)),
        set_profiles [set_experiences [job1] aliceProfile] profileDb)
  /\ ProfileApi.removeEducation alice "5f00000000000000000000ff" profileDb
     = (ok (ProfileBody (set_education [school1] aliceProfile)),
        set_profiles [set_education [school1] aliceProfile] profileDb).
Proof. repeat split. Qed.

(** ** Profiles: the social links of an upsert *)

Lemma findOneAndUpdate_found {A : Type} (q : A -> bool) (f : A -> A)
    (c : list A) (p : A) :
  Db.findOne q c = Some p ->
  q (f p) = true ->
  fst (Db.findOneAndUpdate q f c) = Some (f p)
  /\ Db.findOne q (snd (Db.findOneAndUpdate q f c)) = Some (f p).
Proof.
  unfold Db.findOne. intros Hfind Hq.
  induction c as [|x c IH]; simpl in *; [discriminate|].
  destruct (q x) eqn:Hx.
  - injection Hfind as ->. simpl. now rewrite Hq.
  - destruct (Db.findOneAndUpdate q f c) as [r c'] eqn:Hu. simpl in *.
    rewrite Hx. now apply IH.
Qed.

Lemma validation_passes (b : ProfileApi.ReqBody) :
  notEmpty (ProfileApi.b_status b) = true ->
  notEmpty (ProfileApi.b_skills b) = true ->
  check "status" "Status is Required" (ProfileApi.b_status b)
        (notEmpty (ProfileApi.b_status b))
  ++ check "skills" "Skills is Required" (ProfileApi.b_skills b)
           (notEmpty (ProfileApi.b_skills b)) = [].
Proof. intros -> ->. reflexivity. Qed.

Lemma notEmpty_truthy (v : option string) :
  notEmpty v = true -> Js.truthy v = true.
Proof. destruct v as [s|]; [intros H; exact H | discriminate]. Qed.

(** [$set] of the fields built from a form, field by field. *)
Lemma set_fields_after_form (caller : id) (b : ProfileApi.ReqBody)
    (old : Profile) :
  Js.truthy (ProfileApi.b_status b) = true ->
  Js.truthy (ProfileApi.b_skills b) = true ->
  ProfileApi.set_fields (ProfileApi.buildProfileFields caller b) old
  = mkProfile (profile_id old)
      caller
      (if Js.truthy (ProfileApi.b_company b)
       then ProfileApi.b_company b else company old)
      (if Js.truthy (ProfileApi.b_website b)
       then ProfileApi.b_website b else website old)
      (if Js.truthy (ProfileApi.b_location b)
       then ProfileApi.b_location b else location old)
      (ProfileApi.b_status b)
      (map Js.trim
         (Js.split_comma (field_string (ProfileApi.b_skills b))))
      (if Js.truthy (ProfileApi.b_bio b)
       then ProfileApi.b_bio b else bio old)
      (if Js.truthy (ProfileApi.b_githubusername b)
       then ProfileApi.b_githubusername b else githubusername old)
      (mkSocial (if Js.truthy (ProfileApi.b_youtube b)
                 then ProfileApi.b_youtube b else None)
                (if Js.truthy (ProfileApi.b_facebook b)
                 then ProfileApi.b_facebook b else None)
                (if Js.truthy (ProfileApi.b_twitter b)
                 then ProfileApi.b_twitter b else None)
                (if Js.truthy (ProfileApi.b_instagram b)
                 then ProfileApi.b_instagram b else None)
                (if Js.truthy (ProfileApi.b_linkedin b)
                 then ProfileApi.b_linkedin b else None))
      (experiences old)
      (education old).
Proof.
  intros Hstatus Hskills.
  unfold ProfileApi.set_fields, ProfileApi.buildProfileFields,
    ProfileApi.supplied.
  cbn [ProfileApi.pf_user ProfileApi.pf_company ProfileApi.pf_website
       ProfileApi.pf_location ProfileApi.pf_status ProfileApi.pf_bio
       ProfileApi.pf_githubusername ProfileApi.pf_skills
       ProfileApi.pf_social].
  rewrite Hstatus, Hskills.
  destruct (Js.truthy (ProfileApi.b_company b)) eqn:E1,
           (Js.truthy (ProfileApi.b_website b)) eqn:E2,
           (Js.truthy (ProfileApi.b_location b)) eqn:E3,
           (Js.truthy (ProfileApi.b_bio b)) eqn:E4,
           (Js.truthy (ProfileApi.b_githubusername b)) eqn:E5;
    cbn [ProfileApi.assign ProfileApi.assign_opt];
    repeat match goal with
           | H : Js.truthy ?v = true |- _ =>
               destruct v; [clear H | discriminate H]
           end;
    reflexivity.
Qed.

(** [new Profile] of the fields built from a form, field by field. *)
Lemma newProfile_after_form (caller : id) (b : ProfileApi.ReqBody)
    (profileId : id) :
  Js.truthy (ProfileApi.b_status b) = true ->
  Js.truthy (ProfileApi.b_skills b) = true ->
  ProfileApi.newProfile profileId (ProfileApi.buildProfileFields caller b)
  = mkProfile profileId
      caller
      (if Js.truthy (ProfileApi.b_company b)
       then ProfileApi.b_company b else None)
      (if Js.truthy (ProfileApi.b_website b)
       then ProfileApi.b_website b else None)
      (if Js.truthy (ProfileApi.b_location b)
       then ProfileApi.b_location b else None)
      (ProfileApi.b_status b)
      (map Js.trim
         (Js.split_comma (field_string (ProfileApi.b_skills b))))
      (if Js.truthy (ProfileApi.b_bio b)
       then ProfileApi.b_bio b else None)
      (if Js.truthy (ProfileApi.b_githubusername b)
       then ProfileApi.b_githubusername b else None)
      (mkSocial (if Js.truthy (ProfileApi.b_youtube b)
                 then ProfileApi.b_youtube b else None)
                (if Js.truthy (ProfileApi.b_facebook b)
                 then ProfileApi.b_facebook b else None)
                (if Js.truthy (ProfileApi.b_twitter b)
                 then ProfileApi.b_twitter b else None)
                (if Js.truthy (ProfileApi.b_instagram b)
                 then ProfileApi.b_instagram b else None)
                (if Js.truthy (ProfileApi.b_linkedin b)
                 then ProfileApi.b_linkedin b else None))
      []
      [].
Proof.
  intros Hstatus Hskills.
  unfold ProfileApi.newProfile, ProfileApi.buildProfileFields,
    ProfileApi.supplied.
  cbn [ProfileApi.pf_user ProfileApi.pf_company ProfileApi.pf_website
       ProfileApi.pf_location ProfileApi.pf_status ProfileApi.pf_bio
       ProfileApi.pf_githubusername ProfileApi.pf_skills
       ProfileApi.pf_social ProfileApi.assign].
  rewrite Hstatus, Hskills.
  destruct (ProfileApi.b_status b); [reflexivity | discriminate Hstatus].
Qed.

(** C6 (as the claim states it, refuted). Alice's profile has a twitter
    link; she posts a form that gives a youtube link and no twitter link.
    The request succeeds, and the stored profile has no twitter link any
    more. *)
Lemma upsert_clears_omitted_social_link :
  ProfileApi.b_twitter youtubeOnly = None
  /\ Db.findOne (ProfileApi.ofUser alice) (profiles profileDb)
     = Some aliceProfile
  /\ twitter (social aliceProfile) = Some "https://twitter.com/alice"
  /\ exists updated,
       ProfileApi.upsert alice youtubeOnly "5f0000000000000000000b02" profileDb
         = (ok (ProfileBody updated), set_profiles [updated] profileDb)
       /\ twitter (social updated) = None
       /\ twitter (social updated) <> twitter (social aliceProfile).
Proof.
  repeat split.
  eexists. split; [reflexivity|]. split; [reflexivity | discriminate].
Qed.

(** C6 (amended). An upsert that passes validation answers the profile it
    stores for the caller, and that profile is given field by field.  Its
    social links are the links the form supplies and no other: a supplied
    link is written, an omitted link is unset afterwards, whatever was
    stored.  Its status is the status of the form and its skills are the
    trimmed pieces of the skills string.  On an existing profile every
    other scalar (company, website, location, bio, githubusername) is the
    value of the form when the form supplies it and the stored value when
    the form omits it, and the identifier and the experience and education
    lists are the stored ones.  Without a profile the new one has the
    identifier it receives, the supplied scalars only and empty lists. *)
Theorem upsert_social_links_as_supplied (caller : id)
    (b : ProfileApi.ReqBody) (profileId : id) (db : DB) :
  notEmpty (ProfileApi.b_status b) = true ->
  notEmpty (ProfileApi.b_skills b) = true ->
  exists stored,
    fst (ProfileApi.upsert caller b profileId db) = ok (ProfileBody stored)
    /\ Db.findOne (ProfileApi.ofUser caller)
         (profiles (snd (ProfileApi.upsert caller b profileId db)))
       = Some stored
    /\ youtube (social stored)
       = (if Js.truthy (ProfileApi.b_youtube b)
          then ProfileApi.b_youtube b else None)
    /\ facebook (social stored)
       = (if Js.truthy (ProfileApi.b_facebook b)
          then ProfileApi.b_facebook b else None)
    /\ twitter (social stored)
       = (if Js.truthy (ProfileApi.b_twitter b)
          then ProfileApi.b_twitter b else None)
    /\ instagram (social stored)
       = (if Js.truthy (ProfileApi.b_instagram b)
          then ProfileApi.b_instagram b else None)
    /\ linkedin (social stored)
       = (if Js.truthy (ProfileApi.b_linkedin b)
          then ProfileApi.b_linkedin b else None)
    /\ (forall old,
          Db.findOne (ProfileApi.ofUser caller) (profiles db) = Some old ->
          stored =
            mkProfile (profile_id old)
              caller
              (if Js.truthy (ProfileApi.b_company b)
               then ProfileApi.b_company b else company old)
              (if Js.truthy (ProfileApi.b_website b)
               then ProfileApi.b_website b else website old)
              (if Js.truthy (ProfileApi.b_location b)
               then ProfileApi.b_location b else location old)
              (ProfileApi.b_status b)
              (map Js.trim
                 (Js.split_comma (field_string (ProfileApi.b_skills b))))
              (if Js.truthy (ProfileApi.b_bio b)
               then ProfileApi.b_bio b else bio old)
              (if Js.truthy (ProfileApi.b_githubusername b)
               then ProfileApi.b_githubusername b else githubusername old)
              (mkSocial (if Js.truthy (ProfileApi.b_youtube b)
                         then ProfileApi.b_youtube b else None)
                        (if Js.truthy (ProfileApi.b_facebook b)
                         then ProfileApi.b_facebook b else None)
                        (if Js.truthy (ProfileApi.b_twitter b)
                         then ProfileApi.b_twitter b else None)
                        (if Js.truthy (ProfileApi.b_instagram b)
                         then ProfileApi.b_instagram b else None)
                        (if Js.truthy (ProfileApi.b_linkedin b)
                         then ProfileApi.b_linkedin b else None))
              (experiences old)
              (education old))
    /\ (Db.findOne (ProfileApi.ofUser caller) (profiles db) = None ->
          stored =
            mkProfile profileId
              caller
              (if Js.truthy (ProfileApi.b_company b)
               then ProfileApi.b_company b else None)
              (if Js.truthy (ProfileApi.b_website b)
               then ProfileApi.b_website b else None)
              (if Js.truthy (ProfileApi.b_location b)
               then ProfileApi.b_location b else None)
              (ProfileApi.b_status b)
              (map Js.trim
                 (Js.split_comma (field_string (ProfileApi.b_skills b))))
              (if Js.truthy (ProfileApi.b_bio b)
               then ProfileApi.b_bio b else None)
              (if Js.truthy (ProfileApi.b_githubusername b)
               then ProfileApi.b_githubusername b else None)
              (mkSocial (if Js.truthy (ProfileApi.b_youtube b)
                         then ProfileApi.b_youtube b else None)
                        (if Js.truthy (ProfileApi.b_facebook b)
                         then ProfileApi.b_facebook b else None)
                        (if Js.truthy (ProfileApi.b_twitter b)
                         then ProfileApi.b_twitter b else None)
                        (if Js.truthy (ProfileApi.b_instagram b)
                         then ProfileApi.b_instagram b else None)
                        (if Js.truthy (ProfileApi.b_linkedin b)
                         then ProfileApi.b_linkedin b else None))
              []
              []).
Proof.
  intros Hstatus Hskills.
  pose proof (notEmpty_truthy _ Hstatus) as Tstatus.
  pose proof (notEmpty_truthy _ Hskills) as Tskills.
  unfold ProfileApi.upsert.
  rewrite (validation_passes b Hstatus Hskills). cbn [isEmpty negb].
  set (fields := ProfileApi.buildProfileFields caller b).
  destruct (Db.findOne (ProfileApi.ofUser caller) (profiles db))
    as [old|] eqn:Hold.
  - destruct (findOneAndUpdate_found (ProfileApi.ofUser caller)
                (ProfileApi.set_fields fields) (profiles db) old Hold)
      as [Hret Hstored].
    { unfold ProfileApi.ofUser, ProfileApi.set_fields, fields.
      cbn [profile_user ProfileApi.pf_user ProfileApi.buildProfileFields].
      apply String.eqb_refl. }
    destruct (Db.findOneAndUpdate (ProfileApi.ofUser caller)
                (ProfileApi.set_fields fields) (profiles db))
      as [ret stored'] eqn:Hu.
    cbn [fst snd] in Hret, Hstored. subst ret.
    exists (ProfileApi.set_fields fields old).
    cbn [fst snd profiles set_profiles].
    split; [reflexivity|]. split; [exact Hstored|].
    do 5 (split; [reflexivity|]).
    split; [|intros [=]].
    intros old' [= <-].
    apply set_fields_after_form; assumption.
  - exists (ProfileApi.newProfile profileId fields).
    cbn [fst snd profiles set_profiles].
    split; [reflexivity|]. split.
    { apply findOne_insert_none; [exact Hold|].
      unfold ProfileApi.ofUser, ProfileApi.newProfile, fields.
      cbn [profile_user ProfileApi.pf_user ProfileApi.buildProfileFields].
      apply String.eqb_refl. }
    do 5 (split; [reflexivity|]).
    split; [intros old [=]|].
    intros _. apply newProfile_after_form; assumption.
Qed.

Lemma upsert_social_links_as_supplied_witness :
  exists stored,
    fst (ProfileApi.upsert alice youtubeOnly "5f0000000000000000000b02"
           profileDb) = ok (ProfileBody stored)
    /\ Db.findOne (ProfileApi.ofUser alice)
         (profiles (snd (ProfileApi.upsert alice youtubeOnly
                           "5f0000000000000000000b02" profileDb)))
       = Some stored
    /\ stored =
         mkProfile "5f0000000000000000000b01" alice
           (Some "Acme") None None (Some "Developer") ["go"; "rust"; "c++"]
           None None
           (mkSocial (Some "https://youtube.com/alice") None None None None)
           [job1; job2] [school1; school2].
Proof.
  destruct (upsert_social_links_as_supplied alice youtubeOnly
              "5f0000000000000000000b02" profileDb eq_refl eq_refl)
    as (stored & Hres & Hstored & _ & _ & _ & _ & _ & Hold & _).
  exists stored.
  split; [exact Hres|]. split; [exact Hstored|].
  exact (Hold aliceProfile eq_refl).
Defined.

(** ** Accounts: registration *)

Section RegisterFacts.
Context (ext : Externals).

Lemma isEmpty_app_cons {A : Type} (l1 l2 : list A) (x : A) :
  isEmpty (l1 ++ x :: l2) = false.
Proof. now destruct l1. Qed.

Lemma isEmpty_true {A : Type} (l : list A) : isEmpty l = true -> l = [].
Proof. destruct l; [reflexivity | discriminate]. Qed.

(** What a registration answered 200 did. *)
Lemma register_success (b : UsersApi.ReqBody) (newId : id) (salt : string)
    (db : DB) :
  res_status (out_response (UsersApi.register ext b newId salt db)) = 200 ->
  UsersApi.validate ext b = []
  /\ Db.findOne (withEmail (field_string (UsersApi.email b))) (users db) = None
  /\ out_db (UsersApi.register ext b newId salt db) =
       set_users
         (Db.insert
            (mkUser newId (field_string (UsersApi.name b))
                    (field_string (UsersApi.email b))
                    (gravatar_url ext (field_string (UsersApi.email b)))
                    (bcrypt_hash ext (field_string (UsersApi.password b)) salt))
            (users db)) db.
Proof.
  unfold UsersApi.register.
  destruct (isEmpty (UsersApi.validate ext b)) eqn:Hv; cbn [negb].
  - apply isEmpty_true in Hv.
    destruct (Db.findOne (withEmail (field_string (UsersApi.email b)))
              (users db)) eqn:Hf; cbn.
    + discriminate.
    + intros _. now repeat split.
  - cbn. discriminate.
Qed.

(** A registration removes no account: an email that selects an account
    still selects it afterwards. *)
Lemma register_keeps_account (email : string) (u : User)
    (b : UsersApi.ReqBody) (newId : id) (salt : string) (db : DB) :
  Db.findOne (withEmail email) (users db) = Some u ->
  Db.findOne (withEmail email)
    (users (out_db (UsersApi.register ext b newId salt db))) = Some u.
Proof.
  intros Hu. unfold UsersApi.register.
  destruct (negb (isEmpty (UsersApi.validate ext b))); [exact Hu|].
  destruct (Db.findOne (withEmail (field_string (UsersApi.email b)))
              (users db)) eqn:Hf; cbn; [exact Hu|].
  now apply findOne_insert_some.
Qed.

Lemma findOne_email_none (email : string) (l : list User) :
  Db.findOne (withEmail email) l = None -> ~ In email (map user_email l).
Proof.
  unfold Db.findOne. intros Hnone Hin.
  apply in_map_iff in Hin. destruct Hin as (u & Hu & Hin).
  apply (find_none _ _ Hnone) in Hin.
  unfold withEmail in Hin. apply String.eqb_neq in Hin. contradiction.
Qed.

(** A registration keeps the emails of the accounts distinct. *)
Lemma register_keeps_emails_distinct (b : UsersApi.ReqBody) (newId : id)
    (salt : string) (db : DB) :
  NoDup (map user_email (users db)) ->
  NoDup (map user_email
           (users (out_db (UsersApi.register ext b newId salt db)))).
Proof.
  intros Hnd. unfold UsersApi.register.
  destruct (negb (isEmpty (UsersApi.validate ext b))); [exact Hnd|].
  destruct (Db.findOne (withEmail (field_string (UsersApi.email b)))
              (users db)) eqn:Hf; cbn; [exact Hnd|].
  unfold Db.insert. rewrite map_app. cbn [map user_email].
  apply NoDup_app.
  - exact Hnd.
  - constructor; [intros []|constructor].
  - intros e He [<-|[]]. now apply findOne_email_none in Hf.
Qed.

End RegisterFacts.

(** ** Accounts under the requests of the whole API *)

(** A request to a post route changes no account and no profile. *)
Lemma servePost_accounts (ext : Externals) (r : PostRequest) (db : DB) :
  users (snd (servePost ext r db)) = users db
  /\ profiles (snd (servePost ext r db)) = profiles db.
Proof.
  destruct r as [caller text postId | caller postId | caller postId likeId
                | caller postId | caller postId text commentId
                | caller postId commentId]; cbn [servePost].
  - unfold PostsApi.create.
    destruct (negb (isEmpty _)); [now split|].
    destruct (Db.lookup caller (users db)); now split.
  - unfold PostsApi.delete.
    destruct (findById ext postId (posts db)) as [[post|]|];
      [|now split|now split].
    destruct (negb (post_user post =? caller)); now split.
  - unfold PostsApi.like.
    destruct (findById ext postId (posts db)) as [[post|]|];
      [|now split|now split].
    destruct (0 <? _)%nat; now split.
  - unfold PostsApi.unlike.
    destruct (findById ext postId (posts db)) as [[post|]|];
      [|now split|now split].
    destruct (_ =? 0)%nat; now split.
  - unfold PostsApi.addComment.
    destruct (negb (isEmpty _)); [now split|].
    destruct (findById ext postId (posts db)) as [[post|]|];
      [|now split|now split].
    destruct (Db.lookup caller (users db)); now split.
  - unfold PostsApi.removeComment.
    destruct (findById ext postId (posts db)) as [[post|]|];
      [|now split|now split].
    destruct (find _ (comments post)) as [cur|]; [|now split].
    destruct (negb (comment_user cur =? caller)); now split.
Qed.

Section AccountFacts.
Context (ext : Externals).

Lemma findOne_of_In {A : Type} (q : A -> bool) (c : list A) (x : A) :
  In x c -> q x = true -> exists y, Db.findOne q c = Some y /\ q y = true.
Proof.
  unfold Db.findOne.
  induction c as [|z c IH]; intros Hin Hq; [destruct Hin|].
  cbn [find]. destruct (q z) eqn:Hz.
  - now exists z.
  - destruct Hin as [->|Hin]; [congruence | now apply IH].
Qed.

Lemma findOneAndRemove_keeps {A : Type} (q : A -> bool) (c : list A) (x : A) :
  In x c -> q x = false -> In x (Db.findOneAndRemove q c).
Proof.
  induction c as [|z c IH]; intros Hin Hq; [destruct Hin|].
  cbn [Db.findOneAndRemove]. destruct (q z) eqn:Hz.
  - destruct Hin as [->|Hin]; [congruence | exact Hin].
  - destruct Hin as [->|Hin]; [now left | right; now apply IH].
Qed.

Lemma findOneAndRemove_incl {A : Type} (q : A -> bool) (c : list A) (x : A) :
  In x (Db.findOneAndRemove q c) -> In x c.
Proof.
  induction c as [|z c IH]; intros Hin; [destruct Hin|].
  cbn [Db.findOneAndRemove] in Hin. destruct (q z).
  - now right.
  - destruct Hin as [->|Hin]; [now left | right; now apply IH].
Qed.

Lemma findOneAndRemove_distinct {A B : Type} (f : A -> B) (q : A -> bool)
    (c : list A) :
  NoDup (map f c) -> NoDup (map f (Db.findOneAndRemove q c)).
Proof.
  induction c as [|z c IH]; intros Hnd; [exact Hnd|].
  cbn [map] in Hnd. inversion Hnd as [|? ? Hnotin Hrest]; subst.
  cbn [Db.findOneAndRemove]. destruct (q z); [exact Hrest|].
  cbn [map]. constructor; [|now apply IH].
  intros Hin. apply Hnotin.
  apply in_map_iff in Hin. destruct Hin as (y & Hy & Hin).
  apply in_map_iff. exists y. split; [exact Hy|].
  now apply findOneAndRemove_incl in Hin.
Qed.

(** The profile routes other than DELETE change no account. *)
Lemma upsert_keeps_accounts (caller : id) (b : ProfileApi.ReqBody)
    (profileId : id) (db : DB) :
  users (snd (ProfileApi.upsert caller b profileId db)) = users db.
Proof.
  unfold ProfileApi.upsert.
  destruct (negb (isEmpty _)); [reflexivity|].
  destruct (Db.findOne (ProfileApi.ofUser caller) (profiles db));
    [|reflexivity].
  destruct (Db.findOneAndUpdate _ _ _). reflexivity.
Qed.

Lemma addExperience_keeps_accounts (caller : id)
    (f : ProfileApi.ExperienceForm) (entryId : id) (db : DB) :
  users (snd (ProfileApi.addExperience caller f entryId db)) = users db.
Proof.
  unfold ProfileApi.addExperience.
  destruct (negb (isEmpty _)); [reflexivity|].
  now destruct (Db.findOne (ProfileApi.ofUser caller) (profiles db)).
Qed.

Lemma addEducation_keeps_accounts (caller : id)
    (g : ProfileApi.EducationForm) (entryId : id) (db : DB) :
  users (snd (ProfileApi.addEducation caller g entryId db)) = users db.
Proof.
  unfold ProfileApi.addEducation.
  destruct (negb (isEmpty _)); [reflexivity|].
  now destruct (Db.findOne (ProfileApi.ofUser caller) (profiles db)).
Qed.

Lemma removeExperience_keeps_accounts (caller : id) (experience_id : string)
    (db : DB) :
  users (snd (ProfileApi.removeExperience caller experience_id db)) = users db.
Proof.
  unfold ProfileApi.removeExperience.
  now destruct (Db.findOne (ProfileApi.ofUser caller) (profiles db)).
Qed.

Lemma removeEducation_keeps_accounts (caller : id) (education_id : string)
    (db : DB) :
  users (snd (ProfileApi.removeEducation caller education_id db)) = users db.
Proof.
  unfold ProfileApi.removeEducation.
  now destruct (Db.findOne (ProfileApi.ofUser caller) (profiles db)).
Qed.

Lemma authenticate_keeps_db (b : AuthApi.ReqBody) (db : DB) :
  out_db (AuthApi.authenticate ext b db) = db.
Proof.
  unfold AuthApi.authenticate.
  destruct (negb (isEmpty _)); [reflexivity|].
  destruct (Db.findOne _ (users db)); [|reflexivity].
  now destruct (negb (bcrypt_compare ext _ _)).
Qed.

(** The accounts after a registration: those before, and the new one when
    the registration went through. *)
Lemma register_accounts (b : UsersApi.ReqBody) (newId : id) (salt : string)
    (db : DB) :
  users (out_db (UsersApi.register ext b newId salt db)) = users db
  \/ exists u,
       users (out_db (UsersApi.register ext b newId salt db)) = users db ++ [u].
Proof.
  unfold UsersApi.register.
  destruct (negb (isEmpty (UsersApi.validate ext b))); [now left|].
  destruct (Db.findOne (withEmail (field_string (UsersApi.email b)))
              (users db)); cbn; [now left|].
  right. eexists. reflexivity.
Qed.

(** The requests that leave the accounts as they are. *)
Lemma serve_accounts (r : Request) (db : DB) :
  match r with
  | Register _ _ _ | DeleteOwn _ => True
  | _ => users (serve ext r db) = users db
  end.
Proof.
  destruct r; cbn [serve]; try exact I.
  - now rewrite authenticate_keeps_db.
  - apply upsert_keeps_accounts.
  - apply addExperience_keeps_accounts.
  - apply removeExperience_keeps_accounts.
  - apply addEducation_keeps_accounts.
  - apply removeEducation_keeps_accounts.
  - apply servePost_accounts.
Qed.

(** An account stays as long as its holder does not delete it. *)
Lemma serve_keeps_account (account : User) (r : Request) (db : DB) :
  In account (users db) ->
  closesAccount (user_id account) r = false ->
  In account (users (serve ext r db)).
Proof.
  intros Hin Hopen.
  pose proof (serve_accounts r db) as Hsame.
  destruct r as [b newId salt| | |caller| | | | |];
    try (rewrite Hsame; exact Hin).
  - cbn [serve].
    destruct (register_accounts b newId salt db) as [->|[u ->]];
      [exact Hin | apply in_or_app; now left].
  - cbn [serve ProfileApi.deleteOwn snd users profiles set_users
         set_profiles].
    apply findOneAndRemove_keeps; [exact Hin|].
    cbn [closesAccount] in Hopen.
    rewrite String.eqb_sym. exact Hopen.
Qed.

Lemma serveAll_keeps_account (account : User) (reqs : list Request) :
  forall db,
    In account (users db) ->
    forallb (fun r => negb (closesAccount (user_id account) r)) reqs = true ->
    In account (users (serveAll ext reqs db)).
Proof.
  induction reqs as [|r reqs IH]; intros db Hin Hopen; [exact Hin|].
  cbn [forallb] in Hopen. apply andb_true_iff in Hopen.
  destruct Hopen as [Hr Hrest]. apply negb_true_iff in Hr.
  cbn [serveAll]. apply IH; [|exact Hrest].
  now apply serve_keeps_account.
Qed.

(** No request makes two accounts share an email. *)
Lemma serve_keeps_emails_distinct (r : Request) (db : DB) :
  NoDup (map user_email (users db)) ->
  NoDup (map user_email (users (serve ext r db))).
Proof.
  intros Hnd.
  pose proof (serve_accounts r db) as Hsame.
  destruct r as [b newId salt| | |caller| | | | |];
    try (rewrite Hsame; exact Hnd).
  - cbn [serve]. now apply register_keeps_emails_distinct.
  - cbn [serve ProfileApi.deleteOwn snd users profiles set_users
         set_profiles].
    now apply findOneAndRemove_distinct.
Qed.

Lemma serveAll_keeps_emails_distinct (reqs : list Request) :
  forall db,
    NoDup (map user_email (users db)) ->
    NoDup (map user_email (users (serveAll ext reqs db))).
Proof.
  induction reqs as [|r reqs IH]; intros db Hnd; [exact Hnd|].
  cbn [serveAll]. apply IH. now apply serve_keeps_emails_distinct.
Qed.

End AccountFacts.

(** C7 (as the claim states it, refuted).  Carol registers; she deletes her
    account with DELETE api/profile; a registration with the same email is
    then answered 200 with a token and creates an account.  And while
    carol's account exists, a form with her email that fails validation
    (here, without a name) is refused with the validation errors, not with
    the conflict error. *)
Lemma register_again_after_account_deleted :
  let db1 :=
    out_db (UsersApi.register sampleExternals carolForm carolId "s3"
              sampleDb) in
  let db2 := snd (ProfileApi.deleteOwn carolId db1) in
  let again := UsersApi.register sampleExternals carolAgainForm daveId "s5" db2 in
  let unnamed := UsersApi.mkReqBody None (Some "c@x.com") (Some "another1") in
  res_status (out_response
     (UsersApi.register sampleExternals carolForm carolId "s3" sampleDb)) = 200
  /\ UsersApi.email carolAgainForm = UsersApi.email carolForm
  /\ out_response again = ok (TokenBody (jwt_sign sampleExternals daveId))
  /\ users (out_db again)
     = users db2
       ++ [mkUser daveId "Caroline" "c@x.com"
             (gravatar_url sampleExternals "c@x.com")
             (bcrypt_hash sampleExternals "another1" "s5")]
  /\ UsersApi.email unnamed = UsersApi.email carolForm
  /\ out_response (UsersApi.register sampleExternals unnamed daveId "s5" db1)
     = mkResponse 400
         (ValidationErrors
            [mkFieldError "name" "Name is required" None]).
Proof. vm_compute. repeat split. Qed.

(** C7 (amended). After a registration answered 200 and any further
    requests to the API, none of them a DELETE api/profile by the holder of
    the new account, a registration with the same email creates no
    account: it is answered 400 and leaves the database as it was without
    calling the hashing or token libraries.  The answer is the error
    "User Already Exists" when the form passes validation, and the list of
    validation errors when it does not.  The emails of the accounts, when
    distinct before, are distinct afterwards. *)
Theorem register_same_email_again (ext : Externals)
    (b : UsersApi.ReqBody) (newId : id) (salt : string) (db : DB)
    (later : list Request)
    (b2 : UsersApi.ReqBody) (newId2 : id) (salt2 : string) :
  res_status (out_response (UsersApi.register ext b newId salt db)) = 200 ->
  forallb (fun r => negb (closesAccount newId r)) later = true ->
  UsersApi.email b2 = UsersApi.email b ->
  let db2 :=
    serveAll ext later (out_db (UsersApi.register ext b newId salt db)) in
  (res_status (out_response (UsersApi.register ext b2 newId2 salt2 db2)) = 400
   /\ out_db (UsersApi.register ext b2 newId2 salt2 db2) = db2
   /\ out_calls (UsersApi.register ext b2 newId2 salt2 db2) = [])
  /\ (UsersApi.validate ext b2 = [] ->
      UsersApi.register ext b2 newId2 salt2 db2 =
        mkOutcome (mkResponse 400 (Literal (errors_obj "User Already Exists")))
                  db2 [])
  /\ (UsersApi.validate ext b2 <> [] ->
      UsersApi.register ext b2 newId2 salt2 db2 =
        mkOutcome (mkResponse 400 (ValidationErrors (UsersApi.validate ext b2)))
                  db2 [])
  /\ (NoDup (map user_email (users db)) ->
      NoDup (map user_email (users db2))).
Proof.
  intros Hok Hopen Hemail db2.
  destruct (register_success ext b newId salt db Hok) as (_ & Hnew & Hdb).
  set (user := mkUser newId (field_string (UsersApi.name b))
                 (field_string (UsersApi.email b))
                 (gravatar_url ext (field_string (UsersApi.email b)))
                 (bcrypt_hash ext (field_string (UsersApi.password b)) salt))
    in Hdb.
  assert (Hin : In user (users db2)).
  { unfold db2. apply serveAll_keeps_account; [|exact Hopen].
    rewrite Hdb. cbn [users set_users]. unfold Db.insert.
    apply in_or_app. right. now left. }
  destruct (findOne_of_In (withEmail (field_string (UsersApi.email b2)))
              (users db2) user Hin) as (found & Hfound & _).
  { rewrite Hemail. unfold withEmail, user. cbn [user_email].
    apply String.eqb_refl. }
  assert (Hconflict : UsersApi.validate ext b2 = [] ->
            UsersApi.register ext b2 newId2 salt2 db2 =
              mkOutcome
                (mkResponse 400 (Literal (errors_obj "User Already Exists")))
                db2 []).
  { intros Hvalid. unfold UsersApi.register.
    rewrite Hvalid. cbn [isEmpty negb]. now rewrite Hfound. }
  assert (Hinvalid : UsersApi.validate ext b2 <> [] ->
            UsersApi.register ext b2 newId2 salt2 db2 =
              mkOutcome
                (mkResponse 400 (ValidationErrors (UsersApi.validate ext b2)))
                db2 []).
  { intros Hv. unfold UsersApi.register.
    destruct (UsersApi.validate ext b2) as [|e es]; [now destruct Hv|].
    reflexivity. }
  split; [|split; [exact Hconflict|split; [exact Hinvalid|]]].
  - destruct (UsersApi.validate ext b2) as [|e es] eqn:Hv.
    + rewrite (Hconflict eq_refl). now repeat split.
    + rewrite Hinvalid by discriminate. now repeat split.
  - intros Hnd. unfold db2. apply serveAll_keeps_emails_distinct.
    now apply register_keeps_emails_distinct.
Qed.

Lemma register_same_email_again_witness :
  let later :=
    [Register daveForm daveId "s4";
     DeleteOwn alice;
     OnPost (Create bob (Some "hello") "5f00000000000000000000c9");
     Upsert bob youtubeOnly "5f0000000000000000000b09";
     Authenticate wrongPasswordForm] in
  let db2 :=
    serveAll sampleExternals later
      (out_db (UsersApi.register sampleExternals carolForm carolId "s3"
                 sampleDb)) in
  res_status (out_response
     (UsersApi.register sampleExternals carolForm carolId "s3" sampleDb)) = 200
  /\ forallb (fun r => negb (closesAccount carolId r)) later = true
  /\ UsersApi.email carolAgainForm = UsersApi.email carolForm
  /\ UsersApi.register sampleExternals carolAgainForm daveId "s5" db2
     = mkOutcome
         (mkResponse 400 (Literal (errors_obj "User Already Exists")))
         db2 []
  /\ NoDup (map user_email (users db2)).
Proof.
  intros later db2.
  split; [reflexivity|]. split; [reflexivity|]. split; [reflexivity|].
  destruct (register_same_email_again sampleExternals carolForm carolId "s3"
              sampleDb later carolAgainForm daveId "s5"
              eq_refl eq_refl eq_refl)
    as (_ & Hconflict & _ & Hdistinct).
  split.
  - exact (Hconflict eq_refl).
  - apply Hdistinct. vm_compute.
    repeat (constructor; [intros H; cbn in H; intuition discriminate|]).
    constructor.
Defined.

(** C10. A registration whose password has fewer than 6 characters (an
    absent password has none) is answered 400 with the validation errors,
    the error of the password field among them; the database is left as
    it was, and neither the hashing library nor any other is called. *)
Theorem register_short_password (ext : Externals) (b : UsersApi.ReqBody)
    (newId : id) (salt : string) (db : DB) :
  Js.codePoints (field_string (UsersApi.password b)) < 6 ->
  exists errors,
    UsersApi.register ext b newId salt db =
      mkOutcome (mkResponse 400 (ValidationErrors errors)) db []
    /\ In (mkFieldError "password"
             "Please enter a password with 6 or more characters"
             (UsersApi.password b)) errors.
Proof.
  intros Hshort.
  exists (UsersApi.validate ext b).
  assert (Hpw : UsersApi.isLength 6 (UsersApi.password b) = false).
  { unfold UsersApi.isLength. apply Nat.leb_gt. exact Hshort. }
  assert (Hin : In (mkFieldError "password"
                      "Please enter a password with 6 or more characters"
                      (UsersApi.password b)) (UsersApi.validate ext b)).
  { unfold UsersApi.validate. rewrite Hpw.
    apply in_or_app. right. apply in_or_app. right. now left. }
  split; [|exact Hin].
  unfold UsersApi.register.
  destruct (UsersApi.validate ext b) as [|e es]; [destruct Hin|].
  reflexivity.
Qed.

Lemma register_short_password_witness :
  exists errors,
    UsersApi.register sampleExternals shortPasswordForm carolId "s3" sampleDb =
      mkOutcome (mkResponse 400 (ValidationErrors errors)) sampleDb []
    /\ In (mkFieldError "password"
             "Please enter a password with 6 or more characters"
             (UsersApi.password shortPasswordForm)) errors.
Proof.
  apply (register_short_password sampleExternals shortPasswordForm carolId
           "s3" sampleDb).
  vm_compute. lia.
Defined.

(** ** Accounts: sign-in *)

(** The two refusals of a sign-in have the same status and message, and
    not the same body: the list of errors is under the key [errors] when
    no account has the email, and under the key [error] when the password
    does not match. *)
Lemma authenticate_refusals (ext : Externals) (b : AuthApi.ReqBody)
    (db : DB) :
  AuthApi.validate ext b = [] ->
  (Db.findOne (withEmail (field_string (AuthApi.email b))) (users db) = None ->
     out_response (AuthApi.authenticate ext b db) =
       mkResponse 400 (Literal (errors_obj "Invalid Credentials")))
  /\ (forall u,
        Db.findOne (withEmail (field_string (AuthApi.email b))) (users db)
          = Some u ->
        bcrypt_compare ext (field_string (AuthApi.password b))
                       (user_password u) = false ->
        out_response (AuthApi.authenticate ext b db) =
          mkResponse 400 (Literal (error_obj "Invalid Credentials"))).
Proof.
  intros Hvalid. unfold AuthApi.authenticate. rewrite Hvalid.
  cbn [isEmpty negb]. split.
  - intros ->. reflexivity.
  - intros u -> ->. reflexivity.
Qed.

(** C5 (the handler departs from the claim). The same sign-in form, with
    alice's email and a wrong password, is answered with one body when no
    account has the email and with another when alice has an account; the
    client, which reads the key [errors], finds the message in the first
    and nothing in the second. *)
Theorem authenticate_refusals_differ :
  out_response (AuthApi.authenticate sampleExternals wrongPasswordForm emptyDb)
    = mkResponse 400
        (Literal (JObj [("errors", JArr [JObj [("msg", JStr "Invalid Credentials")]])]))
  /\ out_response
       (AuthApi.authenticate sampleExternals wrongPasswordForm sampleDb)
     = mkResponse 400
         (Literal (JObj [("error", JArr [JObj [("msg", JStr "Invalid Credentials")]])]))
  /\ out_response
       (AuthApi.authenticate sampleExternals wrongPasswordForm emptyDb)
     <> out_response
          (AuthApi.authenticate sampleExternals wrongPasswordForm sampleDb)
  /\ client_errors
       (res_body (out_response
          (AuthApi.authenticate sampleExternals wrongPasswordForm emptyDb)))
     = Some ["Invalid Credentials"]
  /\ client_errors
       (res_body (out_response
          (AuthApi.authenticate sampleExternals wrongPasswordForm sampleDb)))
     = None.
Proof.
  split; [reflexivity|]. split; [reflexivity|].
  split; [discriminate|]. split; reflexivity.
Qed.

(** ** The scenarios of the specification *)

(** Skills given as ["go, rust, c++"] are stored as the three names, in
    that order. *)
Example skills_split_and_trimmed :
  ProfileApi.pf_skills (ProfileApi.buildProfileFields alice youtubeOnly)
    = Some ["go"; "rust"; "c++"].
Proof. reflexivity. Qed.

(** Bob likes alice's post, likes it again, and unlikes it. *)
Example bob_likes_twice_then_unlikes :
  let db1 := snd (PostsApi.like sampleExternals bob alicePostId
                    "5f00000000000000000000d1" sampleDb) in
  fst (PostsApi.like sampleExternals bob alicePostId
         "5f00000000000000000000d1" sampleDb)
    = ok (LikesBody [mkLike "5f00000000000000000000d1" bob])
  /\ PostsApi.like sampleExternals bob alicePostId
       "5f00000000000000000000d2" db1
     = (mkResponse 400 (Literal (msg_obj "Post already liked")), db1)
  /\ PostsApi.unlike sampleExternals bob alicePostId db1
     = (ok (LikesBody []), sampleDb).
Proof. repeat split. Qed.

(** Bob cannot remove alice's comment; an id that is not an ObjectId is
    answered 404 by the post routes and 500 by the comment routes. *)
Example comment_of_another_user_and_malformed_id :
  PostsApi.removeComment sampleExternals bob alicePostId firstCommentId
    twoCommentsDb
    = (mkResponse 401 (Literal (msg_obj "User not authorized")), twoCommentsDb)
  /\ PostsApi.getById sampleExternals "42" sampleDb
     = (mkResponse 404 (Literal (msg_obj "Post Not Found")), sampleDb)
  /\ PostsApi.removeComment sampleExternals alice "42" firstCommentId sampleDb
     = (server_error, sampleDb).
Proof. repeat split. Qed.

(** A password of three letters of two bytes each has three characters:
    the registration is refused, with the error of the password field. *)
Example password_of_three_accented_letters :
  let pw := Js.bytes [195; 169; 195; 169; 195; 169] in
  String.length pw = 6
  /\ Js.codePoints pw = 3
  /\ UsersApi.register sampleExternals
       (UsersApi.mkReqBody (Some "Erin") (Some "e@x.com") (Some pw))
       carolId "s3" sampleDb
     = mkOutcome
         (mkResponse 400
            (ValidationErrors
               [mkFieldError "password"
                  "Please enter a password with 6 or more characters"
                  (Some pw)]))
         sampleDb [].
Proof. repeat split. Qed.

(** The id of a route is cast to an ObjectId before the query: alice's
    post is found, and deleted, under its id written in upper case. *)
Example post_under_upper_case_id :
  PostsApi.getById sampleExternals "5F00000000000000000000C1" sampleDb
    = (ok (PostBody alicePost), sampleDb)
  /\ PostsApi.delete sampleExternals alice "5F00000000000000000000C1" sampleDb
     = (ok (Literal (msg_obj "Post Removed")), set_posts [] sampleDb).
Proof. repeat split. Qed.

(** Trimming takes the white space of Unicode, here a no-break space
    (U+00A0) in front and an em space (U+2003) behind, and keeps the space
    inside. *)
Example trim_of_unicode_white_space :
  Js.trim (Js.bytes [194; 160] ++ "node js" ++ Js.bytes [226; 128; 131])%string
    = "node js".
Proof. reflexivity. Qed.

(* ================================================================== *)
(** * Further properties of the routes *)

(** ** Membership in a collection *)

Section MembershipFacts.
Context {A : Type} `{Document A}.

Lemma lookup_In (i : id) (c : list A) (d : A) :
  Db.lookup i c = Some d -> In d c.
Proof.
  unfold Db.lookup, Db.findOne. intros Hf. now apply find_some in Hf.
Qed.

Lemma In_save (p d : A) (c : list A) :
  In p (Db.save d c) -> p = d \/ In p c.
Proof.
  induction c as [|x c IH]; simpl.
  - intros [<-|[]]. now left.
  - destruct (query_id (doc_id x) =? query_id (doc_id d)).
    + intros [<-|Hin]; [now left | right; now right].
    + intros [<-|Hin]; [right; now left|].
      destruct (IH Hin) as [->|Hc]; [now left | right; now right].
Qed.

Lemma In_remove (p d : A) (c : list A) :
  In p (Db.remove d c) -> In p c.
Proof. unfold Db.remove. intros Hin. now apply filter_In in Hin. Qed.

Lemma In_insert (p d : A) (c : list A) :
  In p (Db.insert d c) -> In p c \/ p = d.
Proof.
  unfold Db.insert. intros Hin. apply in_app_or in Hin.
  destruct Hin as [Hc|[<-|[]]]; [now left | now right].
Qed.

Lemma lookup_insert_other (i : id) (d : A) (c : list A) :
  query_id (doc_id d) <> query_id i ->
  Db.lookup i (Db.insert d c) = Db.lookup i c.
Proof.
  unfold Db.lookup, Db.findOne, Db.insert. intros N.
  apply String.eqb_neq in N.
  induction c as [|x c IH]; simpl.
  - now rewrite N.
  - destruct (query_id (doc_id x) =? query_id i); [reflexivity | exact IH].
Qed.

Lemma lookup_insert_fresh (d : A) (c : list A) :
  Db.lookup (doc_id d) c = None ->
  Db.lookup (doc_id d) (Db.insert d c) = Some d.
Proof.
  intros Hnone. unfold Db.lookup in *.
  apply findOne_insert_none; [exact Hnone | apply String.eqb_refl].
Qed.

Lemma lookup_remove_other (i : id) (d : A) (c : list A) :
  query_id (doc_id d) <> query_id i ->
  Db.lookup i (Db.remove d c) = Db.lookup i c.
Proof.
  unfold Db.lookup, Db.findOne, Db.remove. intros N.
  induction c as [|x c IH]; simpl; [reflexivity|].
  destruct (String.eqb_spec (query_id (doc_id x)) (query_id (doc_id d)))
    as [E|N']; simpl.
  - rewrite E. apply String.eqb_neq in N. now rewrite N.
  - now rewrite IH.
Qed.

(** After [doc.save()] of a document fetched by a query, as changed by
    the handler without touching what the query reads, the query selects
    the saved document. *)
Lemma findOne_save (q : A -> bool) (c : list A) (p d : A) :
  Db.findOne q c = Some p ->
  doc_id d = doc_id p ->
  q d = true ->
  Db.findOne q (Db.save d c) = Some d.
Proof.
  unfold Db.findOne. intros Hf Hid Hq.
  induction c as [|x c IH]; simpl in *; [discriminate|].
  destruct (String.eqb_spec (query_id (doc_id x)) (query_id (doc_id d)))
    as [E|N]; simpl.
  - now rewrite Hq.
  - destruct (q x) eqn:Hx.
    + injection Hf as ->. congruence.
    + now apply IH.
Qed.

End MembershipFacts.

(** ** Posts: what unlike and the comment routes do to the lists *)

Section PostRouteFacts.
Context (ext : Externals).

(** The answer and the stored post of an unlike that passes the guard. *)
Lemma unlike_splits (caller : id) (postId : string) (post : Post) (db : DB) :
  findById ext postId (posts db) = Resolved (Some post) ->
  (exists l, In l (likes post) /\ like_user l = caller) ->
  exists before mine after,
    likes post = before ++ mine :: after /\
    like_user mine = caller /\
    (forall l, In l before -> like_user l <> caller) /\
    PostsApi.unlike ext caller postId db =
      (ok (LikesBody (before ++ after)),
       set_posts (Db.save (set_likes (before ++ after) post) (posts db)) db).
Proof.
  intros Hf Hliked.
  destruct (indexOf_present like_user caller (likes post) Hliked)
    as (before & mine & after & Hsplit & Hmine & Hbefore & Hidx).
  exists before, mine, after.
  assert (Hri : PostsApi.likeRemoveIndex caller post
                = Z.of_nat (List.length before)) by exact Hidx.
  split; [exact Hsplit|]. split; [exact Hmine|]. split; [exact Hbefore|].
  unfold PostsApi.unlike. rewrite Hf.
  destruct (alreadyLiked_some caller post Hliked) as (l & rest & ->).
  cbn [List.length Nat.eqb]. rewrite Hri.
  rewrite Hsplit at 1 2. rewrite splice_middle. reflexivity.
Qed.

(** The guard of unlike lets through exactly the callers with a like. *)
Lemma alreadyLiked_cases (caller : id) (post : Post) :
  PostsApi.alreadyLiked caller post = []
  \/ exists l, In l (likes post) /\ like_user l = caller.
Proof.
  unfold PostsApi.alreadyLiked.
  destruct (filter _ (likes post)) as [|l rest] eqn:E; [now left|].
  right. exists l.
  assert (Hin : In l (filter (fun like => like_user like =? caller)
                        (likes post))) by (rewrite E; now left).
  apply filter_In in Hin. destruct Hin as [Hin Heq].
  split; [exact Hin | now apply String.eqb_eq].
Qed.

Lemma filter_length_app_cons {A : Type} (q : A -> bool) (l1 l2 : list A)
    (a : A) :
  List.length (filter q (l1 ++ a :: l2)) =
  List.length (filter q (l1 ++ l2)) + (if q a then 1 else 0).
Proof.
  rewrite !filter_app, !length_app. simpl. destruct (q a); simpl; lia.
Qed.

End PostRouteFacts.

(** ** Posts: at most one like per user, on every route *)

Section LikeInvariant.
Context (ext : Externals).

Lemma likedAtMostOnce_save (db : DB) (post' : Post) :
  likedAtMostOnce db ->
  (forall u, List.length (PostsApi.alreadyLiked u post') <= 1) ->
  likedAtMostOnce (set_posts (Db.save post' (posts db)) db).
Proof.
  intros Hinv Hnew post u Hin. cbn [posts set_posts] in Hin.
  apply In_save in Hin. destruct Hin as [->|Hin]; [apply Hnew | now apply Hinv].
Qed.

Lemma findById_In (postId : string) (post : Post) (db : DB) :
  findById ext postId (posts db) = Resolved (Some post) -> In post (posts db).
Proof.
  intros Hf. apply findById_resolved in Hf. destruct Hf as [_ Hl].
  now apply lookup_In in Hl.
Qed.

Lemma servePost_keeps_likes (r : PostRequest) (db : DB) :
  likedAtMostOnce db -> likedAtMostOnce (snd (servePost ext r db)).
Proof.
  intros Hinv.
  destruct r as [caller text postId | caller postId | caller postId likeId
                | caller postId | caller postId text commentId
                | caller postId commentId]; cbn [servePost].
  - (* create *)
    unfold PostsApi.create.
    destruct (negb (isEmpty _)); [exact Hinv|].
    destruct (Db.lookup caller (users db)) as [user|]; [|exact Hinv].
    intros post u Hin. cbn [snd posts set_posts] in Hin.
    apply In_insert in Hin. destruct Hin as [Hin| ->]; [now apply Hinv|].
    cbn. lia.
  - (* delete *)
    unfold PostsApi.delete.
    destruct (findById ext postId (posts db)) as [[post|]|];
      [|exact Hinv|exact Hinv].
    destruct (negb (post_user post =? caller)); [exact Hinv|].
    intros p u Hin. cbn [snd posts set_posts] in Hin.
    apply In_remove in Hin. now apply Hinv.
  - (* like *)
    unfold PostsApi.like.
    destruct (findById ext postId (posts db)) as [[post|]|] eqn:Hf;
      [|exact Hinv|exact Hinv].
    destruct (0 <? List.length (PostsApi.alreadyLiked caller post))%nat eqn:Hg;
      [exact Hinv|].
    apply Nat.ltb_ge in Hg. cbn [snd].
    apply likedAtMostOnce_save; [exact Hinv|].
    intros u. pose proof (Hinv post u (findById_In _ _ _ Hf)) as Hu.
    unfold PostsApi.alreadyLiked, Js.unshift in *.
    cbn [likes set_likes filter like_user].
    destruct (String.eqb_spec caller u) as [->|_]; [cbn [List.length]; lia|].
    exact Hu.
  - (* unlike *)
    destruct (findById ext postId (posts db)) as [[post|]|] eqn:Hf;
      try (unfold PostsApi.unlike; rewrite Hf; exact Hinv).
    destruct (alreadyLiked_cases caller post) as [Hnone|Hsome].
    + unfold PostsApi.unlike. rewrite Hf, Hnone. exact Hinv.
    + destruct (unlike_splits ext caller postId post db Hf Hsome)
        as (before & mine & after & Hsplit & _ & _ & ->).
      cbn [snd]. apply likedAtMostOnce_save; [exact Hinv|].
      intros u. pose proof (Hinv post u (findById_In _ _ _ Hf)) as Hu.
      unfold PostsApi.alreadyLiked in *. cbn [likes set_likes].
      rewrite Hsplit, filter_length_app_cons in Hu. lia.
  - (* addComment *)
    unfold PostsApi.addComment.
    destruct (negb (isEmpty _)); [exact Hinv|].
    destruct (findById ext postId (posts db)) as [[post|]|] eqn:Hf;
      [|exact Hinv|exact Hinv].
    destruct (Db.lookup caller (users db)) as [user|]; [|exact Hinv].
    cbn [snd]. apply likedAtMostOnce_save; [exact Hinv|].
    intros u. exact (Hinv post u (findById_In _ _ _ Hf)).
  - (* removeComment *)
    unfold PostsApi.removeComment.
    destruct (findById ext postId (posts db)) as [[post|]|] eqn:Hf;
      [|exact Hinv|exact Hinv].
    destruct (find _ (comments post)) as [cur|]; [|exact Hinv].
    destruct (negb (comment_user cur =? caller)); [exact Hinv|].
    cbn [snd]. apply likedAtMostOnce_save; [exact Hinv|].
    intros u. exact (Hinv post u (findById_In _ _ _ Hf)).
Qed.

End LikeInvariant.

(** X1. Whatever requests the post routes serve (creations, deletions,
    likes, unlikes, comments and their removals, by any callers, with any
    parameters), no stored post ever has two likes of one user, when none
    had before. *)
Theorem post_routes_keep_likes_unique (ext : Externals)
    (reqs : list PostRequest) (db : DB) :
  likedAtMostOnce db -> likedAtMostOnce (servePosts ext reqs db).
Proof.
  revert db. induction reqs as [|r reqs IH]; intros db Hinv.
  - exact Hinv.
  - cbn [servePosts]. apply IH. now apply servePost_keeps_likes.
Qed.

Lemma post_routes_keep_likes_unique_witness :
  likedAtMostOnce
    (servePosts sampleExternals
       [Create bob (Some "hi") "5f00000000000000000000c2";
        LikePost bob alicePostId "5f00000000000000000000d1";
        LikePost bob alicePostId "5f00000000000000000000d2";
        LikePost alice alicePostId "5f00000000000000000000d3";
        UnlikePost bob alicePostId;
        AddComment alice alicePostId (Some "first") firstCommentId;
        LikePost bob "5f00000000000000000000c2" "5f00000000000000000000d4";
        Delete alice alicePostId]
       sampleDb).
Proof.
  apply (post_routes_keep_likes_unique sampleExternals).
  intros post u [<-|[]]. cbn. lia.
Defined.

(** ** Posts: creation *)

(** X2. A post created with a text, by a caller who has an account, under
    an id no stored post has, is answered by getById under that id: it has
    the caller as author, the name and avatar of the caller's account, no
    like and no comment.  The posts stored before are all still there. *)
Theorem create_then_getById (ext : Externals) (caller : id)
    (text : option string) (postId : id) (user : User) (db : DB) :
  notEmpty text = true ->
  Db.lookup caller (users db) = Some user ->
  isObjectId ext postId = true ->
  Db.lookup postId (posts db) = None ->
  let newPost :=
    mkPost postId caller (field_string text) (user_name user)
           (user_avatar user) [] [] in
  let db' := snd (PostsApi.create caller text postId db) in
  fst (PostsApi.create caller text postId db) = ok (PostBody newPost)
  /\ PostsApi.getById ext postId db' = (ok (PostBody newPost), db')
  /\ (forall u, likeCount u postId db' = 0)
  /\ (forall p, In p (posts db) -> In p (posts db')).
Proof.
  intros Htext Huser Hoid Hfresh newPost db'.
  assert (Hc : PostsApi.create caller text postId db =
               (ok (PostBody newPost),
                set_posts (Db.insert newPost (posts db)) db)).
  { unfold PostsApi.create, check. rewrite Htext, Huser. reflexivity. }
  assert (Hl : Db.lookup postId (posts db') = Some newPost).
  { unfold db'. rewrite Hc. cbn [snd posts set_posts].
    change (Db.lookup (doc_id newPost) (Db.insert newPost (posts db))
            = Some newPost).
    apply lookup_insert_fresh. exact Hfresh. }
  split; [now rewrite Hc|]. split; [|split].
  - unfold PostsApi.getById, findById. now rewrite Hoid, Hl.
  - intros u. unfold likeCount. now rewrite Hl.
  - intros p Hin. unfold db'. rewrite Hc. cbn [snd posts set_posts].
    unfold Db.insert. apply in_or_app. now left.
Qed.

Lemma create_then_getById_witness :
  fst (PostsApi.create bob (Some "hi") "5f00000000000000000000c2" sampleDb)
    = ok (PostBody (mkPost "5f00000000000000000000c2" bob "hi" "Bob"
                           "//www.gravatar.com/avatar/b" [] []))
  /\ PostsApi.getById sampleExternals "5f00000000000000000000c2"
       (snd (PostsApi.create bob (Some "hi") "5f00000000000000000000c2"
               sampleDb))
     = (ok (PostBody (mkPost "5f00000000000000000000c2" bob "hi" "Bob"
                             "//www.gravatar.com/avatar/b" [] [])),
        snd (PostsApi.create bob (Some "hi") "5f00000000000000000000c2"
               sampleDb))
  /\ (forall u, likeCount u "5f00000000000000000000c2"
                  (snd (PostsApi.create bob (Some "hi")
                          "5f00000000000000000000c2" sampleDb)) = 0)
  /\ (forall p, In p (posts sampleDb) ->
        In p (posts (snd (PostsApi.create bob (Some "hi")
                            "5f00000000000000000000c2" sampleDb)))).
Proof.
  apply (create_then_getById sampleExternals bob (Some "hi")
           "5f00000000000000000000c2"
           (mkUser bob "Bob" "b@x.com" "//www.gravatar.com/avatar/b"
                   "hunter22$s2") sampleDb); reflexivity.
Defined.

(** ** Posts: what one request leaves alone *)

(** X3. A request to a post route changes no post but the one it names:
    under every id that is not a way of writing the ObjectId of the
    request, the post that is found is the same as before.  No account
    and no profile is changed either. *)
Theorem post_route_changes_named_post_only (ext : Externals)
    (r : PostRequest) (other : id) (db : DB) :
  Js.objectIdString (postTarget r) <> Js.objectIdString other ->
  Db.lookup other (posts (snd (servePost ext r db)))
    = Db.lookup other (posts db)
  /\ users (snd (servePost ext r db)) = users db
  /\ profiles (snd (servePost ext r db)) = profiles db.
Proof.
  intros Hother. split; [|apply servePost_accounts].
  assert (Hsave : forall postId post post',
             Js.objectIdString postId <> Js.objectIdString other ->
             findById ext postId (posts db) = Resolved (Some post) ->
             post_id post' = post_id post ->
             Db.lookup other (Db.save post' (posts db))
               = Db.lookup other (posts db)).
  { intros postId post post' Hne Hf Hid.
    apply findById_resolved in Hf. destruct Hf as [_ Hl].
    apply lookup_id in Hl.
    apply lookup_save_other.
    change (Js.objectIdString (post_id post') <> Js.objectIdString other).
    change (Js.objectIdString (post_id post) = Js.objectIdString postId)
      in Hl.
    congruence. }
  destruct r as [caller text postId | caller postId | caller postId likeId
                | caller postId | caller postId text commentId
                | caller postId commentId];
    cbn [servePost postTarget] in *.
  - unfold PostsApi.create.
    destruct (negb (isEmpty _)); [reflexivity|].
    destruct (Db.lookup caller (users db)) as [user|]; [|reflexivity].
    cbn [snd posts set_posts]. now apply lookup_insert_other.
  - unfold PostsApi.delete.
    destruct (findById ext postId (posts db)) as [[post|]|] eqn:Hf;
      [|reflexivity|reflexivity].
    destruct (negb (post_user post =? caller)); [reflexivity|].
    cbn [snd posts set_posts].
    apply findById_resolved in Hf. destruct Hf as [_ Hl].
    apply lookup_id in Hl. apply lookup_remove_other.
    change (Js.objectIdString (post_id post) = Js.objectIdString postId)
      in Hl.
    change (Js.objectIdString (post_id post) <> Js.objectIdString other).
    congruence.
  - unfold PostsApi.like.
    destruct (findById ext postId (posts db)) as [[post|]|] eqn:Hf;
      [|reflexivity|reflexivity].
    destruct (0 <? _)%nat; [reflexivity|].
    cbn [snd posts set_posts]. now apply (Hsave postId post).
  - unfold PostsApi.unlike.
    destruct (findById ext postId (posts db)) as [[post|]|] eqn:Hf;
      [|reflexivity|reflexivity].
    destruct (_ =? 0)%nat; [reflexivity|].
    cbn [snd posts set_posts]. now apply (Hsave postId post).
  - unfold PostsApi.addComment.
    destruct (negb (isEmpty _)); [reflexivity|].
    destruct (findById ext postId (posts db)) as [[post|]|] eqn:Hf;
      [|reflexivity|reflexivity].
    destruct (Db.lookup caller (users db)) as [user|]; [|reflexivity].
    cbn [snd posts set_posts]. now apply (Hsave postId post).
  - unfold PostsApi.removeComment.
    destruct (findById ext postId (posts db)) as [[post|]|] eqn:Hf;
      [|reflexivity|reflexivity].
    destruct (find _ (comments post)) as [cur|]; [|reflexivity].
    destruct (negb (comment_user cur =? caller)); [reflexivity|].
    cbn [snd posts set_posts]. now apply (Hsave postId post).
Qed.

Lemma post_route_changes_named_post_only_witness :
  Db.lookup alicePostId
    (posts (snd (servePost sampleExternals
                   (Delete bob "5F00000000000000000000C2")
                   (snd (servePost sampleExternals
                           (Create bob (Some "hi") "5f00000000000000000000c2")
                           sampleDb)))))
    = Db.lookup alicePostId
        (posts (snd (servePost sampleExternals
                       (Create bob (Some "hi") "5f00000000000000000000c2")
                       sampleDb)))
  /\ users (snd (servePost sampleExternals
                   (Delete bob "5F00000000000000000000C2")
                   (snd (servePost sampleExternals
                           (Create bob (Some "hi") "5f00000000000000000000c2")
                           sampleDb))))
     = users (snd (servePost sampleExternals
                     (Create bob (Some "hi") "5f00000000000000000000c2")
                     sampleDb))
  /\ profiles (snd (servePost sampleExternals
                      (Delete bob "5F00000000000000000000C2")
                      (snd (servePost sampleExternals
                              (Create bob (Some "hi")
                                 "5f00000000000000000000c2")
                              sampleDb))))
     = profiles (snd (servePost sampleExternals
                        (Create bob (Some "hi") "5f00000000000000000000c2")
                        sampleDb)).
Proof.
  apply (post_route_changes_named_post_only sampleExternals
           (Delete bob "5F00000000000000000000C2") alicePostId).
  vm_compute. discriminate.
Defined.

(** ** Posts: unlike *)

(** X4. An unlike that passes the guard takes one like of the caller from
    the post and leaves the likes of every other user; when the caller had
    one like, a new like of the caller is accepted afterwards. *)
Theorem unlike_takes_one_like (ext : Externals) (caller : id)
    (postId : string) (post : Post) (db : DB) :
  findById ext postId (posts db) = Resolved (Some post) ->
  (exists l, In l (likes post) /\ like_user l = caller) ->
  let db' := snd (PostsApi.unlike ext caller postId db) in
  likeCount caller postId db' + 1 = likeCount caller postId db
  /\ (forall u, u <> caller ->
        likeCount u postId db' = likeCount u postId db)
  /\ (likeCount caller postId db = 1 ->
      forall likeId,
        res_status (fst (PostsApi.like ext caller postId likeId db')) = 200).
Proof.
  intros Hf Hliked db'.
  destruct (unlike_splits ext caller postId post db Hf Hliked)
    as (before & mine & after & Hsplit & Hmine & _ & Hun).
  apply findById_resolved in Hf. destruct Hf as [Hoid Hl].
  set (post' := set_likes (before ++ after) post) in Hun.
  assert (Hl' : Db.lookup postId (posts db') = Some post').
  { unfold db'. rewrite Hun. cbn [snd posts set_posts].
    apply (lookup_save_fetched _ _ post); [exact Hl | reflexivity]. }
  assert (Hcount : forall u,
             likeCount u postId db =
             likeCount u postId db' + (if like_user mine =? u then 1 else 0)).
  { intros u. unfold likeCount. rewrite Hl, Hl'.
    unfold PostsApi.alreadyLiked, post'. cbn [likes set_likes].
    rewrite Hsplit.
    exact (filter_length_app_cons (fun like => like_user like =? u)
             before after mine). }
  split; [|split].
  - rewrite (Hcount caller), Hmine, String.eqb_refl. reflexivity.
  - intros u Hu. rewrite (Hcount u), Hmine.
    apply not_eq_sym in Hu. apply String.eqb_neq in Hu. rewrite Hu. lia.
  - intros Hone likeId.
    pose proof (Hcount caller) as Hc.
    rewrite Hmine, String.eqb_refl, Hone in Hc.
    assert (Hzero : List.length (PostsApi.alreadyLiked caller post') = 0).
    { unfold likeCount in Hc. rewrite Hl' in Hc. lia. }
    unfold PostsApi.like, findById. rewrite Hoid, Hl', Hzero. reflexivity.
Qed.

Lemma unlike_takes_one_like_witness :
  likeCount bob alicePostId
    (snd (PostsApi.unlike sampleExternals bob alicePostId
            (serveLikes sampleExternals
               [(bob, alicePostId, "5f00000000000000000000d1");
                (alice, alicePostId, "5f00000000000000000000d2")] sampleDb)))
    + 1 = 1
  /\ likeCount alice alicePostId
       (snd (PostsApi.unlike sampleExternals bob alicePostId
               (serveLikes sampleExternals
                  [(bob, alicePostId, "5f00000000000000000000d1");
                   (alice, alicePostId, "5f00000000000000000000d2")]
                  sampleDb))) = 1
  /\ res_status
       (fst (PostsApi.like sampleExternals bob alicePostId
               "5f00000000000000000000d5"
               (snd (PostsApi.unlike sampleExternals bob alicePostId
                       (serveLikes sampleExternals
                          [(bob, alicePostId, "5f00000000000000000000d1");
                           (alice, alicePostId, "5f00000000000000000000d2")]
                          sampleDb))))) = 200.
Proof.
  destruct (unlike_takes_one_like sampleExternals bob alicePostId
              (set_likes [mkLike "5f00000000000000000000d2" alice;
                          mkLike "5f00000000000000000000d1" bob] alicePost)
              (serveLikes sampleExternals
                 [(bob, alicePostId, "5f00000000000000000000d1");
                  (alice, alicePostId, "5f00000000000000000000d2")] sampleDb)
              eq_refl
              (ex_intro _ (mkLike "5f00000000000000000000d1" bob)
                 (conj (or_intror (or_introl eq_refl)) eq_refl)))
    as (Hone & Hothers & Hagain).
  split; [exact Hone|]. split.
  - apply (Hothers alice). discriminate.
  - apply Hagain. reflexivity.
Defined.

(** ** Posts: comments *)

Lemma indexOf_at {A : Type} (f : A -> string) (x : string) (l1 : list A)
    (a : A) (l2 : list A) :
  (forall b, In b l1 -> f b <> x) ->
  f a = x ->
  Js.indexOf (map f (l1 ++ a :: l2)) x = Z.of_nat (List.length l1).
Proof.
  intros Hpre Ha. unfold Js.indexOf.
  enough (Hgen : forall i, Js.indexOf_from i (map f (l1 ++ a :: l2)) x
                           = (i + Z.of_nat (List.length l1))%Z)
    by (rewrite Hgen; lia).
  induction l1 as [|b l1 IH]; intros i; simpl.
  - rewrite Ha, String.eqb_refl. lia.
  - assert (Hb : f b <> x) by (apply Hpre; now left).
    apply String.eqb_neq in Hb. rewrite Hb.
    rewrite IH; [lia|]. intros c Hc. apply Hpre. now right.
Qed.

Lemma find_at {A : Type} (q : A -> bool) (l1 : list A) (a : A)
    (l2 : list A) :
  (forall b, In b l1 -> q b = false) ->
  q a = true ->
  find q (l1 ++ a :: l2) = Some a.
Proof.
  intros Hpre Ha. induction l1 as [|b l1 IH]; simpl.
  - now rewrite Ha.
  - rewrite (Hpre b (or_introl eq_refl)). apply IH.
    intros c Hc. apply Hpre. now right.
Qed.

(** The removal, when the named comment is the first of the caller's. *)
Lemma removeComment_step (ext : Externals)
    (caller : id) (postId commentId : string) (post : Post) (db : DB)
    (before : list Comment) (named : Comment) (after : list Comment) :
  findById ext postId (posts db) = Resolved (Some post) ->
  comments post = before ++ named :: after ->
  comment_id named = commentId ->
  comment_user named = caller ->
  (forall c, In c before ->
     comment_id c <> commentId /\ comment_user c <> caller) ->
  PostsApi.removeComment ext caller postId commentId db =
    (ok (CommentsBody (before ++ after)),
     set_posts (Db.save (set_comments (before ++ after) post) (posts db)) db).
Proof.
  intros Hf Hsplit Hid Hown Hbefore.
  unfold PostsApi.removeComment. rewrite Hf.
  assert (Hfind : find (fun c => comment_id c =? commentId) (comments post)
                  = Some named).
  { rewrite Hsplit. apply find_at.
    - intros c Hc. apply String.eqb_neq. now apply Hbefore.
    - now apply String.eqb_eq. }
  rewrite Hfind. apply String.eqb_eq in Hown. rewrite Hown. cbn [negb].
  apply String.eqb_eq in Hown.
  assert (Hri : PostsApi.commentRemoveIndex caller post
                = Z.of_nat (List.length before)).
  { unfold PostsApi.commentRemoveIndex. rewrite Hsplit.
    apply (indexOf_at comment_user caller before named after).
    - intros c Hc. now apply Hbefore.
    - exact Hown. }
  rewrite Hri. cbn [comments set_comments].
  rewrite Hsplit at 1 2. rewrite splice_middle. reflexivity.
Qed.

(** X5. The route removes exactly the comment the request names when that
    comment is the caller's and no comment before it in the list is the
    caller's: the comments before and after it stay, in their order. *)
Theorem removeComment_exact_when_first_of_caller (ext : Externals)
    (caller : id) (postId commentId : string) (post : Post) (db : DB)
    (before : list Comment) (named : Comment) (after : list Comment) :
  findById ext postId (posts db) = Resolved (Some post) ->
  comments post = before ++ named :: after ->
  comment_id named = commentId ->
  comment_user named = caller ->
  (forall c, In c before ->
     comment_id c <> commentId /\ comment_user c <> caller) ->
  PostsApi.removeComment ext caller postId commentId db =
    (ok (CommentsBody (before ++ after)),
     set_posts (Db.save (set_comments (before ++ after) post) (posts db)) db).
Proof. apply removeComment_step. Qed.

Lemma removeComment_exact_when_first_of_caller_witness :
  PostsApi.removeComment sampleExternals alice alicePostId secondCommentId
    twoCommentsDb
  = (ok (CommentsBody
           ([] ++ [mkComment firstCommentId "first" "Alice"
                             "//www.gravatar.com/avatar/a" alice])),
     set_posts
       (Db.save
          (set_comments
             ([] ++ [mkComment firstCommentId "first" "Alice"
                               "//www.gravatar.com/avatar/a" alice])
             (set_comments
                [mkComment secondCommentId "second" "Alice"
                           "//www.gravatar.com/avatar/a" alice;
                 mkComment firstCommentId "first" "Alice"
                           "//www.gravatar.com/avatar/a" alice] alicePost))
          (posts twoCommentsDb))
       twoCommentsDb).
Proof.
  apply (removeComment_exact_when_first_of_caller sampleExternals alice
           alicePostId secondCommentId
           (set_comments
              [mkComment secondCommentId "second" "Alice"
                         "//www.gravatar.com/avatar/a" alice;
               mkComment firstCommentId "first" "Alice"
                         "//www.gravatar.com/avatar/a" alice] alicePost)
           twoCommentsDb []
           (mkComment secondCommentId "second" "Alice"
                      "//www.gravatar.com/avatar/a" alice)).
  - reflexivity.
  - reflexivity.
  - reflexivity.
  - reflexivity.
  - intros c [].
Defined.

Lemma set_comments_comments (post : Post) (c : list Comment) :
  set_comments (comments post) (set_comments c post) = post.
Proof. now destruct post. Qed.

(** X6. A comment that was just added can be taken back: removing it by
    its id, as its author, answers the comments the post had before and
    leaves the database as it was before the comment, whatever other
    comments the post has. *)
Theorem addComment_then_removeComment (ext : Externals) (caller : id)
    (postId : string) (text : option string) (commentId : id)
    (post : Post) (user : User) (db : DB) :
  findById ext postId (posts db) = Resolved (Some post) ->
  Db.lookup caller (users db) = Some user ->
  notEmpty text = true ->
  fst (PostsApi.addComment ext caller postId text commentId db)
    = ok (CommentsBody
            (mkComment commentId (field_string text) (user_name user)
                       (user_avatar user) caller :: comments post))
  /\ PostsApi.removeComment ext caller postId commentId
       (snd (PostsApi.addComment ext caller postId text commentId db))
     = (ok (CommentsBody (comments post)), db).
Proof.
  intros Hf Huser Htext.
  set (new := mkComment commentId (field_string text) (user_name user)
                        (user_avatar user) caller).
  set (post' := set_comments (new :: comments post) post).
  assert (Hadd : PostsApi.addComment ext caller postId text commentId db =
                 (ok (CommentsBody (new :: comments post)),
                  set_posts (Db.save post' (posts db)) db)).
  { unfold PostsApi.addComment, check. rewrite Htext, Hf, Huser. reflexivity. }
  rewrite Hadd. cbn [fst snd]. split; [reflexivity|].
  apply findById_resolved in Hf. destruct Hf as [Hoid Hl].
  assert (Hf' : findById ext postId (posts (set_posts (Db.save post' (posts db)) db))
                = Resolved (Some post')).
  { apply findById_resolved. split; [exact Hoid|].
    cbn [posts set_posts].
    apply (lookup_save_fetched _ _ post); [exact Hl | reflexivity]. }
  rewrite (removeComment_step ext caller postId commentId post' _ [] new
             (comments post) Hf' eq_refl eq_refl eq_refl).
  - cbn [app]. unfold post'. rewrite set_comments_comments.
    cbn [posts set_posts]. rewrite save_save by reflexivity.
    rewrite (save_fetched postId _ _ Hl).
    rewrite set_posts_twice, set_posts_posts. reflexivity.
  - intros c [].
Qed.

Lemma addComment_then_removeComment_witness :
  fst (PostsApi.addComment sampleExternals alice alicePostId (Some "third")
         "5f00000000000000000000e3" twoCommentsDb)
    = ok (CommentsBody
            (mkComment "5f00000000000000000000e3" "third" "Alice"
                       "//www.gravatar.com/avatar/a" alice
             :: comments_of_first_post twoCommentsDb))
  /\ PostsApi.removeComment sampleExternals alice alicePostId
       "5f00000000000000000000e3"
       (snd (PostsApi.addComment sampleExternals alice alicePostId
               (Some "third") "5f00000000000000000000e3" twoCommentsDb))
     = (ok (CommentsBody (comments_of_first_post twoCommentsDb)),
        twoCommentsDb).
Proof.
  apply (addComment_then_removeComment sampleExternals alice alicePostId
           (Some "third") "5f00000000000000000000e3"
           (set_comments (comments_of_first_post twoCommentsDb) alicePost)
           (mkUser alice "Alice" "a@x.com" "//www.gravatar.com/avatar/a"
                   "pw123456$s1")
           twoCommentsDb); reflexivity.
Defined.

(** ** Posts: a post id that is not an ObjectId *)

(** X7. A post id that Mongoose cannot cast is answered 404 "Post Not
    Found" by the routes that read, delete, like and unlike a post, and
    500 "Server Error" by the two comment routes, whose catch clause does
    not look at the kind of the error; the database stays as it was. *)
Theorem malformed_post_id (ext : Externals) (caller : id) (postId : string)
    (db : DB) :
  isObjectId ext postId = false ->
  PostsApi.getById ext postId db = (PostsApi.not_found, db)
  /\ PostsApi.delete ext caller postId db = (PostsApi.not_found, db)
  /\ (forall likeId,
        PostsApi.like ext caller postId likeId db = (PostsApi.not_found, db))
  /\ PostsApi.unlike ext caller postId db = (PostsApi.not_found, db)
  /\ (forall text commentId,
        notEmpty text = true ->
        PostsApi.addComment ext caller postId text commentId db
          = (server_error, db))
  /\ (forall commentId,
        PostsApi.removeComment ext caller postId commentId db
          = (server_error, db)).
Proof.
  intros Hbad.
  unfold PostsApi.getById, PostsApi.delete, PostsApi.like, PostsApi.unlike,
    PostsApi.addComment, PostsApi.removeComment, findById, check.
  rewrite Hbad. repeat split.
  intros text commentId ->. reflexivity.
Qed.

Lemma malformed_post_id_witness :
  PostsApi.getById sampleExternals "42" sampleDb
    = (PostsApi.not_found, sampleDb)
  /\ PostsApi.delete sampleExternals alice "42" sampleDb
     = (PostsApi.not_found, sampleDb)
  /\ (forall likeId,
        PostsApi.like sampleExternals alice "42" likeId sampleDb
          = (PostsApi.not_found, sampleDb))
  /\ PostsApi.unlike sampleExternals alice "42" sampleDb
     = (PostsApi.not_found, sampleDb)
  /\ PostsApi.addComment sampleExternals alice "42" (Some "hi")
       firstCommentId sampleDb = (server_error, sampleDb)
  /\ (forall commentId,
        PostsApi.removeComment sampleExternals alice "42" commentId sampleDb
          = (server_error, sampleDb)).
Proof.
  destruct (malformed_post_id sampleExternals alice "42" sampleDb eq_refl)
    as (H1 & H2 & H3 & H4 & H5 & H6).
  split; [exact H1|]. split; [exact H2|]. split; [exact H3|].
  split; [exact H4|]. split; [|exact H6].
  apply H5. reflexivity.
Defined.

(** ** Profiles: experience and education entries *)

Lemma findOne_true {A : Type} (q : A -> bool) (c : list A) (p : A) :
  Db.findOne q c = Some p -> q p = true.
Proof. unfold Db.findOne. intros Hf. now apply find_some in Hf. Qed.

Lemma set_experiences_experiences (p : Profile) (e : list Experience) :
  set_experiences (experiences p) (set_experiences e p) = p.
Proof. now destruct p. Qed.

Lemma set_education_education (p : Profile) (e : list Education) :
  set_education (education p) (set_education e p) = p.
Proof. now destruct p. Qed.

(** X8. An experience entry that was just added can be taken back:
    removing it by its id answers, and stores, the profile as it was
    before the entry was added, whatever entries the list has. *)
Theorem addExperience_then_removeExperience (caller : id)
    (f : ProfileApi.ExperienceForm) (entryId : id) (profile : Profile)
    (db : DB) :
  Db.findOne (ProfileApi.ofUser caller) (profiles db) = Some profile ->
  res_status (fst (ProfileApi.addExperience caller f entryId db)) = 200 ->
  let db1 := snd (ProfileApi.addExperience caller f entryId db) in
  fst (ProfileApi.removeExperience caller entryId db1)
    = ok (ProfileBody profile)
  /\ Db.findOne (ProfileApi.ofUser caller)
       (profiles (snd (ProfileApi.removeExperience caller entryId db1)))
     = Some profile.
Proof.
  intros Hp Hok db1.
  pose proof (findOne_true _ _ _ Hp) as Hq.
  set (entry := mkExperience entryId
                  (field_string (ProfileApi.f_title f))
                  (field_string (ProfileApi.f_company f))
                  (ProfileApi.f_location f)
                  (field_string (ProfileApi.f_from f))
                  (ProfileApi.f_to f) (ProfileApi.f_current f)
                  (ProfileApi.f_description f)).
  set (profile' := set_experiences (entry :: experiences profile) profile).
  assert (Hadd : db1 = set_profiles (Db.save profile' (profiles db)) db).
  { unfold db1. revert Hok. unfold ProfileApi.addExperience.
    destruct (negb (isEmpty _)); [discriminate|].
    rewrite Hp. reflexivity. }
  assert (Hp1 : Db.findOne (ProfileApi.ofUser caller) (profiles db1)
                = Some profile').
  { rewrite Hadd. cbn [profiles set_profiles].
    apply (findOne_save _ _ profile); [exact Hp | reflexivity | exact Hq]. }
  unfold ProfileApi.removeExperience. rewrite Hp1.
  assert (Hidx : Js.indexOf (map exp_id (experiences profile')) entryId
                 = 0%Z).
  { unfold Js.indexOf, profile', entry. cbn. now rewrite String.eqb_refl. }
  rewrite Hidx.
  assert (Hsp : Js.splice 0 1 (experiences profile') = experiences profile)
    by exact (splice_middle [] entry (experiences profile)).
  rewrite Hsp.
  replace (set_experiences (experiences profile) profile') with profile
    by (unfold profile'; now rewrite set_experiences_experiences).
  cbn [fst snd profiles set_profiles]. split; [reflexivity|].
  apply (findOne_save _ _ profile'); [exact Hp1 | reflexivity | exact Hq].
Qed.

(** X9. The same for an education entry. *)
Theorem addEducation_then_removeEducation (caller : id)
    (g : ProfileApi.EducationForm) (entryId : id) (profile : Profile)
    (db : DB) :
  Db.findOne (ProfileApi.ofUser caller) (profiles db) = Some profile ->
  res_status (fst (ProfileApi.addEducation caller g entryId db)) = 200 ->
  let db1 := snd (ProfileApi.addEducation caller g entryId db) in
  fst (ProfileApi.removeEducation caller entryId db1)
    = ok (ProfileBody profile)
  /\ Db.findOne (ProfileApi.ofUser caller)
       (profiles (snd (ProfileApi.removeEducation caller entryId db1)))
     = Some profile.
Proof.
  intros Hp Hok db1.
  pose proof (findOne_true _ _ _ Hp) as Hq.
  set (entry := mkEducation entryId
                  (field_string (ProfileApi.g_school g))
                  (field_string (ProfileApi.g_degree g))
                  (field_string (ProfileApi.g_fieldofstudy g))
                  (field_string (ProfileApi.g_from g))
                  (ProfileApi.g_to g) (ProfileApi.g_current g)
                  (ProfileApi.g_description g)).
  set (profile' := set_education (entry :: education profile) profile).
  assert (Hadd : db1 = set_profiles (Db.save profile' (profiles db)) db).
  { unfold db1. revert Hok. unfold ProfileApi.addEducation.
    destruct (negb (isEmpty _)); [discriminate|].
    rewrite Hp. reflexivity. }
  assert (Hp1 : Db.findOne (ProfileApi.ofUser caller) (profiles db1)
                = Some profile').
  { rewrite Hadd. cbn [profiles set_profiles].
    apply (findOne_save _ _ profile); [exact Hp | reflexivity | exact Hq]. }
  unfold ProfileApi.removeEducation. rewrite Hp1.
  assert (Hidx : Js.indexOf (map edu_id (education profile')) entryId
                 = 0%Z).
  { unfold Js.indexOf, profile', entry. cbn. now rewrite String.eqb_refl. }
  rewrite Hidx.
  assert (Hsp : Js.splice 0 1 (education profile') = education profile)
    by exact (splice_middle [] entry (education profile)).
  rewrite Hsp.
  replace (set_education (education profile) profile') with profile
    by (unfold profile'; now rewrite set_education_education).
  cbn [fst snd profiles set_profiles]. split; [reflexivity|].
  apply (findOne_save _ _ profile'); [exact Hp1 | reflexivity | exact Hq].
Qed.

Lemma addExperience_then_removeExperience_witness :
  fst (ProfileApi.removeExperience alice "5f00000000000000000000f3"
         (snd (ProfileApi.addExperience alice newJobForm
                 "5f00000000000000000000f3" profileDb)))
    = ok (ProfileBody aliceProfile)
  /\ Db.findOne (ProfileApi.ofUser alice)
       (profiles
          (snd (ProfileApi.removeExperience alice "5f00000000000000000000f3"
                  (snd (ProfileApi.addExperience alice newJobForm
                          "5f00000000000000000000f3" profileDb)))))
     = Some aliceProfile.
Proof.
  apply (addExperience_then_removeExperience alice newJobForm
           "5f00000000000000000000f3" aliceProfile profileDb); reflexivity.
Defined.

Lemma addEducation_then_removeEducation_witness :
  fst (ProfileApi.removeEducation alice "5f0000000000000000000a03"
         (snd (ProfileApi.addEducation alice newSchoolForm
                 "5f0000000000000000000a03" profileDb)))
    = ok (ProfileBody aliceProfile)
  /\ Db.findOne (ProfileApi.ofUser alice)
       (profiles
          (snd (ProfileApi.removeEducation alice "5f0000000000000000000a03"
                  (snd (ProfileApi.addEducation alice newSchoolForm
                          "5f0000000000000000000a03" profileDb)))))
     = Some aliceProfile.
Proof.
  apply (addEducation_then_removeEducation alice newSchoolForm
           "5f0000000000000000000a03" aliceProfile profileDb); reflexivity.
Defined.

(** X10. On a profile whose list is empty, the removal of an entry,
    whatever id the request names, answers and stores the profile as it
    is: the splice at index -1 finds nothing to remove. *)
Theorem remove_entry_of_empty_list (caller : id) (entryId : string)
    (profile : Profile) (db : DB) :
  Db.findOne (ProfileApi.ofUser caller) (profiles db) = Some profile ->
  (experiences profile = [] ->
     fst (ProfileApi.removeExperience caller entryId db)
       = ok (ProfileBody profile)
     /\ Db.findOne (ProfileApi.ofUser caller)
          (profiles (snd (ProfileApi.removeExperience caller entryId db)))
        = Some profile)
  /\ (education profile = [] ->
      fst (ProfileApi.removeEducation caller entryId db)
        = ok (ProfileBody profile)
      /\ Db.findOne (ProfileApi.ofUser caller)
           (profiles (snd (ProfileApi.removeEducation caller entryId db)))
         = Some profile).
Proof.
  intros Hp. pose proof (findOne_true _ _ _ Hp) as Hq. split; intros Hempty.
  - unfold ProfileApi.removeExperience. rewrite Hp, Hempty.
    change (Js.splice (Js.indexOf (map exp_id []) entryId) 1 [])
      with (@nil Experience).
    replace (set_experiences [] profile) with profile
      by (rewrite <- Hempty; now destruct profile).
    cbn [fst snd profiles set_profiles]. split; [reflexivity|].
    apply (findOne_save _ _ profile); [exact Hp | reflexivity | exact Hq].
  - unfold ProfileApi.removeEducation. rewrite Hp, Hempty.
    change (Js.splice (Js.indexOf (map edu_id []) entryId) 1 [])
      with (@nil Education).
    replace (set_education [] profile) with profile
      by (rewrite <- Hempty; now destruct profile).
    cbn [fst snd profiles set_profiles]. split; [reflexivity|].
    apply (findOne_save _ _ profile); [exact Hp | reflexivity | exact Hq].
Qed.

Lemma remove_entry_of_empty_list_witness :
  (fst (ProfileApi.removeExperience bob "5f00000000000000000000f1"
          twoProfilesDb) = ok (ProfileBody bobProfile)
   /\ Db.findOne (ProfileApi.ofUser bob)
        (profiles (snd (ProfileApi.removeExperience bob
                          "5f00000000000000000000f1" twoProfilesDb)))
      = Some bobProfile)
  /\ (fst (ProfileApi.removeEducation bob "5f00000000000000000000f1"
             twoProfilesDb) = ok (ProfileBody bobProfile)
      /\ Db.findOne (ProfileApi.ofUser bob)
           (profiles (snd (ProfileApi.removeEducation bob
                             "5f00000000000000000000f1" twoProfilesDb)))
         = Some bobProfile).
Proof.
  destruct (remove_entry_of_empty_list bob "5f00000000000000000000f1"
              bobProfile twoProfilesDb eq_refl) as [Hexp Hedu].
  split; [exact (Hexp eq_refl) | exact (Hedu eq_refl)].
Defined.

(** X11. For a caller without a profile, the four routes that add or
    remove an experience or education entry are answered 500 "Server
    Error" (once the form of an addition has passed validation), and the
    database stays as it was. *)
Theorem entry_routes_without_profile (caller : id) (db : DB) :
  Db.findOne (ProfileApi.ofUser caller) (profiles db) = None ->
  (forall entryId,
     ProfileApi.removeExperience caller entryId db = (server_error, db))
  /\ (forall entryId,
        ProfileApi.removeEducation caller entryId db = (server_error, db))
  /\ (forall f entryId,
        notEmpty (ProfileApi.f_title f) = true ->
        notEmpty (ProfileApi.f_company f) = true ->
        notEmpty (ProfileApi.f_from f) = true ->
        ProfileApi.addExperience caller f entryId db = (server_error, db))
  /\ (forall g entryId,
        notEmpty (ProfileApi.g_school g) = true ->
        notEmpty (ProfileApi.g_degree g) = true ->
        notEmpty (ProfileApi.g_fieldofstudy g) = true ->
        notEmpty (ProfileApi.g_from g) = true ->
        ProfileApi.addEducation caller g entryId db = (server_error, db)).
Proof.
  intros Hnone. split; [|split; [|split]].
  - intros entryId. unfold ProfileApi.removeExperience. now rewrite Hnone.
  - intros entryId. unfold ProfileApi.removeEducation. now rewrite Hnone.
  - intros f entryId H1 H2 H3. unfold ProfileApi.addExperience, check.
    rewrite H1, H2, H3, Hnone. reflexivity.
  - intros g entryId H1 H2 H3 H4. unfold ProfileApi.addEducation, check.
    rewrite H1, H2, H3, H4, Hnone. reflexivity.
Qed.

Lemma entry_routes_without_profile_witness :
  (forall entryId,
     ProfileApi.removeExperience bob entryId profileDb
       = (server_error, profileDb))
  /\ (forall entryId,
        ProfileApi.removeEducation bob entryId profileDb
          = (server_error, profileDb))
  /\ ProfileApi.addExperience bob newJobForm "5f00000000000000000000f3"
       profileDb = (server_error, profileDb)
  /\ ProfileApi.addEducation bob newSchoolForm "5f0000000000000000000a03"
       profileDb = (server_error, profileDb).
Proof.
  destruct (entry_routes_without_profile bob profileDb eq_refl)
    as (H1 & H2 & H3 & H4).
  split; [exact H1|]. split; [exact H2|]. split.
  - apply H3; reflexivity.
  - apply H4; reflexivity.
Defined.

(** ** Profiles: one profile per user *)

Section UpdateFacts.
Context {A : Type}.

Lemma findOneAndUpdate_filter_length (q q' : A -> bool) (f : A -> A)
    (c : list A) :
  (forall x, q x = true -> q' (f x) = q' x) ->
  List.length (filter q' (snd (Db.findOneAndUpdate q f c)))
    = List.length (filter q' c).
Proof.
  intros Hsame. induction c as [|x c IH]; simpl; [reflexivity|].
  destruct (q x) eqn:Hx.
  - simpl. rewrite (Hsame x Hx). now destruct (q' x).
  - destruct (Db.findOneAndUpdate q f c) as [r c'] eqn:Hu. simpl in *.
    destruct (q' x); simpl; now rewrite IH.
Qed.

Lemma findOneAndUpdate_filter_other (q q' : A -> bool) (f : A -> A)
    (c : list A) :
  (forall x, q x = true -> q' x = false /\ q' (f x) = false) ->
  filter q' (snd (Db.findOneAndUpdate q f c)) = filter q' c.
Proof.
  intros Hother. induction c as [|x c IH]; simpl; [reflexivity|].
  destruct (q x) eqn:Hx.
  - simpl. destruct (Hother x Hx) as [-> ->]. reflexivity.
  - destruct (Db.findOneAndUpdate q f c) as [r c'] eqn:Hu. simpl in *.
    destruct (q' x); simpl; now rewrite IH.
Qed.

(** An update that changes neither what the query reads nor, when applied
    twice, the document, gives the same collection when it is repeated. *)
Lemma findOneAndUpdate_twice (q : A -> bool) (f : A -> A) (c : list A) :
  (forall x, q x = true -> q (f x) = true) ->
  (forall x, f (f x) = f x) ->
  Db.findOneAndUpdate q f (snd (Db.findOneAndUpdate q f c))
    = Db.findOneAndUpdate q f c.
Proof.
  intros Hq Hf. induction c as [|x c IH]; simpl; [reflexivity|].
  destruct (q x) eqn:Hx.
  - simpl. rewrite (Hq x Hx), Hf. reflexivity.
  - destruct (Db.findOneAndUpdate q f c) as [r c'] eqn:Hu. simpl in *.
    rewrite Hx, IH. reflexivity.
Qed.

Lemma findOne_none_filter (q : A -> bool) (c : list A) :
  Db.findOne q c = None -> filter q c = [].
Proof.
  unfold Db.findOne. intros Hn. apply filter_nil_iff.
  intros a Ha. exact (find_none _ _ Hn a Ha).
Qed.

End UpdateFacts.

Lemma ofUser_set_fields (caller u : id) (b : ProfileApi.ReqBody)
    (p : Profile) :
  ProfileApi.ofUser caller p = true ->
  ProfileApi.ofUser u
    (ProfileApi.set_fields (ProfileApi.buildProfileFields caller b) p)
  = ProfileApi.ofUser u p.
Proof.
  unfold ProfileApi.ofUser. intros Hp. apply String.eqb_eq in Hp.
  cbn. now rewrite Hp.
Qed.

(** X12. An upsert never gives a user a second profile: when no user has
    more than one profile before, none has after; and the profiles of the
    users other than the caller are the same documents as before. *)
Theorem upsert_keeps_one_profile_per_user (caller : id)
    (b : ProfileApi.ReqBody) (profileId : id) (db : DB) :
  (oneProfilePerUser db ->
   oneProfilePerUser (snd (ProfileApi.upsert caller b profileId db)))
  /\ (forall other, other <> caller ->
        filter (ProfileApi.ofUser other)
          (profiles (snd (ProfileApi.upsert caller b profileId db)))
        = filter (ProfileApi.ofUser other) (profiles db)).
Proof.
  unfold ProfileApi.upsert.
  destruct (negb (isEmpty _)); [split; [trivial | reflexivity]|].
  set (fields := ProfileApi.buildProfileFields caller b).
  destruct (Db.findOne (ProfileApi.ofUser caller) (profiles db))
    as [old|] eqn:Hold.
  - destruct (Db.findOneAndUpdate (ProfileApi.ofUser caller)
                (ProfileApi.set_fields fields) (profiles db))
      as [ret stored] eqn:Hu.
    assert (Hstored : stored = snd (Db.findOneAndUpdate
                                     (ProfileApi.ofUser caller)
                                     (ProfileApi.set_fields fields)
                                     (profiles db))) by now rewrite Hu.
    cbn [snd profiles set_profiles]. split.
    + intros Hinv u. cbn [profiles set_profiles]. rewrite Hstored.
      rewrite findOneAndUpdate_filter_length; [apply Hinv|].
      intros x Hx. now apply ofUser_set_fields.
    + intros other Hne. rewrite Hstored.
      apply findOneAndUpdate_filter_other.
      intros x Hx. unfold fields.
      rewrite (ofUser_set_fields caller other b x Hx).
      unfold ProfileApi.ofUser in *. apply String.eqb_eq in Hx.
      rewrite Hx. apply not_eq_sym in Hne. apply String.eqb_neq in Hne.
      now split.
  - cbn [snd profiles set_profiles]. unfold Db.insert. split.
    + intros Hinv u. cbn [profiles set_profiles].
      rewrite filter_app, length_app. cbn [filter].
      change (ProfileApi.ofUser u (ProfileApi.newProfile profileId fields))
        with (caller =? u).
      destruct (String.eqb_spec caller u) as [<-|Hne].
      * rewrite (findOne_none_filter _ _ Hold). cbn. lia.
      * cbn [List.length]. specialize (Hinv u). lia.
    + intros other Hne. rewrite filter_app. cbn [filter].
      change (ProfileApi.ofUser other (ProfileApi.newProfile profileId fields))
        with (caller =? other).
      apply not_eq_sym in Hne. apply String.eqb_neq in Hne. rewrite Hne.
      apply app_nil_r.
Qed.

Lemma upsert_keeps_one_profile_per_user_witness :
  oneProfilePerUser
    (snd (ProfileApi.upsert bob youtubeOnly "5f0000000000000000000b04"
            (snd (ProfileApi.upsert bob youtubeOnly
                    "5f0000000000000000000b03" profileDb))))
  /\ filter (ProfileApi.ofUser alice)
       (profiles (snd (ProfileApi.upsert bob youtubeOnly
                         "5f0000000000000000000b03" profileDb)))
     = filter (ProfileApi.ofUser alice) (profiles profileDb).
Proof.
  split.
  - apply (proj1 (upsert_keeps_one_profile_per_user bob youtubeOnly
                    "5f0000000000000000000b04" _)).
    apply (proj1 (upsert_keeps_one_profile_per_user bob youtubeOnly
                    "5f0000000000000000000b03" profileDb)).
    intros u. unfold profileDb. cbn [profiles filter].
    destruct (ProfileApi.ofUser u aliceProfile); cbn [List.length]; lia.
  - apply (proj2 (upsert_keeps_one_profile_per_user bob youtubeOnly
                    "5f0000000000000000000b03" profileDb)).
    discriminate.
Defined.

(** ** Profiles: posting the same form twice *)

Lemma set_fields_twice (f : ProfileApi.ProfileFields) (p : Profile) :
  ProfileApi.set_fields f (ProfileApi.set_fields f p)
  = ProfileApi.set_fields f p.
Proof.
  unfold ProfileApi.set_fields. cbn.
  destruct f as [u co we lo st bi gi sk so]. cbn.
  destruct co, we, lo, st, bi, gi, sk; reflexivity.
Qed.

Lemma set_fields_newProfile (f : ProfileApi.ProfileFields) (i : id) :
  ProfileApi.set_fields f (ProfileApi.newProfile i f)
  = ProfileApi.newProfile i f.
Proof.
  unfold ProfileApi.set_fields, ProfileApi.newProfile. cbn.
  destruct f as [u co we lo st bi gi sk so]. cbn.
  destruct co, we, lo, st, bi, gi, sk; reflexivity.
Qed.

Lemma findOneAndUpdate_insert_none {A : Type} (q : A -> bool) (f : A -> A)
    (c : list A) (d : A) :
  Db.findOne q c = None -> q d = true ->
  Db.findOneAndUpdate q f (Db.insert d c) = (Some (f d), Db.insert (f d) c).
Proof.
  unfold Db.findOne, Db.insert. intros Hn Hd.
  induction c as [|x c IH]; simpl in *.
  - now rewrite Hd.
  - destruct (q x); [discriminate|]. now rewrite (IH Hn).
Qed.

(** X13. Posting the same profile form a second time changes nothing:
    the second request is answered like the first and leaves the database
    the first one left, whether the first created the profile or updated
    it. *)
Theorem upsert_twice (caller : id) (b : ProfileApi.ReqBody)
    (profileId profileId2 : id) (db : DB) :
  ProfileApi.upsert caller b profileId2
    (snd (ProfileApi.upsert caller b profileId db))
  = ProfileApi.upsert caller b profileId db.
Proof.
  unfold ProfileApi.upsert.
  destruct (negb (isEmpty _)) eqn:Hv; cbn [snd]; [reflexivity|].
  set (fields := ProfileApi.buildProfileFields caller b).
  assert (Hq : forall x, ProfileApi.ofUser caller x = true ->
                 ProfileApi.ofUser caller (ProfileApi.set_fields fields x)
                 = true).
  { intros x Hx. unfold fields. now rewrite ofUser_set_fields. }
  destruct (Db.findOne (ProfileApi.ofUser caller) (profiles db))
    as [old|] eqn:Hold.
  - destruct (findOneAndUpdate_found (ProfileApi.ofUser caller)
                (ProfileApi.set_fields fields) (profiles db) old Hold
                (Hq old (findOne_true _ _ _ Hold))) as [Hret Hstored].
    pose proof (findOneAndUpdate_twice (ProfileApi.ofUser caller)
                  (ProfileApi.set_fields fields) (profiles db) Hq
                  (set_fields_twice fields)) as Htwice.
    destruct (Db.findOneAndUpdate (ProfileApi.ofUser caller)
                (ProfileApi.set_fields fields) (profiles db))
      as [ret stored] eqn:Hu.
    cbn [fst snd] in *. cbn [snd profiles set_profiles].
    rewrite Hstored, Htwice. reflexivity.
  - cbn [snd profiles set_profiles].
    assert (Hnew : ProfileApi.ofUser caller
                     (ProfileApi.newProfile profileId fields) = true).
    { unfold ProfileApi.ofUser, fields. cbn. apply String.eqb_refl. }
    rewrite (findOne_insert_none _ _ _ Hold Hnew).
    rewrite (findOneAndUpdate_insert_none _ _ _ _ Hold Hnew).
    rewrite set_fields_newProfile. reflexivity.
Qed.

(** ** Profiles: reading what was written *)

Lemma upsert_result (caller : id) (b : ProfileApi.ReqBody) (profileId : id)
    (db : DB) :
  notEmpty (ProfileApi.b_status b) = true ->
  notEmpty (ProfileApi.b_skills b) = true ->
  exists stored,
    fst (ProfileApi.upsert caller b profileId db) = ok (ProfileBody stored)
    /\ Db.findOne (ProfileApi.ofUser caller)
         (profiles (snd (ProfileApi.upsert caller b profileId db)))
       = Some stored
    /\ users (snd (ProfileApi.upsert caller b profileId db)) = users db
    /\ posts (snd (ProfileApi.upsert caller b profileId db)) = posts db.
Proof.
  intros Hstatus Hskills. unfold ProfileApi.upsert.
  rewrite (validation_passes b Hstatus Hskills). cbn [isEmpty negb].
  set (fields := ProfileApi.buildProfileFields caller b).
  destruct (Db.findOne (ProfileApi.ofUser caller) (profiles db))
    as [old|] eqn:Hold.
  - destruct (findOneAndUpdate_found (ProfileApi.ofUser caller)
                (ProfileApi.set_fields fields) (profiles db) old Hold)
      as [Hret Hstored].
    { unfold fields. rewrite ofUser_set_fields; now apply findOne_true in Hold. }
    destruct (Db.findOneAndUpdate (ProfileApi.ofUser caller)
                (ProfileApi.set_fields fields) (profiles db))
      as [ret stored'] eqn:Hu.
    cbn [fst snd] in Hret, Hstored. subst ret.
    exists (ProfileApi.set_fields fields old). now repeat split.
  - exists (ProfileApi.newProfile profileId fields).
    cbn [fst snd profiles set_profiles users posts].
    split; [reflexivity|]. split; [|now split].
    apply findOne_insert_none; [exact Hold|].
    unfold ProfileApi.ofUser, fields. cbn. apply String.eqb_refl.
Qed.

(** X14. After an upsert that passes validation, the caller reads under
    api/profile/me the profile the upsert answered, shown with the name
    and avatar of the caller's account; and anyone reads the same under
    api/profile/user/ followed by the caller's id. *)
Theorem upsert_then_read (ext : Externals) (caller : id)
    (b : ProfileApi.ReqBody) (profileId : id) (db : DB) :
  notEmpty (ProfileApi.b_status b) = true ->
  notEmpty (ProfileApi.b_skills b) = true ->
  isObjectId ext caller = true ->
  let db' := snd (ProfileApi.upsert caller b profileId db) in
  exists stored,
    fst (ProfileApi.upsert caller b profileId db) = ok (ProfileBody stored)
    /\ ProfileApi.getOwn caller db'
       = (200, ProfileApi.Shown (ProfileApi.populate (users db) stored))
    /\ ProfileApi.getByUser ext caller db' = ProfileApi.getOwn caller db'.
Proof.
  intros Hstatus Hskills Hoid db'.
  destruct (upsert_result caller b profileId db Hstatus Hskills)
    as (stored & Hres & Hstored & Husers & _).
  exists stored. split; [exact Hres|].
  unfold ProfileApi.getByUser, ProfileApi.ofUserParam, ProfileApi.getOwn, db'.
  rewrite Hoid, Hstored, Husers. now split.
Qed.

Lemma upsert_then_read_witness :
  exists stored,
    fst (ProfileApi.upsert alice youtubeOnly "5f0000000000000000000b02"
           profileDb) = ok (ProfileBody stored)
    /\ ProfileApi.getOwn alice
         (snd (ProfileApi.upsert alice youtubeOnly "5f0000000000000000000b02"
                 profileDb))
       = (200, ProfileApi.Shown
                 (ProfileApi.populate (users profileDb) stored))
    /\ ProfileApi.getByUser sampleExternals alice
         (snd (ProfileApi.upsert alice youtubeOnly "5f0000000000000000000b02"
                 profileDb))
       = ProfileApi.getOwn alice
           (snd (ProfileApi.upsert alice youtubeOnly
                   "5f0000000000000000000b02" profileDb)).
Proof.
  apply (upsert_then_read sampleExternals alice youtubeOnly
           "5f0000000000000000000b02" profileDb); reflexivity.
Defined.

(** ** Accounts: deletion *)

Section RemoveFacts.
Context {A : Type}.

Lemma findOneAndRemove_none (q : A -> bool) (c : list A) :
  List.length (filter q c) <= 1 ->
  Db.findOne q (Db.findOneAndRemove q c) = None.
Proof.
  unfold Db.findOne. induction c as [|x c IH]; simpl; [reflexivity|].
  destruct (q x) eqn:Hx; simpl.
  - intros Hlen. destruct (find q c) as [y|] eqn:Hf; [|reflexivity].
    apply find_some in Hf. destruct Hf as [Hin Hy].
    assert (Hy' : In y (filter q c)) by (apply filter_In; now split).
    destruct (filter q c); [destruct Hy' | simpl in Hlen; lia].
  - intros Hlen. rewrite Hx. now apply IH.
Qed.

Lemma findOneAndRemove_other (q q' : A -> bool) (c : list A) :
  (forall x, q x = true -> q' x = false) ->
  Db.findOne q' (Db.findOneAndRemove q c) = Db.findOne q' c.
Proof.
  unfold Db.findOne. intros Hdis.
  induction c as [|x c IH]; simpl; [reflexivity|].
  destruct (q x) eqn:Hx; simpl.
  - now rewrite (Hdis x Hx).
  - destruct (q' x); [reflexivity | exact IH].
Qed.

Lemma findOneAndRemove_In (q : A -> bool) (c : list A) (x : A) :
  In x (Db.findOneAndRemove q c) -> In x c.
Proof.
  induction c as [|y c IH]; simpl; [trivial|].
  destruct (q y); [now right|].
  intros [<-|Hin]; [now left | right; now apply IH].
Qed.

(** With distinct keys, what is left after the removal of the selected
    document has not the key of that document. *)
Lemma findOneAndRemove_key (q : A -> bool) (key : A -> string) (c : list A)
    (d : A) :
  NoDup (map key c) ->
  Db.findOne q c = Some d ->
  forall x, In x (Db.findOneAndRemove q c) -> key x <> key d.
Proof.
  unfold Db.findOne. induction c as [|y c IH]; simpl; [discriminate|].
  intros Hnd Hf x Hin. inversion Hnd as [|k ks Hnotin Hnd']; subst.
  destruct (q y) eqn:Hy.
  - injection Hf as <-. intros E. apply Hnotin. rewrite <- E.
    now apply in_map.
  - destruct Hin as [<-|Hin].
    + intros E. apply Hnotin. rewrite E. apply in_map.
      now apply find_some in Hf.
    + now apply IH.
Qed.

Lemma NoDup_filter_key (key : A -> string) (k : string) (c : list A) :
  NoDup (map key c) ->
  List.length (filter (fun x => key x =? k) c) <= 1.
Proof.
  induction c as [|y c IH]; simpl; [lia|].
  intros Hnd. inversion Hnd as [|k' ks Hnotin Hnd']; subst.
  destruct (String.eqb_spec (key y) k) as [E|_]; [|now apply IH].
  assert (Hnil : filter (fun x => key x =? k) c = []).
  { apply filter_nil_iff. intros a Ha. apply String.eqb_neq.
    intros E'. apply Hnotin. rewrite E, <- E'. now apply in_map. }
  rewrite Hnil. simpl. lia.
Qed.

End RemoveFacts.

Lemma find_none_all {A : Type} (q : A -> bool) (c : list A) :
  (forall x, In x c -> q x = false) -> find q c = None.
Proof.
  induction c as [|y c IH]; simpl; [reflexivity|].
  intros Hall. rewrite (Hall y (or_introl eq_refl)).
  apply IH. intros x Hx. apply Hall. now right.
Qed.

(** The accounts after DELETE api/profile. *)
Lemma deleteOwn_accounts (caller : id) (account : User) (db : DB) :
  Db.lookup caller (users db) = Some account ->
  NoDup (map user_id (users db)) ->
  NoDup (map user_email (users db)) ->
  let db' := snd (ProfileApi.deleteOwn caller db) in
  Db.lookup caller (users db') = None
  /\ Db.findOne (withEmail (user_email account)) (users db') = None.
Proof.
  intros Hacc Hids Hemails db'.
  unfold db', ProfileApi.deleteOwn.
  cbn [snd users profiles posts set_users set_profiles]. split.
  - exact (findOneAndRemove_none (fun u => user_id u =? caller) (users db)
             (NoDup_filter_key user_id caller _ Hids)).
  - unfold Db.findOne. apply find_none_all. intros x Hx.
    unfold withEmail. apply String.eqb_neq.
    exact (findOneAndRemove_key _ user_email _ account Hemails Hacc x Hx).
Qed.

(** The collections after DELETE api/profile. *)
Lemma deleteOwn_state (caller : id) (account : User) (db : DB) :
  Db.lookup caller (users db) = Some account ->
  NoDup (map user_id (users db)) ->
  NoDup (map user_email (users db)) ->
  oneProfilePerUser db ->
  let db' := snd (ProfileApi.deleteOwn caller db) in
  Db.findOne (ProfileApi.ofUser caller) (profiles db') = None
  /\ Db.lookup caller (users db') = None
  /\ Db.findOne (withEmail (user_email account)) (users db') = None
  /\ posts db' = posts db
  /\ (forall other, other <> caller ->
        Db.lookup other (users db') = Db.lookup other (users db)
        /\ Db.findOne (ProfileApi.ofUser other) (profiles db')
           = Db.findOne (ProfileApi.ofUser other) (profiles db)).
Proof.
  intros Hacc Hids Hemails Hone db'.
  unfold db', ProfileApi.deleteOwn.
  cbn [snd users profiles posts set_users set_profiles].
  split; [|split; [|split; [|split]]].
  - apply findOneAndRemove_none. apply Hone.
  - exact (findOneAndRemove_none (fun u => user_id u =? caller) (users db)
             (NoDup_filter_key user_id caller _ Hids)).
  - unfold Db.findOne. apply find_none_all. intros x Hx.
    unfold withEmail. apply String.eqb_neq.
    exact (findOneAndRemove_key _ user_email _ account Hemails Hacc x Hx).
  - reflexivity.
  - intros other Hne.
    assert (Hdis : forall a : string, (a =? caller) = true ->
                     (a =? other) = false).
    { intros a Ha. apply String.eqb_eq in Ha. subst a.
      apply String.eqb_neq. now apply not_eq_sym. }
    split.
    + unfold Db.lookup. apply findOneAndRemove_other.
      intros x Hx. exact (Hdis _ Hx).
    + apply findOneAndRemove_other.
      intros x Hx. exact (Hdis _ Hx).
Qed.

(** X15. After DELETE api/profile, for a caller with an account, in a
    database where ids and emails of accounts are distinct and no user has
    two profiles: the caller has no profile and no account any more; the
    posts are all still there (the caller's too), and the accounts and
    profiles of the other users are read as before. *)
Theorem deleteOwn_removes_profile_and_account (ext : Externals)
    (caller : id) (account : User) (db : DB) :
  Db.lookup caller (users db) = Some account ->
  NoDup (map user_id (users db)) ->
  NoDup (map user_email (users db)) ->
  oneProfilePerUser db ->
  let db' := snd (ProfileApi.deleteOwn caller db) in
  ProfileApi.getOwn caller db'
    = (400, ProfileApi.Refused (msg_obj "There is no profile for this user"))
  /\ AuthApi.getUser caller db' = (200, None)
  /\ posts db' = posts db
  /\ (forall other profile,
        other <> caller ->
        isObjectId ext other = true ->
        Db.findOne (ProfileApi.ofUser other) (profiles db) = Some profile ->
        AuthApi.getUser other db' = AuthApi.getUser other db
        /\ ProfileApi.getByUser ext other db'
           = (200, ProfileApi.Shown (ProfileApi.populate (users db) profile))).
Proof.
  intros Hacc Hids Hemails Hone db'.
  destruct (deleteOwn_state caller account db Hacc Hids Hemails Hone)
    as (Hprofile & Haccount & _ & Hposts & Hothers).
  fold db' in Hprofile, Haccount, Hposts, Hothers.
  split; [|split; [|split]].
  - unfold ProfileApi.getOwn. now rewrite Hprofile.
  - unfold AuthApi.getUser. now rewrite Haccount.
  - exact Hposts.
  - intros other profile Hne Hoid Hp.
    destruct (Hothers other Hne) as [Hu Hpr]. split.
    + unfold AuthApi.getUser. now rewrite Hu.
    + unfold ProfileApi.getByUser, ProfileApi.ofUserParam.
      rewrite Hoid, Hpr, Hp.
      unfold ProfileApi.populate.
      pose proof (findOne_true _ _ _ Hp) as Huser.
      unfold ProfileApi.ofUser in Huser. apply String.eqb_eq in Huser.
      now rewrite Huser, Hu.
Qed.

Lemma sampleUsers_ids_distinct : NoDup (map user_id sampleUsers).
Proof. repeat constructor; simpl; intuition discriminate. Qed.

Lemma sampleUsers_emails_distinct : NoDup (map user_email sampleUsers).
Proof. repeat constructor; simpl; intuition discriminate. Qed.

Lemma twoProfilesDb_one_profile_per_user : oneProfilePerUser twoProfilesDb.
Proof.
  intros u. unfold twoProfilesDb. cbn [profiles filter].
  unfold ProfileApi.ofUser. cbn [profile_user aliceProfile bobProfile].
  destruct (String.eqb_spec alice u) as [<-|_]; [cbn; lia|].
  destruct (bob =? u); cbn [List.length]; lia.
Qed.

Lemma deleteOwn_removes_profile_and_account_witness :
  ProfileApi.getOwn alice (snd (ProfileApi.deleteOwn alice twoProfilesDb))
    = (400, ProfileApi.Refused (msg_obj "There is no profile for this user"))
  /\ AuthApi.getUser alice (snd (ProfileApi.deleteOwn alice twoProfilesDb))
     = (200, None)
  /\ posts (snd (ProfileApi.deleteOwn alice twoProfilesDb)) = [alicePost]
  /\ AuthApi.getUser bob (snd (ProfileApi.deleteOwn alice twoProfilesDb))
     = AuthApi.getUser bob twoProfilesDb
  /\ ProfileApi.getByUser sampleExternals bob
       (snd (ProfileApi.deleteOwn alice twoProfilesDb))
     = (200, ProfileApi.Shown
               (ProfileApi.populate (users twoProfilesDb) bobProfile)).
Proof.
  destruct (deleteOwn_removes_profile_and_account sampleExternals alice
              (mkUser alice "Alice" "a@x.com" "//www.gravatar.com/avatar/a"
                      "pw123456$s1")
              twoProfilesDb eq_refl sampleUsers_ids_distinct
              sampleUsers_emails_distinct twoProfilesDb_one_profile_per_user)
    as (H1 & H2 & H3 & H4).
  split; [exact H1|]. split; [exact H2|]. split; [exact H3|].
  apply (H4 bob bobProfile); [discriminate | reflexivity | reflexivity].
Defined.

(** ** Accounts: registration, sign-in and deletion together *)

Lemma check_nil (param msg : string) (v : option string) (passes : bool) :
  check param msg v passes = [] -> passes = true.
Proof. unfold check. now destruct passes. Qed.

Lemma register_valid (ext : Externals) (b : UsersApi.ReqBody) :
  UsersApi.validate ext b = [] ->
  notEmpty (UsersApi.name b) = true
  /\ isEmail ext (field_string (UsersApi.email b)) = true
  /\ UsersApi.isLength 6 (UsersApi.password b) = true.
Proof.
  unfold UsersApi.validate. intros Hv.
  apply app_eq_nil in Hv. destruct Hv as [Hname Hv].
  apply app_eq_nil in Hv. destruct Hv as [Hemail Hpw].
  apply check_nil in Hname, Hemail, Hpw. now repeat split.
Qed.

Lemma isLength_present (v : option string) :
  UsersApi.isLength 6 v = true -> AuthApi.exists_ v = true.
Proof. destruct v; [reflexivity | discriminate]. Qed.

(** X16. Registration and sign-in fit together: after a registration
    answered 200, a sign-in with the same email and password is answered
    with a token for the id of the new account, provided the hashing
    library recognises the password in the hash it made of it; and a
    sign-in with a password the library does not recognise in that hash
    gets no token. *)
Theorem register_then_authenticate (ext : Externals)
    (b : UsersApi.ReqBody) (newId : id) (salt : string) (db : DB) :
  res_status (out_response (UsersApi.register ext b newId salt db)) = 200 ->
  let db1 := out_db (UsersApi.register ext b newId salt db) in
  let hashed := bcrypt_hash ext (field_string (UsersApi.password b)) salt in
  out_response (UsersApi.register ext b newId salt db)
    = ok (TokenBody (jwt_sign ext newId))
  /\ (bcrypt_compare ext (field_string (UsersApi.password b)) hashed = true ->
      out_response
        (AuthApi.authenticate ext
           (AuthApi.mkReqBody (UsersApi.email b) (UsersApi.password b)) db1)
      = ok (TokenBody (jwt_sign ext newId)))
  /\ (forall other,
        bcrypt_compare ext other hashed = false ->
        out_response
          (AuthApi.authenticate ext
             (AuthApi.mkReqBody (UsersApi.email b) (Some other)) db1)
        = mkResponse 400 (Literal (error_obj "Invalid Credentials"))).
Proof.
  intros Hok db1 hashed.
  destruct (register_success ext b newId salt db Hok) as (Hvalid & Hnew & Hdb).
  destruct (register_valid ext b Hvalid) as (_ & Hemail & Hpw).
  set (user := mkUser newId (field_string (UsersApi.name b))
                 (field_string (UsersApi.email b))
                 (gravatar_url ext (field_string (UsersApi.email b))) hashed).
  assert (Hfound : Db.findOne (withEmail (field_string (UsersApi.email b)))
                     (users db1) = Some user).
  { unfold db1. rewrite Hdb. cbn [users set_users].
    apply findOne_insert_none; [exact Hnew|].
    unfold withEmail, user. cbn. apply String.eqb_refl. }
  split; [|split].
  - revert Hok. unfold UsersApi.register.
    destruct (negb (isEmpty _)); [discriminate|].
    destruct (Db.findOne _ (users db)); [discriminate | reflexivity].
  - intros Hmatch.
    unfold AuthApi.authenticate, AuthApi.validate, check.
    cbn [AuthApi.email AuthApi.password].
    rewrite Hemail, (isLength_present _ Hpw). cbn [app isEmpty negb].
    rewrite Hfound. cbn [user_password user user_id].
    now rewrite Hmatch.
  - intros other Hmismatch.
    unfold AuthApi.authenticate, AuthApi.validate, check.
    cbn [AuthApi.email AuthApi.password AuthApi.exists_].
    rewrite Hemail. cbn [app isEmpty negb field_string].
    rewrite Hfound. cbn [user_password user user_id].
    now rewrite Hmismatch.
Qed.

Lemma register_then_authenticate_witness :
  out_response (UsersApi.register sampleExternals carolForm carolId "s3"
                  sampleDb)
    = ok (TokenBody "jwt.5f00000000000000000000a3")
  /\ out_response
       (AuthApi.authenticate sampleExternals
          (AuthApi.mkReqBody (Some "c@x.com") (Some "s3cretpw"))
          (out_db (UsersApi.register sampleExternals carolForm carolId "s3"
                     sampleDb)))
     = ok (TokenBody "jwt.5f00000000000000000000a3")
  /\ out_response
       (AuthApi.authenticate sampleExternals
          (AuthApi.mkReqBody (Some "c@x.com") (Some "guess123"))
          (out_db (UsersApi.register sampleExternals carolForm carolId "s3"
                     sampleDb)))
     = mkResponse 400 (Literal (error_obj "Invalid Credentials")).
Proof.
  destruct (register_then_authenticate sampleExternals carolForm carolId "s3"
              sampleDb eq_refl) as (Htoken & Hin & Hout).
  split; [exact Htoken|]. split.
  - apply Hin. reflexivity.
  - apply (Hout "guess123"). reflexivity.
Defined.

(** X17. A sign-in is answered 200 exactly when the form passes
    validation, an account has the email and the hashing library
    recognises the password in the hash of that account; the token is
    then the one signed for the id of that account.  In every case the
    database is left as it was. *)
Theorem authenticate_token_iff_match (ext : Externals)
    (b : AuthApi.ReqBody) (db : DB) :
  (res_status (out_response (AuthApi.authenticate ext b db)) = 200 <->
   AuthApi.validate ext b = []
   /\ exists account,
        Db.findOne (withEmail (field_string (AuthApi.email b))) (users db)
          = Some account
        /\ bcrypt_compare ext (field_string (AuthApi.password b))
                          (user_password account) = true
        /\ out_response (AuthApi.authenticate ext b db)
           = ok (TokenBody (jwt_sign ext (user_id account))))
  /\ out_db (AuthApi.authenticate ext b db) = db.
Proof.
  unfold AuthApi.authenticate.
  destruct (AuthApi.validate ext b) as [|e es] eqn:Hv; cbn [isEmpty negb].
  - destruct (Db.findOne (withEmail (field_string (AuthApi.email b)))
                (users db)) as [account|] eqn:Hf.
    + destruct (bcrypt_compare ext (field_string (AuthApi.password b))
                  (user_password account)) eqn:Hc; cbn [negb].
      * split; [|reflexivity]. split; [|reflexivity].
        intros _. split; [reflexivity|]. exists account. now repeat split.
      * split; [|reflexivity]. split; [discriminate|].
        intros (_ & account' & [= <-] & Hc' & _). congruence.
    + split; [|reflexivity]. split; [discriminate|].
      intros (_ & account' & [=] & _).
  - split; [|reflexivity]. split; [discriminate|]. intros [[=] _].
Qed.

(** X18. Once an account is deleted (in a database where ids and emails
    of accounts are distinct), a sign-in with its email is answered
    "Invalid Credentials" whatever the password, a registration with its
    email is accepted again, and a token issued to it before can neither
    create a post nor comment one. *)
Theorem after_deleteOwn (ext : Externals) (caller : id) (account : User)
    (db : DB) :
  Db.lookup caller (users db) = Some account ->
  NoDup (map user_id (users db)) ->
  NoDup (map user_email (users db)) ->
  let db' := snd (ProfileApi.deleteOwn caller db) in
  (forall b,
     AuthApi.validate ext b = [] ->
     field_string (AuthApi.email b) = user_email account ->
     out_response (AuthApi.authenticate ext b db')
       = mkResponse 400 (Literal (errors_obj "Invalid Credentials")))
  /\ (forall b newId salt,
        UsersApi.validate ext b = [] ->
        field_string (UsersApi.email b) = user_email account ->
        out_response (UsersApi.register ext b newId salt db')
          = ok (TokenBody (jwt_sign ext newId)))
  /\ (forall text postId,
        notEmpty text = true ->
        PostsApi.create caller text postId db' = (server_error, db'))
  /\ (forall postId text commentId,
        res_status
          (fst (PostsApi.addComment ext caller postId text commentId db'))
        <> 200).
Proof.
  intros Hacc Hids Hemails db'.
  destruct (deleteOwn_accounts caller account db Hacc Hids Hemails)
    as (Haccount & Hemail).
  fold db' in Haccount, Hemail.
  split; [|split; [|split]].
  - intros b Hv He. unfold AuthApi.authenticate.
    rewrite Hv, He, Hemail. reflexivity.
  - intros b newId salt Hv He. unfold UsersApi.register.
    rewrite Hv, He, Hemail. reflexivity.
  - intros text postId Htext. unfold PostsApi.create, check.
    now rewrite Htext, Haccount.
  - intros postId text commentId. unfold PostsApi.addComment.
    destruct (negb (isEmpty _)); [discriminate|].
    rewrite Haccount.
    destruct (findById ext postId (posts db')) as [[post|]|]; discriminate.
Qed.

Lemma after_deleteOwn_witness :
  out_response
    (AuthApi.authenticate sampleExternals
       (AuthApi.mkReqBody (Some "a@x.com") (Some "pw123456"))
       (snd (ProfileApi.deleteOwn alice twoProfilesDb)))
    = mkResponse 400 (Literal (errors_obj "Invalid Credentials"))
  /\ out_response
       (UsersApi.register sampleExternals
          (UsersApi.mkReqBody (Some "Alice") (Some "a@x.com")
                              (Some "pw123456"))
          carolId "s3" (snd (ProfileApi.deleteOwn alice twoProfilesDb)))
     = ok (TokenBody "jwt.5f00000000000000000000a3")
  /\ PostsApi.create alice (Some "hello again") "5f00000000000000000000c3"
       (snd (ProfileApi.deleteOwn alice twoProfilesDb))
     = (server_error, snd (ProfileApi.deleteOwn alice twoProfilesDb))
  /\ res_status
       (fst (PostsApi.addComment sampleExternals alice alicePostId
               (Some "hello again") firstCommentId
               (snd (ProfileApi.deleteOwn alice twoProfilesDb)))) <> 200.
Proof.
  destruct (after_deleteOwn sampleExternals alice
              (mkUser alice "Alice" "a@x.com" "//www.gravatar.com/avatar/a"
                      "pw123456$s1")
              twoProfilesDb eq_refl sampleUsers_ids_distinct
              sampleUsers_emails_distinct)
    as (H1 & H2 & H3 & H4).
  split; [apply H1; reflexivity|]. split; [apply H2; reflexivity|].
  split; [apply H3; reflexivity | apply H4].
Defined.

(** ** The client's auth state *)

Lemma authReducer_consistent (state : Client.AuthState) (a : Client.Action)
    (storage : option string) :
  Client.consistent state storage ->
  Client.consistent (fst (Client.authReducer state a storage))
                    (snd (Client.authReducer state a storage)).
Proof.
  intros [Htoken Hout]. unfold Client.consistent.
  destruct a; cbn; try (split; [reflexivity|]; intros; try discriminate;
                        now split).
  - split; [exact Htoken | discriminate].
  - split; [exact Htoken | exact Hout].
Qed.

(** X19. Whatever actions reach the reducer, the token of the state is
    the token kept in the local storage, and a state that says "not
    authenticated" holds neither a token nor a user, when this was so
    before; it is so in the initial state. *)
Theorem reducer_keeps_token_and_storage_equal (actions : list Client.Action)
    (state : Client.AuthState) (storage : option string) :
  Client.consistent state storage ->
  Client.consistent (fst (Client.reduce actions state storage))
                    (snd (Client.reduce actions state storage)).
Proof.
  revert state storage.
  induction actions as [|a actions IH]; intros state storage Hc.
  - exact Hc.
  - cbn [Client.reduce].
    pose proof (authReducer_consistent state a storage Hc) as Hstep.
    destruct (Client.authReducer state a storage) as [state' storage'].
    now apply IH.
Qed.

Lemma reducer_keeps_token_and_storage_equal_witness :
  Client.consistent
    (fst (Client.reduce
            [Client.LOGIN_SUCCESS "jwt.5f00000000000000000000a1";
             Client.USER_LOADED None; Client.OTHER; Client.LOGOUT;
             Client.REGISTER_SUCCESS "jwt.5f00000000000000000000a3"]
            (Client.initialState (Some "stale")) (Some "stale")))
    (snd (Client.reduce
            [Client.LOGIN_SUCCESS "jwt.5f00000000000000000000a1";
             Client.USER_LOADED None; Client.OTHER; Client.LOGOUT;
             Client.REGISTER_SUCCESS "jwt.5f00000000000000000000a3"]
            (Client.initialState (Some "stale")) (Some "stale"))).
Proof.
  apply reducer_keeps_token_and_storage_equal.
  split; [reflexivity | discriminate].
Defined.

Lemma failure_actions (r : Response) (fail : Client.Action) :
  Client.authActions (Client.failure r fail) = [fail].
Proof.
  unfold Client.failure, Client.authActions.
  rewrite flat_map_app. cbn [flat_map app].
  destruct (client_errors (res_body r)) as [errors|]; [|reflexivity].
  induction errors as [|m errors IH]; [reflexivity | exact IH].
Qed.

(** X20. The client and the server agree on who is signed in: after the
    dispatches of [login] on the server's answer to a sign-in, the client
    holds in its state and in the local storage the token the server
    issued when the answer is 200, and no token, no user and "not
    authenticated" when it is not; whatever the state was before. *)
Theorem login_holds_token_iff_issued (ext : Externals) (b : AuthApi.ReqBody)
    (db : DB) (state : Client.AuthState) (storage : option string) :
  let r := out_response (AuthApi.authenticate ext b db) in
  let after := Client.reduce (Client.authActions (Client.login r))
                             state storage in
  (res_status r = 200 ->
   exists account,
     Db.findOne (withEmail (field_string (AuthApi.email b))) (users db)
       = Some account
     /\ after = (Client.mkAuthState (Some (jwt_sign ext (user_id account)))
                   (Some true) false (Client.user state),
                 Some (jwt_sign ext (user_id account))))
  /\ (res_status r <> 200 ->
      after = (Client.mkAuthState None (Some false) false None, None)).
Proof.
  intros r after. unfold after, r, AuthApi.authenticate.
  destruct (negb (isEmpty (AuthApi.validate ext b))).
  - split; [discriminate|]. intros _.
    unfold Client.login. cbn [out_response Client.resolves res_status
                                res_body andb Nat.leb Nat.ltb].
    now rewrite failure_actions.
  - destruct (Db.findOne (withEmail (field_string (AuthApi.email b)))
                (users db)) as [account|].
    + destruct (negb (bcrypt_compare ext (field_string (AuthApi.password b))
                        (user_password account))).
      * split; [discriminate|]. intros _. reflexivity.
      * split; [|intros Hne; now contradiction Hne].
        intros _. exists account. split; reflexivity.
    + split; [discriminate|]. intros _. reflexivity.
Qed.

Lemma login_holds_token_iff_issued_witness :
  Client.reduce
    (Client.authActions
       (Client.login
          (out_response
             (AuthApi.authenticate sampleExternals
                (AuthApi.mkReqBody (Some "a@x.com") (Some "pw123456"))
                sampleDb))))
    (Client.initialState None) None
  = (Client.mkAuthState (Some "jwt.5f00000000000000000000a1") (Some true)
       false None,
     Some "jwt.5f00000000000000000000a1")
  /\ Client.reduce
       (Client.authActions
          (Client.login
             (out_response
                (AuthApi.authenticate sampleExternals wrongPasswordForm
                   sampleDb))))
       (Client.mkAuthState (Some "old") (Some true) false None) (Some "old")
     = (Client.mkAuthState None (Some false) false None, None).
Proof.
  split.
  - destruct (proj1 (login_holds_token_iff_issued sampleExternals
                       (AuthApi.mkReqBody (Some "a@x.com") (Some "pw123456"))
                       sampleDb (Client.initialState None) None) eq_refl)
      as (account & Hacc & Hafter).
    injection Hacc as <-. exact Hafter.
  - apply (proj2 (login_holds_token_iff_issued sampleExternals
                    wrongPasswordForm sampleDb
                    (Client.mkAuthState (Some "old") (Some true) false None)
                    (Some "old"))).
    discriminate.
Defined.

(** X21. The same for a registration: after the dispatches of [register]
    on the server's answer, the client holds the token signed for the new
    account when the answer is 200, and no token, no user and "not
    authenticated" otherwise. *)
Theorem register_holds_token_iff_issued (ext : Externals)
    (b : UsersApi.ReqBody) (newId : id) (salt : string) (db : DB)
    (state : Client.AuthState) (storage : option string) :
  let r := out_response (UsersApi.register ext b newId salt db) in
  let after := Client.reduce (Client.authActions (Client.register r))
                             state storage in
  (res_status r = 200 ->
   after = (Client.mkAuthState (Some (jwt_sign ext newId)) (Some true) false
              (Client.user state),
            Some (jwt_sign ext newId)))
  /\ (res_status r <> 200 ->
      after = (Client.mkAuthState None (Some false) false None, None)).
Proof.
  intros r after. unfold after, r, UsersApi.register.
  destruct (negb (isEmpty (UsersApi.validate ext b))).
  - split; [discriminate|]. intros _.
    unfold Client.register. cbn [out_response Client.resolves res_status
                                   res_body andb Nat.leb Nat.ltb].
    now rewrite failure_actions.
  - destruct (Db.findOne (withEmail (field_string (UsersApi.email b)))
                (users db)) as [account|].
    + split; [discriminate|]. intros _. reflexivity.
    + split; [|intros Hne; now contradiction Hne].
      intros _. reflexivity.
Qed.

Lemma register_holds_token_iff_issued_witness :
  Client.reduce
    (Client.authActions
       (Client.register
          (out_response
             (UsersApi.register sampleExternals carolForm carolId "s3"
                sampleDb))))
    (Client.initialState None) None
  = (Client.mkAuthState (Some "jwt.5f00000000000000000000a3") (Some true)
       false None,
     Some "jwt.5f00000000000000000000a3")
  /\ Client.reduce
       (Client.authActions
          (Client.register
             (out_response
                (UsersApi.register sampleExternals shortPasswordForm carolId
                   "s3" sampleDb))))
       (Client.initialState (Some "old")) (Some "old")
     = (Client.mkAuthState None (Some false) false None, None).
Proof.
  split.
  - apply (proj1 (register_holds_token_iff_issued sampleExternals carolForm
                    carolId "s3" sampleDb (Client.initialState None) None)).
    reflexivity.
  - apply (proj2 (register_holds_token_iff_issued sampleExternals
                    shortPasswordForm carolId "s3" sampleDb
                    (Client.initialState (Some "old")) (Some "old"))).
    discriminate.
Defined.

(** ** The skills of a profile: split and trim *)

Section StringFacts.

Lemma append_nil_r (s : string) : (s ++ "")%string = s.
Proof. induction s as [|c s IH]; simpl; [reflexivity | now rewrite IH]. Qed.

Lemma append_assoc (a b c : string) :
  ((a ++ b) ++ c)%string = (a ++ (b ++ c))%string.
Proof. induction a as [|x a IH]; simpl; [reflexivity | now rewrite IH]. Qed.

Lemma rev_string_acc (s acc : string) :
  Js.rev_string acc s = (Js.rev_string "" s ++ acc)%string.
Proof.
  revert acc. induction s as [|c s IH]; intros acc; simpl; [reflexivity|].
  rewrite (IH (String c acc)), (IH (String c "")).
  now rewrite append_assoc.
Qed.

Lemma rev_string_app (a b : string) :
  Js.rev_string "" (a ++ b)
  = (Js.rev_string "" b ++ Js.rev_string "" a)%string.
Proof.
  induction a as [|c a IH]; simpl.
  - now rewrite append_nil_r.
  - rewrite (rev_string_acc (a ++ b)), (rev_string_acc a), IH.
    now rewrite append_assoc.
Qed.

Lemma rev_string_involutive (s : string) :
  Js.rev_string "" (Js.rev_string "" s) = s.
Proof.
  induction s as [|c s IH]; simpl; [reflexivity|].
  rewrite (rev_string_acc s), rev_string_app, IH. reflexivity.
Qed.

Lemma occurs_app (c : ascii) (a b : string) :
  occurs c (a ++ b) = occurs c a || occurs c b.
Proof.
  induction a as [|x a IH]; simpl; [reflexivity|].
  now rewrite IH, orb_assoc.
Qed.

Lemma occurs_rev (c : ascii) (s : string) :
  occurs c (Js.rev_string "" s) = occurs c s.
Proof.
  induction s as [|x s IH]; simpl; [reflexivity|].
  rewrite rev_string_acc, occurs_app, IH. simpl.
  rewrite orb_false_r. apply orb_comm.
Qed.

Lemma split_comma_acc_join (s cur : string) :
  joinComma (Js.split_comma_acc cur s) = (Js.rev_string "" cur ++ s)%string.
Proof.
  enough (Hgen : forall s cur, exists p ps,
             Js.split_comma_acc cur s = p :: ps
             /\ (p ++ joinRest ps)%string
                = (Js.rev_string "" cur ++ s)%string).
  { destruct (Hgen s cur) as (p & ps & -> & Hjoin). exact Hjoin. }
  clear s cur. induction s as [|c s IH]; intros cur; simpl.
  - exists (Js.rev_string "" cur), []. now split.
  - destruct (Ascii.eqb_spec c ","%char) as [->|_].
    + destruct (IH "") as (p & ps & Hsplit & Hjoin).
      exists (Js.rev_string "" cur), (p :: ps). rewrite Hsplit.
      split; [reflexivity|]. simpl in *. now rewrite Hjoin.
    + destruct (IH (String c cur)) as (p & ps & Hsplit & Hjoin).
      exists p, ps. split; [exact Hsplit|]. rewrite Hjoin. simpl.
      rewrite (rev_string_acc cur), append_assoc. reflexivity.
Qed.

Lemma split_comma_acc_pieces (s cur : string) :
  occurs ","%char cur = false ->
  forall piece, In piece (Js.split_comma_acc cur s) ->
    occurs ","%char piece = false.
Proof.
  revert cur. induction s as [|c s IH]; intros cur Hcur piece; simpl.
  - intros [<-|[]]. now rewrite occurs_rev.
  - destruct (Ascii.eqb_spec c ","%char) as [->|Hc].
    + intros [<-|Hin]; [now rewrite occurs_rev|].
      now apply (IH "").
    + apply IH. simpl. rewrite Hcur.
      apply Ascii.eqb_neq in Hc. now rewrite Hc.
Qed.

Lemma split_comma_acc_length (s cur : string) :
  List.length (Js.split_comma_acc cur s) = S (occurrences ","%char s).
Proof.
  revert cur. induction s as [|c s IH]; intros cur; simpl; [reflexivity|].
  destruct (Ascii.eqb c ","%char); simpl; now rewrite IH.
Qed.

End StringFacts.

(** X22. Splitting a string at its commas loses nothing: the pieces,
    joined with commas, are the string; no piece has a comma; and there
    is one piece more than the string has commas (so one piece, the empty
    string, for the empty string). *)
Theorem split_comma_join (s : string) :
  joinComma (Js.split_comma s) = s
  /\ (forall piece, In piece (Js.split_comma s) ->
        occurs ","%char piece = false)
  /\ List.length (Js.split_comma s) = S (occurrences ","%char s).
Proof.
  unfold Js.split_comma. split; [|split].
  - apply split_comma_acc_join.
  - now apply split_comma_acc_pieces.
  - apply split_comma_acc_length.
Qed.

(** *** What [strip] removes *)

Section StripFacts.
Variable table : list string.

Lemma listed_In (w : string) : Js.listed table w = true <-> In w table.
Proof.
  unfold Js.listed. rewrite existsb_exists. split.
  - intros (x & Hx & E). apply String.eqb_eq in E. now subst.
  - intros Hin. exists w. split; [exact Hin | apply String.eqb_refl].
Qed.

Lemma Chunks_app (a b : string) :
  Chunks table a -> Chunks table b -> Chunks table (a ++ b)%string.
Proof.
  induction 1 as [|w s Hw Hs IH]; intros Hb; [exact Hb|].
  rewrite append_assoc. constructor; [exact Hw | now apply IH].
Qed.

Lemma Chunks_one (w : string) : In w table -> Chunks table w.
Proof.
  intros Hw. rewrite <- (append_nil_r w). constructor; [exact Hw|constructor].
Qed.

(** A string that starts with a character of the table passes one of the
    three tests of [strip]. *)
Lemma StartsWith_listed (s : string) :
  ShortChunks table ->
  StartsWith table s ->
  match s with
  | EmptyString => False
  | String c1 s1 =>
      Js.listed table (String c1 "") = true
      \/ match s1 with
         | EmptyString => False
         | String c2 s2 =>
             Js.listed table (String c1 (String c2 "")) = true
             \/ match s2 with
                | EmptyString => False
                | String c3 _ =>
                    Js.listed table (String c1 (String c2 (String c3 "")))
                    = true
                end
         end
  end.
Proof.
  intros Hshort (w & rest & Hw & ->).
  pose proof (Hshort w Hw) as Hlen. apply listed_In in Hw.
  destruct w as [|c1 [|c2 [|c3 [|c4 w]]]]; simpl in Hlen; try lia; simpl.
  - now left.
  - right. now left.
  - right. right. exact Hw.
Qed.

Lemma strip_spec :
  ShortChunks table ->
  forall s,
  exists lead,
    s = (lead ++ Js.strip table s)%string
    /\ Chunks table lead
    /\ ~ StartsWith table (Js.strip table s).
Proof.
  intros Hshort s.
  remember (String.length s) as n eqn:Hn.
  revert s Hn. induction n as [n IH] using lt_wf_ind. intros s Hn.
  assert (Hrec : forall w rest,
             s = (w ++ rest)%string -> Js.listed table w = true ->
             Js.strip table s = Js.strip table rest ->
             String.length rest < n ->
             exists lead,
               s = (lead ++ Js.strip table s)%string
               /\ Chunks table lead
               /\ ~ StartsWith table (Js.strip table s)).
  { intros w rest Hs Hw Hstrip Hlt.
    destruct (IH (String.length rest) Hlt rest eq_refl)
      as (lead & Hrest & Hlead & Hstart).
    exists (w ++ lead)%string. rewrite Hstrip.
    split; [|split; [|exact Hstart]].
    - rewrite append_assoc, <- Hrest. exact Hs.
    - apply Chunks_app; [|exact Hlead].
      apply Chunks_one. now apply listed_In. }
  assert (Hstop : Js.strip table s = s ->
             (StartsWith table s -> False) ->
             exists lead,
               s = (lead ++ Js.strip table s)%string
               /\ Chunks table lead
               /\ ~ StartsWith table (Js.strip table s)).
  { intros -> Hno. exists "". split; [reflexivity|].
    split; [constructor | exact Hno]. }
  destruct s as [|c1 s1].
  - apply Hstop; [reflexivity|].
    intros Hs. exact (StartsWith_listed "" Hshort Hs).
  - destruct (Js.listed table (String c1 "")) eqn:H1.
    + apply (Hrec (String c1 "") s1); [reflexivity | exact H1 | |].
      * simpl. now rewrite H1.
      * subst n. simpl. lia.
    + destruct s1 as [|c2 s2].
      * apply Hstop; [simpl; now rewrite H1|].
        intros Hs. apply StartsWith_listed in Hs; [|exact Hshort].
        destruct Hs as [Hs|[]]. congruence.
      * destruct (Js.listed table (String c1 (String c2 ""))) eqn:H2.
        -- apply (Hrec (String c1 (String c2 "")) s2);
             [reflexivity | exact H2 | |].
           ++ simpl. now rewrite H1, H2.
           ++ subst n. simpl. lia.
        -- destruct s2 as [|c3 s3].
           ++ apply Hstop; [simpl; now rewrite H1, H2|].
              intros Hs. apply StartsWith_listed in Hs; [|exact Hshort].
              destruct Hs as [Hs|[Hs|[]]]; congruence.
           ++ destruct (Js.listed table
                          (String c1 (String c2 (String c3 "")))) eqn:H3.
              ** apply (Hrec (String c1 (String c2 (String c3 ""))) s3);
                   [reflexivity | exact H3 | |].
                 --- simpl. now rewrite H1, H2, H3.
                 --- subst n. simpl. lia.
              ** apply Hstop; [simpl; now rewrite H1, H2, H3|].
                 intros Hs. apply StartsWith_listed in Hs; [|exact Hshort].
                 destruct Hs as [Hs|[Hs|Hs]]; congruence.
Qed.

End StripFacts.

Lemma Chunks_rev (table : list string) (s : string) :
  Chunks (map (Js.rev_string "") table) s ->
  Chunks table (Js.rev_string "" s).
Proof.
  induction 1 as [|w s Hw Hs IH]; [constructor|].
  rewrite rev_string_app. apply Chunks_app; [exact IH|].
  apply in_map_iff in Hw. destruct Hw as (w0 & <- & Hw0).
  rewrite rev_string_involutive. now apply Chunks_one.
Qed.

Lemma EndsWith_rev (table : list string) (u : string) :
  EndsWith table (Js.rev_string "" u) ->
  StartsWith (map (Js.rev_string "") table) u.
Proof.
  intros (w & init & Hw & Hu).
  exists (Js.rev_string "" w), (Js.rev_string "" init).
  split; [now apply in_map|].
  rewrite <- rev_string_app, <- Hu. symmetry. apply rev_string_involutive.
Qed.

Lemma rev_string_length (s : string) :
  String.length (Js.rev_string "" s) = String.length s.
Proof.
  enough (Hgen : forall acc, String.length (Js.rev_string acc s)
                             = String.length s + String.length acc)
    by (rewrite Hgen; simpl; lia).
  induction s as [|c s IH]; intros acc; simpl; [reflexivity|].
  rewrite IH. simpl. lia.
Qed.

Lemma whiteSpace_short : ShortChunks Js.whiteSpace.
Proof.
  assert (Hall : forallb (fun w => (1 <=? String.length w)
                                   && (String.length w <=? 3))%nat
                         Js.whiteSpace = true) by reflexivity.
  intros w Hw. rewrite forallb_forall in Hall. specialize (Hall w Hw).
  apply andb_true_iff in Hall. destruct Hall as [H1 H3].
  apply Nat.leb_le in H1, H3. lia.
Qed.

Lemma whiteSpace_rev_short :
  ShortChunks (map (Js.rev_string "") Js.whiteSpace).
Proof.
  intros w Hw. apply in_map_iff in Hw. destruct Hw as (w0 & <- & Hw0).
  rewrite rev_string_length. now apply whiteSpace_short.
Qed.

Lemma trim_spec (s : string) : TrimmedOf s (Js.trim s).
Proof.
  destruct (strip_spec Js.whiteSpace whiteSpace_short s)
    as (lead & Hs & Hlead & Hstart).
  fold (Js.trim_start s) in Hs, Hstart.
  destruct (strip_spec (map (Js.rev_string "") Js.whiteSpace)
              whiteSpace_rev_short (Js.rev_string "" (Js.trim_start s)))
    as (lead2 & Hrev & Hlead2 & Hstart2).
  set (t := Js.trim_start s) in *.
  set (u := Js.strip (map (Js.rev_string "") Js.whiteSpace)
              (Js.rev_string "" t)) in *.
  assert (Ht : t = (Js.rev_string "" u ++ Js.rev_string "" lead2)%string).
  { rewrite <- (rev_string_involutive t), Hrev. apply rev_string_app. }
  exists lead, (Js.rev_string "" lead2).
  change (Js.trim s) with (Js.rev_string "" u).
  split; [now rewrite <- Ht|]. split; [exact Hlead|].
  split; [now apply Chunks_rev|]. split.
  - intros (w & rest & Hw & Hu). apply Hstart.
    exists w, (rest ++ Js.rev_string "" lead2)%string.
    split; [exact Hw|]. rewrite Ht, Hu. apply append_assoc.
  - intros Hend. apply Hstart2. now apply EndsWith_rev.
Qed.

(** X23. Trimming removes the white space at both ends and nothing else:
    the string is the trimmed string between two runs of white space
    characters (those of ECMAScript, in UTF-8), and the trimmed string
    neither starts nor ends with such a character. *)
Theorem trim_removes_surrounding_space (s : string) :
  exists lead trail,
    s = (lead ++ Js.trim s ++ trail)%string
    /\ Chunks Js.whiteSpace lead
    /\ Chunks Js.whiteSpace trail
    /\ ~ StartsWith Js.whiteSpace (Js.trim s)
    /\ ~ EndsWith Js.whiteSpace (Js.trim s).
Proof. exact (trim_spec s). Qed.

(** X24. The skills a profile form gives as one string are stored as the
    pieces between its commas, each without the white space around it:
    there are pieces, without a comma, whose join with commas is the
    given string, and the stored skills are, one for one and in order,
    these pieces without the white space at their ends. *)
Theorem skills_are_trimmed_pieces (caller : id) (b : ProfileApi.ReqBody)
    (given : string) :
  ProfileApi.b_skills b = Some given ->
  given <> "" ->
  exists pieces stored,
    ProfileApi.pf_skills (ProfileApi.buildProfileFields caller b)
      = Some stored
    /\ joinComma pieces = given
    /\ (forall piece, In piece pieces -> occurs ","%char piece = false)
    /\ Forall2 TrimmedOf pieces stored.
Proof.
  intros Hgiven Hne.
  exists (Js.split_comma given), (map Js.trim (Js.split_comma given)).
  split; [|split; [|split]].
  - unfold ProfileApi.buildProfileFields. cbn [ProfileApi.pf_skills].
    rewrite Hgiven. cbn [Js.truthy field_string].
    apply String.eqb_neq in Hne. now rewrite Hne.
  - apply split_comma_acc_join.
  - now apply split_comma_acc_pieces.
  - induction (Js.split_comma given) as [|piece pieces IH]; simpl.
    + constructor.
    + constructor; [apply trim_spec | exact IH].
Qed.

Lemma skills_are_trimmed_pieces_witness :
  exists pieces stored,
    ProfileApi.pf_skills (ProfileApi.buildProfileFields alice youtubeOnly)
      = Some stored
    /\ joinComma pieces = "go, rust, c++"
    /\ (forall piece, In piece pieces -> occurs ","%char piece = false)
    /\ Forall2 TrimmedOf pieces stored.
Proof.
  apply (skills_are_trimmed_pieces alice youtubeOnly "go, rust, c++").
  - reflexivity.
  - discriminate.
Defined.

(** ** Posts: after a deletion *)

(** X25. Once its author has deleted a post, every route answers 404
    "Post Not Found" for its id and changes nothing: reading, deleting
    again, liking, unliking, commenting (with a text, by a caller with an
    account or not) and removing a comment. *)
Theorem deleted_post_is_gone (ext : Externals) (author : id)
    (postId : string) (post : Post) (db : DB) :
  findById ext postId (posts db) = Resolved (Some post) ->
  post_user post = author ->
  let db' := snd (PostsApi.delete ext author postId db) in
  forall caller,
    PostsApi.getById ext postId db' = (PostsApi.not_found, db')
    /\ PostsApi.delete ext caller postId db' = (PostsApi.not_found, db')
    /\ (forall likeId,
          PostsApi.like ext caller postId likeId db'
            = (PostsApi.not_found, db'))
    /\ PostsApi.unlike ext caller postId db' = (PostsApi.not_found, db')
    /\ (forall text commentId,
          notEmpty text = true ->
          PostsApi.addComment ext caller postId text commentId db'
            = (PostsApi.not_found, db'))
    /\ (forall commentId,
          PostsApi.removeComment ext caller postId commentId db'
            = (PostsApi.not_found, db')).
Proof.
  intros Hf Hauthor db' caller.
  assert (Hgone : findById ext postId (posts db') = Resolved None).
  { apply findById_resolved in Hf. destruct Hf as [Hoid Hl].
    pose proof (lookup_id _ _ _ Hl) as Hid.
    apply findById_resolved. split; [exact Hoid|].
    unfold db', PostsApi.delete, findById. rewrite Hoid, Hl.
    apply String.eqb_eq in Hauthor. rewrite Hauthor.
    cbn [negb snd posts set_posts].
    exact (lookup_remove_hit postId post _ Hid). }
  unfold PostsApi.getById, PostsApi.delete, PostsApi.like, PostsApi.unlike,
    PostsApi.addComment, PostsApi.removeComment, check.
  rewrite Hgone. repeat split.
  intros text commentId ->. reflexivity.
Qed.

Lemma deleted_post_is_gone_witness :
  PostsApi.getById sampleExternals alicePostId
    (snd (PostsApi.delete sampleExternals alice alicePostId sampleDb))
    = (PostsApi.not_found,
       snd (PostsApi.delete sampleExternals alice alicePostId sampleDb))
  /\ PostsApi.like sampleExternals bob alicePostId "5f00000000000000000000d1"
       (snd (PostsApi.delete sampleExternals alice alicePostId sampleDb))
     = (PostsApi.not_found,
        snd (PostsApi.delete sampleExternals alice alicePostId sampleDb))
  /\ PostsApi.addComment sampleExternals bob alicePostId (Some "too late")
       firstCommentId
       (snd (PostsApi.delete sampleExternals alice alicePostId sampleDb))
     = (PostsApi.not_found,
        snd (PostsApi.delete sampleExternals alice alicePostId sampleDb)).
Proof.
  destruct (deleted_post_is_gone sampleExternals alice alicePostId alicePost
              sampleDb eq_refl eq_refl bob)
    as (Hget & _ & Hlike & _ & Hcomment & _).
  split; [exact Hget|]. split; [apply Hlike|].
  apply Hcomment. reflexivity.
Defined.
